(** * Weather summaries: a shallow embedding of [plus-weather-project-template.py]

    The Python module turns a list of rows [[date, min_temp, max_temp]]
    (temperatures in Fahrenheit) into two text reports.  This file embeds
    its functions one by one, together with the few Python built-ins they
    call, and proves the properties the specification states about them.

    Modelling choices, all taken from the source and from the behaviour
    of CPython 3.11:
    - a Python [float] is an IEEE-754 binary64 value, represented by
      [spec_float] at precision 53 and [emax] 1024 with the operations of
      [SpecFloat] (correctly rounded, ties to even);
    - a Python [int] is a [Z]; a number is an [int] or a [float];
    - an exception is a value of [exn] carried by the [result] monad;
    - a Python [str] is the Rocq [string] of its UTF-8 bytes, one [ascii]
      per character of ASCII text; the degree sign of the output takes
      two;
    - a row of the data set is a record of a date string and two
      numbers. *)

From Stdlib Require Import ZArith List String Ascii Bool Lia.
From Stdlib Require Import Floats.SpecFloat.
Import ListNotations.

Local Open Scope string_scope.
Local Open Scope Z_scope.

(** ** Exceptions and the error monad *)

(** The exceptions the program can run into. *)
Inductive exn : Type :=
| ValueError
| OverflowError
| IndexError.

Inductive result (A : Type) : Type :=
| OK (a : A)
| Raise (e : exn).

Arguments OK {A} a.
Arguments Raise {A} e.

Definition bind {A B : Type} (r : result A) (k : A -> result B) : result B :=
  match r with
  | OK a => k a
  | Raise e => Raise e
  end.

Notation "x <- c ;; k" := (bind c (fun x => k))
  (at level 61, c at next level, right associativity).

(** [[f(x) for x in l]] with a fallible [f]: the first exception wins. *)
Fixpoint mapM {A B : Type} (f : A -> result B) (l : list A) : result (list B) :=
  match l with
  | [] => OK []
  | x :: l' =>
      y <- f x ;;
      ys <- mapM f l' ;;
      OK (y :: ys)
  end.

(** ** Python numbers *)

Module Py.

(** binary64 *)
Definition prec : Z := 53.
Definition emax : Z := 1024.

Definition float : Type := spec_float.

Definition fadd : float -> float -> float := SFadd prec emax.
Definition fsub : float -> float -> float := SFsub prec emax.
Definition fmul : float -> float -> float := SFmul prec emax.
(** The program divides by 9 and by the length of a non-empty list only,
    so the [ZeroDivisionError] of Python's division is left out. *)
Definition fdiv : float -> float -> float := SFdiv prec emax.
Definition flt : float -> float -> bool := SFltb.
Definition feq : float -> float -> bool := SFeqb.
Definition fle : float -> float -> bool := SFleb.

Definition is_nan (x : float) : bool :=
  match x with
  | S754_nan => true
  | _ => false
  end.

(** The nearest binary64 to an integer (ties to even); an infinity when the
    integer is beyond the range. *)
Definition float_of_Z (z : Z) : float := binary_normalize prec emax z 0 false.

(** The numbers the program handles: [int] and [float]. *)
Inductive num : Type :=
| Int (z : Z)
| Float (f : float).

(** [float(x)]: the identity on a float; an int is rounded to the nearest
    float, and [OverflowError] is raised when it is too large. *)
Definition float_ (v : num) : result float :=
  match v with
  | Float f => OK f
  | Int z =>
      match float_of_Z z with
      | S754_infinity _ => Raise OverflowError
      | f => OK f
      end
  end.

(** *** [round(x, ndigits)] on a float

    CPython rounds the exact binary value of [x] to [ndigits] decimal
    places, ties to even (dtoa, mode 3), and converts the decimal back to
    the nearest float (strtod).  Zeros, infinities and NaN round to
    themselves. *)

(** The integer nearest to [a / b], ties to even ([0 < b]). *)
Definition div_half_even (a b : Z) : Z :=
  let q := a / b in
  match 2 * (a mod b) ?= b with
  | Lt => q
  | Gt => q + 1
  | Eq => if Z.even q then q else q + 1
  end.

(** The magnitude [m * 2^e], scaled by [10^ndigits] and rounded to an
    integer. *)
Definition scaled_digits (m : positive) (e : Z) (ndigits : nat) : Z :=
  let p := 10 ^ Z.of_nat ndigits in
  if 0 <=? e then Zpos m * 2 ^ e * p
  else div_half_even (Zpos m * p) (2 ^ (- e)).

(** The float nearest to [(-1)^s * n / 10^ndigits], for [0 <= n]. *)
Definition decimal_to_float (s : bool) (n : Z) (ndigits : nat) : float :=
  match n with
  | Z0 => S754_zero s
  | _ =>
      let '(q, e, l) :=
        SFdiv_core_binary prec emax n 0 (10 ^ Z.of_nat ndigits) 0 in
      binary_round_aux prec emax s q e l
  end.

Definition round (x : float) (ndigits : nat) : float :=
  match x with
  | S754_finite s m e => decimal_to_float s (scaled_digits m e ndigits) ndigits
  | _ => x
  end.

(** *** [str] of a number

    [str(int)] is the decimal numeral.  [str(float)] is [repr]: the
    shortest decimal that reads back as the same float, the nearest to
    the float when there are several, printed positionally when the
    decimal point lies in [-4 < decpt <= 16] and in exponent notation
    otherwise. *)

Definition digit_char (k : Z) : ascii := ascii_of_nat (Z.to_nat (48 + k)).

(** The decimal digits of [n] in front of [acc]; a number has no more
    decimal digits than binary ones, which bounds the recursion. *)
Fixpoint digits_from (fuel : nat) (n : Z) (acc : string) : string :=
  match fuel with
  | O => acc
  | S fuel' =>
      let acc := String (digit_char (n mod 10)) acc in
      if n <? 10 then acc else digits_from fuel' (n / 10) acc
  end.

Definition str_of_nonneg (n : Z) : string :=
  digits_from (S (Z.to_nat (Z.log2 n + 1))) n "".

Definition str_of_int (z : Z) : string :=
  if z <? 0 then "-" ++ str_of_nonneg (- z) else str_of_nonneg z.

(** Number of decimal digits of [n], for [0 < n]. *)
Definition digits10 (n : Z) : Z := Z.of_nat (String.length (str_of_nonneg n)).

Definition pow_pos_part (b k : Z) : Z := b ^ Z.max k 0.

(** Compares [a * 2^e2] with [d * 10^e10]. *)
Definition cmp_bin_dec (a e2 d e10 : Z) : comparison :=
  (a * pow_pos_part 2 e2 * pow_pos_part 10 (- e10)
   ?= d * pow_pos_part 10 e10 * pow_pos_part 2 (- e2)).

(** The position of the decimal point of [m * 2^e]: the [n] with
    [10^(n-1) <= m * 2^e < 10^n]. *)
Definition decimal_point (m : positive) (e : Z) : Z :=
  if 0 <=? e then digits10 (Zpos m * 2 ^ e)
  else
    let q := Zpos m / 2 ^ (- e) in
    if 0 <? q then digits10 q
    else
      (* the value is below 1: count the zeros after the point *)
      let u := (2 ^ (- e) + Zpos m - 1) / Zpos m - 1 in
      1 - digits10 u.

(** Does the decimal [d * 10^k] read back as the float [m * 2^e]?  The
    float owns the interval between the midpoints to its neighbours, the
    end points included when [m] is even.  All quantities are in units of
    [2^(e-2)]. *)
Definition reads_back (m : positive) (e : Z) (d k : Z) : bool :=
  let lo :=
    if (Zpos m =? 2 ^ (prec - 1)) && (emin prec emax <? e)
    then 4 * Zpos m - 1 else 4 * Zpos m - 2 in
  let hi := 4 * Zpos m + 2 in
  let above_lo :=
    match cmp_bin_dec lo (e - 2) d k with
    | Lt => true
    | Eq => Z.even (Zpos m)
    | Gt => false
    end in
  let below_hi :=
    match cmp_bin_dec hi (e - 2) d k with
    | Gt => true
    | Eq => Z.even (Zpos m)
    | Lt => false
    end in
  above_lo && below_hi.

(** The decimals with [p] significant digits just below and just above
    [m * 2^e], in units of [10^k], and the nearer of the two (ties to the
    even digit). *)
Definition neighbours (m : positive) (e : Z) (decpt : Z) (p : Z) : Z * Z * Z * Z :=
  let k := decpt - p in
  let num := Zpos m * pow_pos_part 2 e * pow_pos_part 10 (- k) in
  let den := pow_pos_part 2 (- e) * pow_pos_part 10 k in
  let d_lo := num / den in
  let d_hi := d_lo + 1 in
  let nearest :=
    match 2 * num ?= (2 * d_lo + 1) * den with
    | Lt => d_lo
    | Gt => d_hi
    | Eq => if Z.even d_lo then d_lo else d_hi
    end in
  (d_lo, d_hi, nearest, k).

(** The decimal with [p] significant digits that reads back, the nearer
    one when both neighbours do. *)
Definition candidate (m : positive) (e : Z) (decpt : Z) (p : Z) : option (Z * Z) :=
  let '(d_lo, d_hi, nearest, k) := neighbours m e decpt p in
  match reads_back m e d_lo k, reads_back m e d_hi k with
  | true, true => Some (nearest, k)
  | true, false => Some (d_lo, k)
  | false, true => Some (d_hi, k)
  | false, false => None
  end.

(** Tries [p], [p + 1], ... significant digits, [more] times, and settles
    for the nearest decimal with one digit more after that. *)
Fixpoint shortest_from (m : positive) (e : Z) (decpt : Z) (p : Z) (more : nat)
  : Z * Z :=
  match more with
  | O => let '(_, _, nearest, k) := neighbours m e decpt p in (nearest, k)
  | S more' =>
      match candidate m e decpt p with
      | Some dk => dk
      | None => shortest_from m e decpt (p + 1) more'
      end
  end.

(** Drops up to [n] trailing zeros of [d]. *)
Fixpoint strip_zeros (d k : Z) (n : nat) : Z * Z :=
  match n with
  | O => (d, k)
  | S n' =>
      if (d mod 10 =? 0) && negb (d =? 0)
      then strip_zeros (d / 10) (k + 1) n'
      else (d, k)
  end.

(** Shortest digits [d] and exponent [k] with [m * 2^e ~ d * 10^k],
    without trailing zeros; the nearest decimal of 17 significant digits
    always reads back as the same binary64. *)
Definition shortest_digits (m : positive) (e : Z) : Z * Z :=
  let '(d, k) := shortest_from m e (decimal_point m e) 1 16 in
  strip_zeros d k 18.

Fixpoint zeros (n : nat) : string :=
  match n with
  | O => ""
  | S n' => String "0" (zeros n')
  end.

Definition exponent_str (x : Z) : string :=
  let a := Z.abs x in
  (if x <? 0 then "-" else "+") ++
  (if a <? 10 then "0" else "") ++ str_of_nonneg a.

(** Layout of the digits [digits] with the decimal point after the first
    [decpt] of them, as [repr] does. *)
Definition float_layout (digits : string) (decpt : Z) : string :=
  let nd := Z.of_nat (String.length digits) in
  if (decpt <=? -4) || (16 <? decpt) then
    substring 0 1 digits ++
    (if 1 <? nd then "." ++ substring 1 (String.length digits - 1) digits else "") ++
    "e" ++ exponent_str (decpt - 1)
  else if decpt <=? 0 then
    "0." ++ zeros (Z.to_nat (- decpt)) ++ digits
  else if nd <=? decpt then
    digits ++ zeros (Z.to_nat (decpt - nd)) ++ ".0"
  else
    substring 0 (Z.to_nat decpt) digits ++ "." ++
    substring (Z.to_nat decpt) (Z.to_nat (nd - decpt)) digits.

Definition sign_str (s : bool) : string := if s then "-" else "".

Definition repr (x : float) : string :=
  match x with
  | S754_nan => "nan"
  | S754_infinity s => sign_str s ++ "inf"
  | S754_zero s => sign_str s ++ "0.0"
  | S754_finite s m e =>
      let '(d, k) := shortest_digits m e in
      let digits := str_of_nonneg d in
      sign_str s ++ float_layout digits (Z.of_nat (String.length digits) + k)
  end.

Definition str (v : num) : string :=
  match v with
  | Int z => str_of_int z
  | Float f => repr f
  end.

(** *** Lists of floats

    [min], [max] and [list.index] work on objects: [min] hands back one of
    the elements, and [index] looks for an element that is that object or
    is equal to it (a NaN is equal to nothing, itself included, but it is
    still the same object).  A float object is its value and an identity;
    the list built by [[float(num) for num in weather_data]] holds one
    object per position. *)

Record obj : Type := mk_obj { ident : nat; value : float }.

Fixpoint alloc_from (i : nat) (l : list float) : list obj :=
  match l with
  | [] => []
  | x :: l' => mk_obj i x :: alloc_from (S i) l'
  end.

Definition alloc (l : list float) : list obj := alloc_from 0 l.

(** [a is b or a == b] *)
Definition same_or_equal (a b : obj) : bool :=
  (ident a =? ident b)%nat || feq (value a) (value b).

(** [min(l)]: the first element that no later element is below. *)
Definition min (l : list obj) : result obj :=
  match l with
  | [] => Raise ValueError
  | x :: l' =>
      OK (fold_left (fun cur item => if flt (value item) (value cur) then item else cur)
                    l' x)
  end.

(** [max(l)]: the first element that no later element is above. *)
Definition max (l : list obj) : result obj :=
  match l with
  | [] => Raise ValueError
  | x :: l' =>
      OK (fold_left (fun cur item => if flt (value cur) (value item) then item else cur)
                    l' x)
  end.

Fixpoint index_from (i : Z) (l : list obj) (x : obj) : result Z :=
  match l with
  | [] => Raise ValueError
  | y :: l' => if same_or_equal y x then OK i else index_from (i + 1) l' x
  end.

(** [l.index(x)] *)
Definition index (l : list obj) (x : obj) : result Z := index_from 0 l x.

(** [sum(l)]: the items added to 0 from left to right, each addition
    rounded (later versions of CPython compensate the rounding errors). *)
Definition sum (l : list float) : float := fold_left fadd l (float_of_Z 0).

(** [len(l)] *)
Definition len {A : Type} (l : list A) : Z := Z.of_nat (List.length l).

(** [l[i]]; a negative index counts from the end. *)
Definition getitem {A : Type} (l : list A) (i : Z) : result A :=
  let j := if i <? 0 then i + len l else i in
  if (j <? 0) || (len l <=? j) then Raise IndexError
  else
    match nth_error l (Z.to_nat j) with
    | Some x => OK x
    | None => Raise IndexError
    end.

End Py.

(** ** The [datetime] class, as far as [convert_date] uses it

    [datetime.fromisoformat] and [strftime] follow CPython 3.11 on Linux,
    where the class is implemented in C.  The parser works on the C
    string of the argument, its UTF-8 bytes followed by a NUL, with
    positions in the place of pointers.  The date part is one of
    YYYY-MM-DD, YYYYMMDD, YYYY-Www, YYYYWww, YYYY-Www-D and YYYYWwwD; one
    character separates it from a time of day, which may end with a UTC
    offset.  Any parse failure and any field out of range is a
    [ValueError]. *)

Module Datetime.

Definition NUL : ascii := ascii_of_nat 0.

(** The byte at position [i] of the C string. *)
Definition byte_at (s : string) (i : nat) : ascii :=
  match String.get i s with
  | Some c => c
  | None => NUL
  end.

Definition is_digit (c : ascii) : bool :=
  ((48 <=? nat_of_ascii c) && (nat_of_ascii c <=? 57))%nat.

Definition digit_value (c : ascii) : Z := Z.of_nat (nat_of_ascii c) - 48.

(** Reads [num_digits] digits at [ptr] into [var]; the result is the
    number and the position after it, or nothing where a digit is
    missing. *)
Fixpoint parse_digits (s : string) (ptr : nat) (num_digits : nat) (var : Z)
  : option (Z * nat) :=
  match num_digits with
  | O => Some (var, ptr)
  | S n =>
      let c := byte_at s ptr in
      if is_digit c then parse_digits s (S ptr) n (10 * var + digit_value c)
      else None
  end.

(** Number of digits at the start of [s]. *)
Fixpoint digit_run (s : string) : nat :=
  match s with
  | EmptyString => O
  | String c s' => if is_digit c then S (digit_run s') else O
  end.

(** [s] from position [n] on. *)
Fixpoint skip (n : nat) (s : string) : string :=
  match n, s with
  | O, _ => s
  | S n', EmptyString => EmptyString
  | S n', String _ s' => skip n' s'
  end.

(** *** Calendar arithmetic

    Division and remainder are those of C; on the days of the years 1 to
    9999 all operands are positive. *)

Definition MINYEAR : Z := 1.
Definition MAXYEAR : Z := 9999.

Definition is_leap (year : Z) : bool :=
  (Z.rem year 4 =? 0) && (negb (Z.rem year 100 =? 0) || (Z.rem year 400 =? 0)).

Definition days_before_year (year : Z) : Z :=
  let y := year - 1 in
  y * 365 + Z.quot y 4 - Z.quot y 100 + Z.quot y 400.

Definition _days_in_month : list Z :=
  [0; 31; 28; 31; 30; 31; 30; 31; 31; 30; 31; 30; 31].

Definition _days_before_month : list Z :=
  [0; 0; 31; 59; 90; 120; 151; 181; 212; 243; 273; 304; 334].

Definition table (t : list Z) (i : Z) : Z := nth (Z.to_nat i) t 0.

Definition days_in_month (year month : Z) : Z :=
  if (month =? 2) && is_leap year then 29 else table _days_in_month month.

Definition days_before_month (year month : Z) : Z :=
  table _days_before_month month +
  (if (2 <? month) && is_leap year then 1 else 0).

Definition ymd_to_ord (year month day : Z) : Z :=
  days_before_year year + days_before_month year month + day.

Definition DI4Y : Z := 1461.
Definition DI100Y : Z := 36524.
Definition DI400Y : Z := 146097.

Definition ord_to_ymd (ordinal : Z) : Z * Z * Z :=
  let ordinal := ordinal - 1 in
  let n400 := Z.quot ordinal DI400Y in
  let n := Z.rem ordinal DI400Y in
  let year := n400 * 400 + 1 in
  let n100 := Z.quot n DI100Y in
  let n := Z.rem n DI100Y in
  let n4 := Z.quot n DI4Y in
  let n := Z.rem n DI4Y in
  let n1 := Z.quot n 365 in
  let n := Z.rem n 365 in
  let year := year + n100 * 100 + n4 * 4 + n1 in
  if (n1 =? 4) || (n100 =? 4) then (year - 1, 12, 31)
  else
    let leapyear := (n1 =? 3) && (negb (n4 =? 24) || (n100 =? 3)) in
    let month := Z.shiftr (n + 50) 5 in
    let preceding :=
      table _days_before_month month +
      (if (2 <? month) && leapyear then 1 else 0) in
    if n <? preceding then
      let month := month - 1 in
      let preceding := preceding - days_in_month year month in
      (year, month, n - preceding + 1)
    else (year, month, n - preceding + 1).

Definition weekday (year month day : Z) : Z :=
  Z.rem (ymd_to_ord year month day + 6) 7.

Definition iso_week1_monday (year : Z) : Z :=
  let first_day := ymd_to_ord year 1 1 in
  let first_weekday := Z.rem (first_day + 6) 7 in
  let week1_monday := first_day - first_weekday in
  if 3 <? first_weekday then week1_monday + 7 else week1_monday.

Definition iso_to_ymd (iso_year iso_week iso_day : Z) : result (Z * Z * Z) :=
  let out_of_range :=
    if (iso_week <=? 0) || (53 <=? iso_week) then
      if iso_week =? 53 then
        let first_weekday := weekday iso_year 1 1 in
        negb ((first_weekday =? 3) || ((first_weekday =? 2) && is_leap iso_year))
      else true
    else false in
  if out_of_range then Raise ValueError
  else if (iso_day <=? 0) || (8 <=? iso_day) then Raise ValueError
  else
    let day_1 := iso_week1_monday iso_year in
    let day_offset := (iso_week - 1) * 7 + iso_day - 1 in
    OK (ord_to_ymd (day_1 + day_offset)).

(** *** Parsing *)

(** Where the date part ends; no position where the string is too short
    for the form it starts with (no date is read from such a string). *)
Definition _find_isoformat_datetime_separator (dtstr : string) (len : nat)
  : option nat :=
  if (len =? 7)%nat then Some 7%nat
  else if Ascii.eqb (byte_at dtstr 4) "-" then
    if Ascii.eqb (byte_at dtstr 5) "W" then
      if (len <? 8)%nat then None
      else if (8 <? len)%nat && Ascii.eqb (byte_at dtstr 8) "-" then
        if (len =? 9)%nat then None
        else if (10 <? len)%nat && is_digit (byte_at dtstr 10) then Some 8%nat
        else Some 10%nat
      else Some 8%nat
    else Some 10%nat
  else if Ascii.eqb (byte_at dtstr 4) "W" then
    let idx := (7 + digit_run (skip 7 dtstr))%nat in
    if (idx <? 9)%nat then Some idx
    else if Nat.even idx then Some 7%nat
    else Some 8%nat
  else Some 8%nat.

Definition parse_isoformat_date (dtstr : string) (len : nat) : result (Z * Z * Z) :=
  match parse_digits dtstr 0 4 0 with
  | None => Raise ValueError
  | Some (year, cur) =>
      let uses_separator := Ascii.eqb (byte_at dtstr cur) "-" in
      let cur := if uses_separator then S cur else cur in
      if Ascii.eqb (byte_at dtstr cur) "W" then
        let cur := S cur in
        match parse_digits dtstr cur 2 0 with
        | None => Raise ValueError
        | Some (iso_week, cur) =>
            if (cur <? len)%nat then
              if uses_separator && negb (Ascii.eqb (byte_at dtstr cur) "-")
              then Raise ValueError
              else
                let cur := if uses_separator then S cur else cur in
                match parse_digits dtstr cur 1 0 with
                | None => Raise ValueError
                | Some (iso_day, _) => iso_to_ymd year iso_week iso_day
                end
            else iso_to_ymd year iso_week 1
        end
      else
        match parse_digits dtstr cur 2 0 with
        | None => Raise ValueError
        | Some (month, cur) =>
            if uses_separator && negb (Ascii.eqb (byte_at dtstr cur) "-")
            then Raise ValueError
            else
              let cur := if uses_separator then S cur else cur in
              match parse_digits dtstr cur 2 0 with
              | None => Raise ValueError
              | Some (day, _) => OK (year, month, day)
              end
        end
  end.

(** How the loop over hours, minutes and seconds ends: with the result of
    the function (is there more text?), or at the fraction. *)
Inductive hms_end : Type :=
| Finished (rv : bool)
| Fraction (p : nat).

(** The loop [for (i = 0; i < 3; ++i)] of [parse_hh_mm_ss_ff], one
    iteration per call. *)
Fixpoint parse_hh_mm_ss (todo : nat) (i : nat) (has_separator : bool)
    (s : string) (p p_end : nat) (vals : list Z) : result (list Z * hms_end) :=
  match todo with
  | O => OK (vals, Fraction p)
  | S todo' =>
      match parse_digits s p 2 0 with
      | None => Raise ValueError
      | Some (v, p) =>
          let vals := (vals ++ [v])%list in
          let c := byte_at s p in
          let p := S p in
          let has_separator :=
            if (i =? 0)%nat then Ascii.eqb c ":" else has_separator in
          if (p_end <=? p)%nat then OK (vals, Finished (negb (Ascii.eqb c NUL)))
          else if has_separator && Ascii.eqb c ":" then
            parse_hh_mm_ss todo' (S i) has_separator s p p_end vals
          else if Ascii.eqb c "." || Ascii.eqb c "," then OK (vals, Fraction p)
          else if negb has_separator then
            parse_hh_mm_ss todo' (S i) has_separator s (p - 1) p_end vals
          else Raise ValueError
      end
  end.

Definition correction : list Z := [100000; 10000; 1000; 100; 10].

(** [[hour, minute, second, microsecond]] read between [p] and [p_end],
    and whether text is left. *)
Definition parse_hh_mm_ss_ff (s : string) (p p_end : nat) : result (list Z * bool) :=
  r <- parse_hh_mm_ss 3 0 true s p p_end [] ;;
  let '(vals, e) := r in
  match e with
  | Finished rv => OK ([nth 0 vals 0; nth 1 vals 0; nth 2 vals 0; 0], rv)
  | Fraction p =>
      let len_remains := (p_end - p)%nat in
      let to_parse := if (6 <=? len_remains)%nat then 6%nat else len_remains in
      match parse_digits s p to_parse 0 with
      | None => Raise ValueError
      | Some (microsecond, p) =>
          let microsecond :=
            if (to_parse <? 6)%nat
            then microsecond * nth (to_parse - 1) correction 0
            else microsecond in
          (* skip truncated digits *)
          let p := (p + digit_run (skip p s))%nat in
          OK ([nth 0 vals 0; nth 1 vals 0; nth 2 vals 0; microsecond],
              negb (Ascii.eqb (byte_at s p) NUL))
      end
  end.

Definition is_tz_char (c : ascii) : bool :=
  Ascii.eqb c "Z" || Ascii.eqb c "+" || Ascii.eqb c "-".

(** [do { if (tz char) break; } while (++tzinfo_pos < p_end)] *)
Fixpoint find_tzinfo (steps : nat) (s : string) (tzinfo_pos p_end : nat) : nat :=
  if is_tz_char (byte_at s tzinfo_pos) then tzinfo_pos
  else if (S tzinfo_pos <? p_end)%nat then
    match steps with
    | O => S tzinfo_pos
    | S steps' => find_tzinfo steps' s (S tzinfo_pos) p_end
    end
  else S tzinfo_pos.

(** [[hour, minute, second, microsecond]] and, if there is a UTC offset,
    its seconds and microseconds. *)
Definition parse_isoformat_time (dtstr : string) (p dtlen : nat)
  : result (list Z * option (Z * Z)) :=
  let p_end := (p + dtlen)%nat in
  let tzinfo_pos := find_tzinfo dtlen dtstr p p_end in
  r <- parse_hh_mm_ss_ff dtstr p tzinfo_pos ;;
  let '(time, rv) := r in
  if (tzinfo_pos =? p_end)%nat then
    if rv then Raise ValueError else OK (time, None)
  else if Ascii.eqb (byte_at dtstr tzinfo_pos) "Z" then
    if negb (Ascii.eqb (byte_at dtstr (S tzinfo_pos)) NUL) then Raise ValueError
    else OK (time, Some (0, 0))
  else
    let tzsign := if Ascii.eqb (byte_at dtstr tzinfo_pos) "-" then -1 else 1 in
    match parse_hh_mm_ss_ff dtstr (S tzinfo_pos) p_end with
    | Raise _ => Raise ValueError
    | OK (tz, rv) =>
        if rv then Raise ValueError
        else
          let tzoffset :=
            tzsign * (nth 0 tz 0 * 3600 + nth 1 tz 0 * 60 + nth 2 tz 0) in
          OK (time, Some (tzoffset, tzsign * nth 3 tz 0))
    end.

(** The time zone of the offset, as its microseconds: UTC when the
    seconds are 0, else an offset strictly within a day. *)
Definition tzinfo_from_isoformat_results (tz : option (Z * Z)) : result (option Z) :=
  match tz with
  | None => OK None
  | Some (tzoffset, tz_useconds) =>
      if tzoffset =? 0 then OK (Some 0)
      else
        let offset := tzoffset * 1000000 + tz_useconds in
        let day := 24 * 3600 * 1000000 in
        if (- day <? offset) && (offset <? day) then OK (Some offset)
        else Raise ValueError
  end.

(** Bytes of the UTF-8 character that starts with [c]. *)
Definition utf8_width (c : ascii) : nat :=
  let n := nat_of_ascii c in
  if (n <? 128)%nat then 1%nat
  else if (224 <=? n)%nat && (n <? 240)%nat then 3%nat
  else if (240 <=? n)%nat then 4%nat
  else 2%nat.

(** *** The class *)

Record datetime : Type := mk_datetime {
  year : Z;
  month : Z;
  day : Z;
  hour : Z;
  minute : Z;
  second : Z;
  microsecond : Z;
  tzinfo : option Z
}.

Definition check_date_args (year month day : Z) : result unit :=
  if (year <? MINYEAR) || (MAXYEAR <? year) then Raise ValueError
  else if (month <? 1) || (12 <? month) then Raise ValueError
  else if (day <? 1) || (days_in_month year month <? day) then Raise ValueError
  else OK tt.

Definition check_time_args (h m s us : Z) : result unit :=
  if (h <? 0) || (23 <? h) then Raise ValueError
  else if (m <? 0) || (59 <? m) then Raise ValueError
  else if (s <? 0) || (59 <? s) then Raise ValueError
  else if (us <? 0) || (999999 <? us) then Raise ValueError
  else OK tt.

Definition new_datetime_ex (year month day hour minute second usecond : Z)
    (tzinfo : option Z) : result datetime :=
  _ <- check_date_args year month day ;;
  _ <- check_time_args hour minute second usecond ;;
  OK (mk_datetime year month day hour minute second usecond tzinfo).

Definition fromisoformat (dtstr : string) : result datetime :=
  let len := String.length dtstr in
  match _find_isoformat_datetime_separator dtstr len with
  | None => Raise ValueError
  | Some separator_location =>
      date <- parse_isoformat_date dtstr separator_location ;;
      let '(year, month, day) := date in
      time <-
        (if (separator_location <? len)%nat then
           let p := (separator_location +
                     utf8_width (byte_at dtstr separator_location))%nat in
           parse_isoformat_time dtstr p (len - p)
         else OK ([0; 0; 0; 0], None)) ;;
      let '(t, tz) := time in
      tzinfo <- tzinfo_from_isoformat_results tz ;;
      new_datetime_ex year month day
        (nth 0 t 0) (nth 1 t 0) (nth 2 t 0) (nth 3 t 0) tzinfo
  end.

(** *** [strftime]

    The directives the program uses, as the C library of Linux renders
    them in the C locale: [%A] full weekday name, [%d] day of the month
    as two digits, [%B] full month name, [%Y] the year as a decimal
    number (not padded); [%%] is a percent sign and any other character
    is copied. *)

Definition day_names : list string :=
  ["Monday"; "Tuesday"; "Wednesday"; "Thursday"; "Friday"; "Saturday"; "Sunday"].

Definition month_names : list string :=
  [""; "January"; "February"; "March"; "April"; "May"; "June"; "July";
   "August"; "September"; "October"; "November"; "December"].

(** [n] in decimal, padded with zeros to at least [width] characters. *)
Definition zero_pad (width : nat) (n : Z) : string :=
  let s := Py.str_of_nonneg n in
  Py.zeros (width - String.length s) ++ s.

Definition directive (c : ascii) (dt : datetime) : string :=
  if Ascii.eqb c "A"
  then nth (Z.to_nat (weekday (year dt) (month dt) (day dt))) day_names ""
  else if Ascii.eqb c "d" then zero_pad 2 (day dt)
  else if Ascii.eqb c "B" then nth (Z.to_nat (month dt)) month_names ""
  else if Ascii.eqb c "Y" then Py.str_of_nonneg (year dt)
  else if Ascii.eqb c "%" then "%"
  else String "%" (String c "").

Fixpoint strftime (dt : datetime) (fmt : string) : string :=
  match fmt with
  | EmptyString => ""
  | String "%" (String c fmt') => directive c dt ++ strftime dt fmt'
  | String c fmt' => String c (strftime dt fmt')
  end.

End Datetime.

(** ** The program *)

Import Py.

Definition nl : string := String (ascii_of_nat 10) "".

(** The degree sign (U+00B0, in UTF-8) followed by C. *)
Definition DEGREE_SYMBOL : string := "°C".

Definition format_temperature (temp : num) : string :=
  str temp ++ DEGREE_SYMBOL.

Definition convert_date (iso_string : string) : result string :=
  date_string <- Datetime.fromisoformat iso_string ;;
  let formatted_date := Datetime.strftime date_string "%A %d %B %Y" in
  OK formatted_date.

Definition convert_f_to_c (temp_in_fahrenheit : num) : result float :=
  temp_in_fahrenheit <- float_ temp_in_fahrenheit ;;
  let celsius :=
    fdiv (fmul (fsub temp_in_fahrenheit (float_of_Z 32)) (float_of_Z 5))
         (float_of_Z 9) in
  let celsius := round celsius 1 in
  OK celsius.

Definition calculate_mean (weather_data : list num) : result num :=
  weather_data <- mapM float_ weather_data ;;
  match weather_data with
  | [] => OK (Int 0)
  | _ =>
      let mean_value := fdiv (sum weather_data) (float_of_Z (len weather_data)) in
      OK (Float mean_value)
  end.

(** What [find_min] and [find_max] return: the empty tuple [()] or the
    pair [(value, index)]. *)
Inductive tuple : Type :=
| TEmpty
| TPair (v : float) (i : Z).

Definition find_min (weather_data : list num) : result tuple :=
  match weather_data with
  | [] => OK TEmpty
  | _ =>
      floats <- mapM float_ weather_data ;;
      let weather_data := alloc floats in
      min_value <- min weather_data ;;
      k <- index (rev weather_data) min_value ;;
      let min_index := len weather_data - 1 - k in
      OK (TPair (value min_value) min_index)
  end.

Definition find_max (weather_data : list num) : result tuple :=
  match weather_data with
  | [] => OK TEmpty
  | _ =>
      floats <- mapM float_ weather_data ;;
      let weather_data := alloc floats in
      max_value <- max weather_data ;;
      k <- index (rev weather_data) max_value ;;
      let max_index := len weather_data - 1 - k in
      OK (TPair (value max_value) max_index)
  end.

(** A row [[date, min_temp, max_temp]] of the data set: [day[0]], [day[1]]
    and [day[2]]. *)
Record day : Type := mk_day {
  date : string;
  min_temp : num;
  max_temp : num
}.

(** [a, b = t]: unpacking a tuple into two names. *)
Definition unpack2 (t : tuple) : result (float * Z) :=
  match t with
  | TPair v i => OK (v, i)
  | TEmpty => Raise ValueError
  end.

Section Summary.

(** The statistics functions [generate_summary] calls. *)
Variable find_min_ find_max_ : list num -> result tuple.
Variable calculate_mean_ : list num -> result num.

Definition generate_summary_with (weather_data : list day) : result string :=
  match weather_data with
  | [] => OK "No data available."
  | _ =>
      let min_temps := map min_temp weather_data in
      let max_temps := map max_temp weather_data in
      p <- (t <- find_min_ min_temps ;; unpack2 t) ;;
      let '(min_temp, min_temp_day) := p in
      p <- (t <- find_max_ max_temps ;; unpack2 t) ;;
      let '(max_temp, max_temp_day) := p in
      min_temp_date <- (d <- getitem weather_data min_temp_day ;; convert_date (date d)) ;;
      max_temp_date <- (d <- getitem weather_data max_temp_day ;; convert_date (date d)) ;;
      min_temp_c <- convert_f_to_c (Float min_temp) ;;
      let min_temp_c := format_temperature (Float min_temp_c) in
      max_temp_c <- convert_f_to_c (Float max_temp) ;;
      let max_temp_c := format_temperature (Float max_temp_c) in
      avg_min_temp <- (m <- calculate_mean_ min_temps ;; convert_f_to_c m) ;;
      let avg_min_temp := format_temperature (Float (round avg_min_temp 1)) in
      avg_max_temp <- (m <- calculate_mean_ max_temps ;; convert_f_to_c m) ;;
      let avg_max_temp := format_temperature (Float (round avg_max_temp 1)) in
      let summary :=
        str (Int (len weather_data)) ++ " Day Overview" ++ nl ++
        "  The lowest temperature will be " ++ min_temp_c ++
        ", and will occur on " ++ min_temp_date ++ "." ++ nl ++
        "  The highest temperature will be " ++ max_temp_c ++
        ", and will occur on " ++ max_temp_date ++ "." ++ nl ++
        "  The average low this week is " ++ avg_min_temp ++ "." ++ nl ++
        "  The average high this week is " ++ avg_max_temp ++ "." ++ nl in
      OK summary
  end.

End Summary.

Definition generate_summary : list day -> result string :=
  generate_summary_with find_min find_max calculate_mean.

(** The body of the loop [for day in weather_data] of
    [generate_daily_summary]: the summary so far, extended by one day. *)
Definition daily_step (summary : string) (day : day) : result string :=
  date <- convert_date (date day) ;;
  min_temp_c <- convert_f_to_c (min_temp day) ;;
  max_temp_c <- convert_f_to_c (max_temp day) ;;
  let min_temp_str := format_temperature (Float min_temp_c) in
  let max_temp_str := format_temperature (Float max_temp_c) in
  let summary := summary ++ ("---- " ++ date ++ " ----" ++ nl) in
  let summary := summary ++ ("  Minimum Temperature: " ++ min_temp_str ++ nl) in
  let summary := summary ++ ("  Maximum Temperature: " ++ max_temp_str ++ nl ++ nl) in
  OK summary.

Fixpoint daily_loop (weather_data : list day) (summary : string) : result string :=
  match weather_data with
  | [] => OK summary
  | day :: rest =>
      summary <- daily_step summary day ;;
      daily_loop rest summary
  end.

Definition generate_daily_summary (weather_data : list day) : result string :=
  let summary := "" in
  daily_loop weather_data summary.

(** ** Vocabulary of the statements *)

(** [n] is the integer nearest to [10 * m * 2^e], the even one of the two
    when [10 * m * 2^e] lies half way between two integers. *)
Definition nearest_tenths (m : positive) (e : Z) (n : Z) : Prop :=
  let num := 10 * Zpos m * 2 ^ Z.max e 0 in
  let den := 2 ^ Z.max (- e) 0 in
  Z.abs (2 * num - 2 * den * n) <= den /\
  (Z.abs (2 * num - 2 * den * n) = den -> Z.even n = true).

(** No element of the list is a NaN. *)
Definition no_nan (fs : list float) : bool :=
  forallb (fun y => negb (is_nan y)) fs.

(** [v] is a value of [fs] that no element is below, and [i] is the last
    index at which [fs] holds a value equal to [v]. *)
Definition last_minimum (fs : list float) (v : float) (i : Z) : Prop :=
  In v fs /\
  (forall y, In y fs -> fle v y = true) /\
  0 <= i < len fs /\
  feq (nth (Z.to_nat i) fs v) v = true /\
  (forall j, i < j < len fs -> feq (nth (Z.to_nat j) fs v) v = false).

(** [v] is a value of [fs] that no element is above, and [i] is the last
    index at which [fs] holds a value equal to [v]. *)
Definition last_maximum (fs : list float) (v : float) (i : Z) : Prop :=
  In v fs /\
  (forall y, In y fs -> fle y v = true) /\
  0 <= i < len fs /\
  feq (nth (Z.to_nat i) fs v) v = true /\
  (forall j, i < j < len fs -> feq (nth (Z.to_nat j) fs v) v = false).

(** The two rows of the specification's example and their overview. *)
Definition dataset_2 : list day :=
  [mk_day "2021-07-05" (Int 50) (Int 70); mk_day "2021-07-06" (Int 30) (Int 90)].

Definition overview_2 : string :=
  "2 Day Overview" ++ nl ++
  "  The lowest temperature will be -1.1°C, and will occur on Tuesday 06 July 2021." ++ nl ++
  "  The highest temperature will be 32.2°C, and will occur on Tuesday 06 July 2021." ++ nl ++
  "  The average low this week is 4.4°C." ++ nl ++
  "  The average high this week is 26.7°C." ++ nl.

(** [(v - 32) * 5 / 9] in floating point. *)
Definition celsius_quotient (v : float) : float :=
  fdiv (fmul (fsub v (float_of_Z 32)) (float_of_Z 5)) (float_of_Z 9).

(** One block of the daily summary: a dashed header with the formatted
    date, the minimum and the maximum in Celsius, and a blank line. *)
Definition daily_block (d : day) : result string :=
  date <- convert_date (date d) ;;
  min_temp_c <- convert_f_to_c (min_temp d) ;;
  max_temp_c <- convert_f_to_c (max_temp d) ;;
  OK ("---- " ++ date ++ " ----" ++ nl ++
      "  Minimum Temperature: " ++ format_temperature (Float min_temp_c) ++ nl ++
      "  Maximum Temperature: " ++ format_temperature (Float max_temp_c) ++ nl ++
      nl).

(** The strings of a list, one after the other. *)
Definition join (ls : list string) : string := fold_right append "" ls.

Definition is_newline (c : ascii) : bool := Ascii.eqb c (ascii_of_nat 10).

(** [s.splitlines()] for a text whose line ends are newlines. *)
Fixpoint lines (s : string) : list string :=
  match s with
  | EmptyString => []
  | String c s' =>
      if is_newline c then "" :: lines s'
      else
        match lines s' with
        | [] => [String c ""]
        | l :: ls => String c l :: ls
        end
  end.

(** The four lines of the block of a day, given its formatted date and
    its two temperatures in Celsius. *)
Definition block_lines (r : string * float * float) : list string :=
  let '(date, min_temp_c, max_temp_c) := r in
  ["---- " ++ date ++ " ----";
   "  Minimum Temperature: " ++ format_temperature (Float min_temp_c);
   "  Maximum Temperature: " ++ format_temperature (Float max_temp_c);
   ""].

(** The formatted date and the two temperatures that belong to a day. *)
Definition rendered (d : day) (r : string * float * float) : Prop :=
  let '(date_, min_temp_c, max_temp_c) := r in
  convert_date (date d) = OK date_ /\
  convert_f_to_c (min_temp d) = OK min_temp_c /\
  convert_f_to_c (max_temp d) = OK max_temp_c.

Fixpoint no_newline (s : string) : bool :=
  match s with
  | EmptyString => true
  | String c s' => negb (is_newline c) && no_newline s'
  end.

(** A day of the calendar that [datetime] covers. *)
Definition valid_date (y m d : Z) : bool :=
  (1 <=? y) && (y <=? 9999) && (1 <=? m) && (m <=? 12) &&
  (1 <=? d) && (d <=? Datetime.days_in_month y m).

(** An ISO date in the sense of the specification, a calendar date in the
    form YYYY-MM-DD: ten characters, digits around two hyphens, that name
    a day of the calendar.  The result is that day. *)
Definition iso_date (s : string) : option (Z * Z * Z) :=
  match s with
  | String y1 (String y2 (String y3 (String y4 (String h1
    (String m1 (String m2 (String h2 (String d1 (String d2 EmptyString))))))))) =>
      if forallb Datetime.is_digit [y1; y2; y3; y4; m1; m2; d1; d2] &&
         Ascii.eqb h1 "-" && Ascii.eqb h2 "-"
      then
        let dv := Datetime.digit_value in
        let y := 1000 * dv y1 + 100 * dv y2 + 10 * dv y3 + dv y4 in
        let m := 10 * dv m1 + dv m2 in
        let d := 10 * dv d1 + dv d2 in
        if valid_date y m d then Some (y, m, d) else None
      else None
  | _ => None
  end.

(** [date.isoformat()]: YYYY-MM-DD. *)
Definition isoformat (y m d : Z) : string :=
  Datetime.zero_pad 4 y ++ "-" ++ Datetime.zero_pad 2 m ++ "-" ++ Datetime.zero_pad 2 d.

(** "<FullWeekdayName> <DD> <FullMonthName> <YYYY>": the name of the day
    of the week, the day of the month in two digits, the name of the
    month, and the year. *)
Definition long_form (y m d : Z) : string :=
  nth (Z.to_nat (Datetime.weekday y m d)) Datetime.day_names "" ++ " " ++
  Datetime.zero_pad 2 d ++ " " ++
  nth (Z.to_nat m) Datetime.month_names "" ++ " " ++
  str_of_nonneg y.

(** The only exception a computation raises, if any, is [ValueError]. *)
Definition only_ValueError {A : Type} (r : result A) : Prop :=
  forall e, r = Raise e -> e = ValueError.

(** The exception that the block of a row ends with, if any: that of its
    date, else that of its minimum, else that of its maximum. *)
Definition row_error (r : day) : option exn :=
  match convert_date (date r) with
  | Raise e => Some e
  | OK _ =>
      match convert_f_to_c (min_temp r) with
      | Raise e => Some e
      | OK _ =>
          match convert_f_to_c (max_temp r) with
          | Raise e => Some e
          | OK _ => None
          end
      end
  end.

(** ** The data file

    [load_data_from_csv] opens a file in text mode, reads it with
    [csv.reader], skips the first row and turns every other non-empty
    row into [[date, min_temp, max_temp]], the two temperatures
    converted with [int].  The built-ins follow CPython 3.11: the text
    layer with universal newlines, the reader of the [csv] module in its
    default dialect, and [int] on a [str]. *)

(** *** Exceptions

    The reader raises exceptions that the rest of the program does not. *)

Inductive exception : Type :=
| Builtin (e : exn)
| StopIteration
| csv_Error
| OSError.

Inductive outcome (A : Type) : Type :=
| Returns (a : A)
| Raises (e : exception).

Arguments Returns {A} a.
Arguments Raises {A} e.

Definition then_ {A B : Type} (r : outcome A) (k : A -> outcome B) : outcome B :=
  match r with
  | Returns a => k a
  | Raises e => Raises e
  end.

Notation "x <-- c ;; k" := (then_ c (fun x => k))
  (at level 61, c at next level, right associativity).

Definition lift {A : Type} (r : result A) : outcome A :=
  match r with
  | OK a => Returns a
  | Raise e => Raises (Builtin e)
  end.

Definition LF : ascii := ascii_of_nat 10.
Definition CR : ascii := ascii_of_nat 13.

(** *** Characters of a UTF-8 string *)

Module Utf8.

(** A byte that continues a character: 10xxxxxx. *)
Definition continuation (c : ascii) : bool :=
  ((128 <=? nat_of_ascii c) && (nat_of_ascii c <? 192))%nat.

(** The six low bits of a continuation byte. *)
Definition low6 (c : ascii) : Z := Z.of_nat (nat_of_ascii c) mod 64.

(** The code points of a string.  The strings of the program are the
    UTF-8 of Python strings; a byte that starts no character, or a
    character cut short, counts as U+FFFD. *)
Fixpoint decode (s : string) : list Z :=
  match s with
  | EmptyString => []
  | String b0 s1 =>
      let n0 := Z.of_nat (nat_of_ascii b0) in
      if n0 <? 128 then n0 :: decode s1
      else if n0 <? 192 then 65533 :: decode s1
      else if n0 <? 224 then
        match s1 with
        | String b1 s2 => ((n0 mod 32) * 64 + low6 b1) :: decode s2
        | _ => [65533]
        end
      else if n0 <? 240 then
        match s1 with
        | String b1 (String b2 s3) =>
            ((n0 mod 16) * 4096 + low6 b1 * 64 + low6 b2) :: decode s3
        | _ => [65533]
        end
      else
        match s1 with
        | String b1 (String b2 (String b3 s4)) =>
            ((n0 mod 8) * 262144 + low6 b1 * 4096 + low6 b2 * 64 + low6 b3)
            :: decode s4
        | _ => [65533]
        end
  end.

End Utf8.

(** *** [int(s)] for a string

    A string that is not ASCII is first brought to ASCII: a character of
    Unicode white space becomes a space and a decimal digit of any
    script the ASCII digit of its value; the text is cut at any other
    character beyond ASCII.  The ASCII text is then read as white space,
    an optional sign, digits that single underscores may separate, and
    white space.  Every failure is a [ValueError]. *)

Module Int.

(** The characters beyond ASCII with the decimal digit value 0 (Unicode
    14.0); the nine characters after each are the digits 1 to 9. *)
Definition decimal_zeros : list Z :=
  [1632; 1776; 1984; 2406; 2534; 2662; 2790; 2918; 3046; 3174; 3302; 3430;
   3558; 3664; 3792; 3872; 4160; 4240; 6112; 6160; 6470; 6608; 6784; 6800;
   6992; 7088; 7232; 7248; 42528; 43216; 43264; 43472; 43504; 43600; 44016;
   65296; 66720; 68912; 69734; 69872; 69942; 70096; 70384; 70736; 70864;
   71248; 71360; 71472; 71904; 72016; 72784; 73040; 73120; 92768; 92864;
   93008; 120782; 120792; 120802; 120812; 120822; 123200; 123632; 125264;
   130032].

(** The white space beyond ASCII. *)
Definition spaces : list Z :=
  [133; 160; 5760; 8192; 8193; 8194; 8195; 8196; 8197; 8198; 8199; 8200;
   8201; 8202; 8232; 8233; 8239; 8287; 12288].

(** [Py_UNICODE_TODECIMAL] *)
Definition to_decimal (ch : Z) : option Z :=
  match find (fun z => (z <=? ch) && (ch <? z + 10)) decimal_zeros with
  | Some z => Some (ch - z)
  | None => None
  end.

(** [Py_UNICODE_ISSPACE] beyond ASCII *)
Definition is_space (ch : Z) : bool := existsb (Z.eqb ch) spaces.

(** [_PyUnicode_TransformDecimalAndSpaceToASCII], on a string that is
    not ASCII. *)
Fixpoint transform (chars : list Z) : string :=
  match chars with
  | [] => ""
  | ch :: rest =>
      if ch <? 127 then String (ascii_of_nat (Z.to_nat ch)) (transform rest)
      else if is_space ch then String " " (transform rest)
      else
        match to_decimal ch with
        | Some d => String (digit_char d) (transform rest)
        | None => "?"
        end
  end.

Fixpoint is_ascii (s : string) : bool :=
  match s with
  | EmptyString => true
  | String c s' => (nat_of_ascii c <? 128)%nat && is_ascii s'
  end.

(** The white space of C: space, [\t], [\n], [\v], [\f], [\r]. *)
Definition Py_ISSPACE (c : ascii) : bool :=
  (((9 <=? nat_of_ascii c) && (nat_of_ascii c <=? 13)) || (nat_of_ascii c =? 32))%nat.

Fixpoint skip_spaces (s : string) : string :=
  match s with
  | EmptyString => ""
  | String c s' => if Py_ISSPACE c then skip_spaces s' else s
  end.

(** The default of [sys.get_int_max_str_digits()]. *)
Definition max_str_digits : Z := 4300.

(** The run of digits and underscores at the start of [s]: its value,
    the number of its digits and the rest of [s]; nothing if two
    underscores meet or one ends the run.  [prev] is the character
    before [s]. *)
Fixpoint scan (s : string) (prev : ascii) (digits : Z) (z : Z)
  : option (Z * Z * string) :=
  match s with
  | EmptyString =>
      if Ascii.eqb prev "_" then None else Some (z, digits, s)
  | String c s' =>
      if Datetime.is_digit c then
        scan s' c (digits + 1) (10 * z + Datetime.digit_value c)
      else if Ascii.eqb c "_" then
        if Ascii.eqb prev "_" then None else scan s' c digits z
      else if Ascii.eqb prev "_" then None
      else Some (z, digits, s)
  end.

(** [PyLong_FromString(str, &end, 10)] together with the check that
    [end] is the end of the text. *)
Definition PyLong_FromString (str : string) : result Z :=
  let str := skip_spaces str in
  let '(sign, str) :=
    match str with
    | String c str' =>
        if Ascii.eqb c "+" then (1, str')
        else if Ascii.eqb c "-" then (-1, str')
        else (1, str)
    | EmptyString => (1, str)
    end in
  if Ascii.eqb (Datetime.byte_at str 0) "_" then Raise ValueError
  else
    match scan str Datetime.NUL 0 0 with
    | None => Raise ValueError
    | Some (z, digits, rest) =>
        if max_str_digits <? digits then Raise ValueError
        else if digits =? 0 then Raise ValueError
        else
          match skip_spaces rest with
          | EmptyString => OK (sign * z)
          | _ => Raise ValueError
          end
    end.

Definition int_ (s : string) : result Z :=
  let asciidig := if is_ascii s then s else transform (Utf8.decode s) in
  PyLong_FromString asciidig.

End Int.

(** *** [csv.reader]

    The reader of the [csv] module in the default dialect: fields are
    separated by commas, a field may stand in double quotes, within
    which a doubled quote is a quote and line ends are text; the dialect
    is not strict and has no escape character.  The parser is a state
    machine that takes one character at a time and the end of each line
    ([None]).  It works on the bytes of the text: the characters that it
    tells apart are ASCII, and a field counts its characters by the
    bytes that start one. *)

Module Csv.

Inductive ParserState : Type :=
| START_RECORD
| START_FIELD
| IN_FIELD
| IN_QUOTED_FIELD
| QUOTE_IN_QUOTED_FIELD
| EAT_CRNL.

Definition state_eqb (a b : ParserState) : bool :=
  match a, b with
  | START_RECORD, START_RECORD
  | START_FIELD, START_FIELD
  | IN_FIELD, IN_FIELD
  | IN_QUOTED_FIELD, IN_QUOTED_FIELD
  | QUOTE_IN_QUOTED_FIELD, QUOTE_IN_QUOTED_FIELD
  | EAT_CRNL, EAT_CRNL => true
  | _, _ => false
  end.

Record ReaderObj : Type := mk_reader {
  state : ParserState;
  fields : list string;
  field : string;
  field_len : Z
}.

Definition delimiter : ascii := ",".
Definition quotechar : ascii := ascii_of_nat 34.

(** [csv.field_size_limit()] *)
Definition field_limit : Z := 131072.

Definition parse_reset : ReaderObj := mk_reader START_RECORD [] "" 0.

Definition set_state (self : ReaderObj) (s : ParserState) : ReaderObj :=
  mk_reader s (fields self) (field self) (field_len self).

Definition parse_save_field (self : ReaderObj) : ReaderObj :=
  mk_reader (state self) (fields self ++ [field self]) "" 0.

Definition parse_add_char (self : ReaderObj) (c : ascii) : outcome ReaderObj :=
  if Utf8.continuation c then
    Returns (mk_reader (state self) (fields self) (field self ++ String c "")
                       (field_len self))
  else if field_limit <=? field_len self then Raises csv_Error
  else
    Returns (mk_reader (state self) (fields self) (field self ++ String c "")
                       (field_len self + 1)).

Definition is_newline_char (c : ascii) : bool := Ascii.eqb c LF || Ascii.eqb c CR.

Definition end_of_line (self : ReaderObj) (c : option ascii) : ReaderObj :=
  set_state (parse_save_field self)
            (match c with None => START_RECORD | Some _ => EAT_CRNL end).

Definition start_field (self : ReaderObj) (c : option ascii) : outcome ReaderObj :=
  match c with
  | None => Returns (end_of_line self c)
  | Some ch =>
      if is_newline_char ch then Returns (end_of_line self c)
      else if Ascii.eqb ch quotechar then Returns (set_state self IN_QUOTED_FIELD)
      else if Ascii.eqb ch delimiter then Returns (parse_save_field self)
      else
        self <-- parse_add_char self ch ;;
        Returns (set_state self IN_FIELD)
  end.

Definition parse_process_char (self : ReaderObj) (c : option ascii)
  : outcome ReaderObj :=
  match state self with
  | START_RECORD =>
      match c with
      | None => Returns self
      | Some ch =>
          if is_newline_char ch then Returns (set_state self EAT_CRNL)
          else start_field (set_state self START_FIELD) c
      end
  | START_FIELD => start_field self c
  | IN_FIELD =>
      match c with
      | None => Returns (end_of_line self c)
      | Some ch =>
          if is_newline_char ch then Returns (end_of_line self c)
          else if Ascii.eqb ch delimiter then
            Returns (set_state (parse_save_field self) START_FIELD)
          else parse_add_char self ch
      end
  | IN_QUOTED_FIELD =>
      match c with
      | None => Returns self
      | Some ch =>
          if Ascii.eqb ch quotechar then Returns (set_state self QUOTE_IN_QUOTED_FIELD)
          else parse_add_char self ch
      end
  | QUOTE_IN_QUOTED_FIELD =>
      match c with
      | None => Returns (end_of_line self c)
      | Some ch =>
          if Ascii.eqb ch quotechar then
            self <-- parse_add_char self ch ;;
            Returns (set_state self IN_QUOTED_FIELD)
          else if Ascii.eqb ch delimiter then
            Returns (set_state (parse_save_field self) START_FIELD)
          else if is_newline_char ch then Returns (end_of_line self c)
          else
            self <-- parse_add_char self ch ;;
            Returns (set_state self IN_FIELD)
      end
  | EAT_CRNL =>
      match c with
      | None => Returns (set_state self START_RECORD)
      | Some ch =>
          if is_newline_char ch then Returns self else Raises csv_Error
      end
  end.

(** The characters of a line, then the end of the line. *)
Fixpoint process_line (self : ReaderObj) (line : string) : outcome ReaderObj :=
  match line with
  | EmptyString => parse_process_char self None
  | String c rest =>
      self <-- parse_process_char self (Some c) ;;
      process_line self rest
  end.

(** The loop of [Reader_iternext]: lines are taken from the input until
    a record is complete.  The result is the record, if there is one,
    and the lines that are left. *)
Fixpoint read_record (self : ReaderObj) (input_iter : list string)
  : outcome (option (list string) * list string) :=
  match input_iter with
  | [] =>
      if negb (field_len self =? 0) || state_eqb (state self) IN_QUOTED_FIELD
      then Returns (Some (fields (parse_save_field self)), [])
      else Returns (None, [])
  | lineobj :: rest =>
      self <-- process_line self lineobj ;;
      if state_eqb (state self) START_RECORD then Returns (Some (fields self), rest)
      else read_record self rest
  end.

Definition Reader_iternext (input_iter : list string)
  : outcome (option (list string) * list string) :=
  read_record parse_reset input_iter.

End Csv.

(** *** Files

    A file system gives the text of the files that can be opened and
    read as text. *)

Definition file_system : Type := string -> option string.

(** Universal newlines: [\r\n] and [\r] are read as [\n]. *)
Fixpoint translate_newlines (s : string) : string :=
  match s with
  | EmptyString => ""
  | String c s' =>
      if Ascii.eqb c CR then
        String LF
          match s' with
          | String c' s'' =>
              if Ascii.eqb c' LF then translate_newlines s''
              else translate_newlines s'
          | EmptyString => ""
          end
      else String c (translate_newlines s')
  end.

(** The lines of a text, each with its line end. *)
Fixpoint readlines (s : string) : list string :=
  match s with
  | EmptyString => []
  | String c s' =>
      if Ascii.eqb c LF then String c "" :: readlines s'
      else
        match readlines s' with
        | [] => [String c ""]
        | l :: ls => String c l :: ls
        end
  end.

Fixpoint has_NUL (s : string) : bool :=
  match s with
  | EmptyString => false
  | String c s' => Ascii.eqb c Datetime.NUL || has_NUL s'
  end.

(** [open(file, 'r')]: the lines that the iteration over the file
    yields. *)
Definition open_ (fs : file_system) (file : string) : outcome (list string) :=
  if has_NUL file then Raises (Builtin ValueError)
  else
    match fs file with
    | None => Raises OSError
    | Some text => Returns (readlines (translate_newlines text))
    end.

(** [next(reader)]: the next row and the reader after it. *)
Definition next (reader : list string) : outcome (list string * list string) :=
  r <-- Csv.Reader_iternext reader ;;
  match r with
  | (Some row, reader) => Returns (row, reader)
  | (None, _) => Raises StopIteration
  end.

(** The body of the loop [for row in reader]. *)
Definition load_row (data : list day) (row : list string) : outcome (list day) :=
  match row with
  | [] => Returns data
  | _ =>
      date <-- lift (getitem row 0) ;;
      min_temp <-- (s <-- lift (getitem row 1) ;; lift (Int.int_ s)) ;;
      max_temp <-- (s <-- lift (getitem row 2) ;; lift (Int.int_ s)) ;;
      Returns (data ++ [mk_day date (Int min_temp) (Int max_temp)])%list
  end.

(** The loop [for row in reader]; every row takes at least one line, so
    that the number of lines bounds the number of rows. *)
Fixpoint load_rows (bound : nat) (reader : list string) (data : list day)
  : outcome (list day) :=
  r <-- Csv.Reader_iternext reader ;;
  match r with
  | (None, _) => Returns data
  | (Some row, reader) =>
      data <-- load_row data row ;;
      match bound with
      | O => Returns data
      | S bound' => load_rows bound' reader data
      end
  end.

Definition load_data_from_csv (fs : file_system) (csv_file : string)
  : outcome (list day) :=
  let data := [] in
  file <-- open_ fs csv_file ;;
  let reader := file in
  r <-- next reader ;;
  let '(_, reader) := r in
  load_rows (List.length reader) reader data.

(** *** Vocabulary for the data file *)

(** Number of characters of a string in UTF-8. *)
Fixpoint chars (s : string) : Z :=
  match s with
  | EmptyString => 0
  | String c s' => (if Utf8.continuation c then 0 else 1) + chars s'
  end.

(** No character of [s] satisfies [p]. *)
Fixpoint free_of (p : ascii -> bool) (s : string) : bool :=
  match s with
  | EmptyString => true
  | String c s' => negb (p c) && free_of p s'
  end.

Definition is_quote (c : ascii) : bool := Ascii.eqb c Csv.quotechar.
Definition is_comma (c : ascii) : bool := Ascii.eqb c Csv.delimiter.

(** The characters that the reader does not take as text of a field,
    the comma apart: the quote and the line ends. *)
Definition special (c : ascii) : bool := is_quote c || Csv.is_newline_char c.

(** A line that holds no quote and no line end, of at most
    [field_limit] characters. *)
Definition plain_line (s : string) : bool :=
  free_of special s && (chars s <=? Csv.field_limit).

(** A field that needs no quotes: a plain line without a comma. *)
Definition plain_field (s : string) : bool :=
  plain_line s && free_of is_comma s.

(** [s.split(',')], in front of which [cur] has been read. *)
Fixpoint split_from (cur : string) (s : string) : list string :=
  match s with
  | EmptyString => [cur]
  | String c s' =>
      if is_comma c then cur :: split_from "" s'
      else split_from (cur ++ String c "") s'
  end.

Definition split (s : string) : list string := split_from "" s.

Fixpoint all_digits (s : string) : bool :=
  match s with
  | EmptyString => true
  | String c s' => Datetime.is_digit c && all_digits s'
  end.

(** The number that the digits [s] denote, read after the number [z]. *)
Fixpoint decimal_value (s : string) (z : Z) : Z :=
  match s with
  | EmptyString => z
  | String c s' => decimal_value s' (10 * z + Datetime.digit_value c)
  end.

(** The line ends of text files: [\n], [\r\n] and [\r]. *)
Definition line_end (eol : string) : Prop :=
  eol = String LF "" \/ eol = String CR (String LF "") \/ eol = String CR "".

(** A text that does not go on with [\n]. *)
Definition no_LF_ahead (s : string) : Prop := String.get 0 s <> Some LF.

(** A row [date,min,max] of a data file, or an empty line. *)
Definition csv_line (r : option (string * Z * Z)) : string :=
  match r with
  | Some (date, lo, hi) => date ++ "," ++ str_of_int lo ++ "," ++ str_of_int hi
  | None => ""
  end.

(** The lines, each followed by the line end. *)
Fixpoint text_of (eol : string) (ls : list string) : string :=
  match ls with
  | [] => ""
  | l :: ls' => l ++ eol ++ text_of eol ls'
  end.

(** A data file: the header and the rows, each followed by the line
    end. *)
Fixpoint csv_lines (eol : string) (rows : list (option (string * Z * Z))) : string :=
  match rows with
  | [] => ""
  | r :: rows' => csv_line r ++ eol ++ csv_lines eol rows'
  end.

Definition csv_text (eol header : string) (rows : list (option (string * Z * Z)))
  : string :=
  header ++ eol ++ csv_lines eol rows.

(** [s] with its quotes doubled. *)
Fixpoint escape (s : string) : string :=
  match s with
  | EmptyString => ""
  | String c s' =>
      if is_quote c then String c (String c (escape s')) else String c (escape s')
  end.

(** [s] as a quoted field. *)
Definition quoted (s : string) : string :=
  String Csv.quotechar (escape s ++ String Csv.quotechar "").

(** A row with all its fields in quotes, or an empty line. *)
Definition csv_line_quoted (r : option (string * Z * Z)) : string :=
  match r with
  | Some (date, lo, hi) =>
      quoted date ++ "," ++ quoted (str_of_int lo) ++ "," ++ quoted (str_of_int hi)
  | None => ""
  end.

Definition csv_text_quoted (eol header : string)
    (rows : list (option (string * Z * Z))) : string :=
  header ++ eol ++ text_of eol (map csv_line_quoted rows).

(** A row that can be written in quotes: the date has no line end and
    at most [field_limit] characters, and the temperatures have at most
    4300 digits. *)
Definition quotable (r : option (string * Z * Z)) : bool :=
  match r with
  | Some (date, lo, hi) =>
      free_of Csv.is_newline_char date && (chars date <=? Csv.field_limit) &&
      (Z.abs lo <? 10 ^ 4300) && (Z.abs hi <? 10 ^ 4300)
  | None => true
  end.

(** The reader after the characters of [s]. *)
Fixpoint feed (self : Csv.ReaderObj) (s : string) : outcome Csv.ReaderObj :=
  match s with
  | EmptyString => Returns self
  | String c s' =>
      self <-- Csv.parse_process_char self (Some c) ;;
      feed self s'
  end.

(** The data that the rows stand for. *)
Fixpoint days_of (rows : list (option (string * Z * Z))) : list day :=
  match rows with
  | [] => []
  | Some (date, lo, hi) :: rows' => mk_day date (Int lo) (Int hi) :: days_of rows'
  | None :: rows' => days_of rows'
  end.

(** A row that can be written as it stands: the date needs no quotes and
    the temperatures have at most 4300 digits. *)
Definition writable (r : option (string * Z * Z)) : bool :=
  match r with
  | Some (date, lo, hi) =>
      plain_field date && (Z.abs lo <? 10 ^ 4300) && (Z.abs hi <? 10 ^ 4300)
  | None => true
  end.

(** The exception that a row of the file ends with, if any: a missing
    second or third field is an [IndexError], one that [int] rejects a
    [ValueError]; the second field comes first. *)
Definition bad_row (row : list string) : option exn :=
  match row with
  | [] => None
  | [_] => Some IndexError
  | _ :: a :: more =>
      match Int.int_ a with
      | Raise e => Some e
      | OK _ =>
          match more with
          | [] => Some IndexError
          | b :: _ =>
              match Int.int_ b with
              | Raise e => Some e
              | OK _ => None
              end
          end
      end
  end.

(** A line as the iteration over a text file yields it: without [\r],
    and with [\n] at its end only. *)
Fixpoint file_line (l : string) : bool :=
  match l with
  | EmptyString => true
  | String c l' =>
      if Ascii.eqb c LF then
        match l' with
        | EmptyString => true
        | _ => false
        end
      else negb (Ascii.eqb c CR) && file_line l'
  end.

(** The characters of the lines together. *)
Fixpoint chars_of (ls : list string) : Z :=
  match ls with
  | [] => 0
  | l :: ls' => chars l + chars_of ls'
  end.

(** A row of weather data: an ISO date and two temperatures between
    -1000 and 1000 degrees; or an empty line. *)
Definition weather_row (r : option (string * Z * Z)) : bool :=
  match r with
  | Some (date, lo, hi) =>
      match iso_date date with Some _ => true | None => false end &&
      (-1000 <=? lo) && (lo <=? 1000) && (-1000 <=? hi) && (hi <=? 1000)
  | None => true
  end.

(** The ints from [-1000] to [1000]. *)
Definition degrees : list Z := map (fun k => Z.of_nat k - 1000) (seq 0 2001).

(** An int that converts to a float that is not an infinity. *)
Definition converts (z : Z) : bool :=
  match float_ (Int z) with
  | OK f => negb (is_nan f)
  | Raise _ => false
  end.

(** The whole number of tenths of a degree Celsius nearest to [z]
    degrees Fahrenheit: [50 * (z - 32) / 9], which is never half way
    between two whole numbers, rounded. *)
Definition celsius_tenths (z : Z) : Z := (100 * (z - 32) + 9) / 18.

(** A number of tenths with its decimal point: [-12.3]. *)
Definition tenths_str (n : Z) : string :=
  (if n <? 0 then "-" else "") ++
  str_of_nonneg (Z.abs n / 10) ++ "." ++ str_of_nonneg (Z.abs n mod 10).

(** The temperature shown for [z] degrees Fahrenheit is the nearest
    tenth of a degree Celsius. *)
Definition shown_exactly (z : Z) : bool :=
  match convert_f_to_c (Int z) with
  | OK c => String.eqb (format_temperature (Float c))
                       (tenths_str (celsius_tenths z) ++ DEGREE_SYMBOL)
  | Raise _ => false
  end.

(** A row whose two temperatures are ints. *)
Definition int_row (d : day) : bool :=
  match min_temp d, max_temp d with
  | Int _, Int _ => true
  | _, _ => false
  end.

(** * Properties *)

(** ** The error monad *)

Lemma bind_OK {A B : Type} (r : result A) (k : A -> result B) (b : B) :
  bind r k = OK b -> exists a, r = OK a /\ k a = OK b.
Proof.
  destruct r as [a | e]; simpl; intros H; [exists a; split; [reflexivity | exact H] | discriminate].
Qed.

Lemma OK_inj {A : Type} (a b : A) : OK a = OK b -> a = b.
Proof.
  intros H. injection H as H. exact H.
Qed.

Lemma mapM_length {A B : Type} (f : A -> result B) (l : list A) (l' : list B) :
  mapM f l = OK l' -> List.length l' = List.length l.
Proof.
  revert l'; induction l as [| x l IH]; simpl; intros l' H.
  - injection H as <-. reflexivity.
  - apply bind_OK in H as (y & _ & H).
    apply bind_OK in H as (ys & Hys & H).
    injection H as <-. simpl. f_equal. apply IH, Hys.
Qed.

(** ** Empty input *)

(** C6: on the empty list [find_min] and [find_max] return the empty
    tuple without raising, and the empty tuple is returned for no other
    input: every non-empty list that is accepted yields a pair
    [(value, index)]. *)
Theorem find_min_max_empty :
  find_min [] = OK TEmpty /\
  find_max [] = OK TEmpty /\
  (forall x xs t, find_min (x :: xs) = OK t -> exists v i, t = TPair v i) /\
  (forall x xs t, find_max (x :: xs) = OK t -> exists v i, t = TPair v i).
Proof.
  repeat split; try reflexivity.
  - intros x xs t H. unfold find_min in H.
    apply bind_OK in H as (fs & _ & H).
    apply bind_OK in H as (o & _ & H).
    apply bind_OK in H as (k & _ & H).
    injection H as <-. eauto.
  - intros x xs t H. unfold find_max in H.
    apply bind_OK in H as (fs & _ & H).
    apply bind_OK in H as (o & _ & H).
    apply bind_OK in H as (k & _ & H).
    injection H as <-. eauto.
Qed.

Lemma find_min_max_empty_witness :
  exists v i, TPair (float_of_Z 4) 0 = TPair v i.
Proof.
  apply (proj1 (proj2 (proj2 find_min_max_empty)) (Int 4) [] (TPair (float_of_Z 4) 0)).
  vm_compute. reflexivity.
Defined.

(** C7: on the empty data set [generate_summary] returns exactly
    "No data available."; the answer does not depend on the statistics
    functions, whatever they would do on empty columns. *)
Theorem generate_summary_empty :
  generate_summary [] = OK "No data available." /\
  (forall find_min_ find_max_ calculate_mean_,
      generate_summary_with find_min_ find_max_ calculate_mean_ [] =
      OK "No data available.").
Proof.
  split; reflexivity.
Qed.

(** C10: on the empty data set [generate_daily_summary] returns the empty
    string, with no message. *)
Theorem generate_daily_summary_empty :
  generate_daily_summary [] = OK "".
Proof.
  reflexivity.
Qed.

(** ** Fahrenheit to Celsius *)

Lemma div_half_even_nearest (a b : Z) :
  0 < b ->
  Z.abs (2 * a - 2 * b * div_half_even a b) <= b /\
  (Z.abs (2 * a - 2 * b * div_half_even a b) = b ->
   Z.even (div_half_even a b) = true).
Proof.
  intros Hb. unfold div_half_even.
  pose proof (Z.div_mod a b ltac:(lia)) as Hdm.
  pose proof (Z.mod_pos_bound a b Hb) as Hr.
  set (q := a / b) in *. set (r := a mod b) in *.
  destruct (Z.compare_spec (2 * r) b) as [Heq | Hlt | Hgt].
  - destruct (Z.even q) eqn:Hq.
    + split; [nia | intros _; exact Hq].
    + split; [nia | intros _].
      rewrite Z.even_add, Hq. reflexivity.
  - split; [nia | intros H; exfalso; nia].
  - split; [nia | intros H; exfalso; nia].
Qed.

Lemma scaled_digits_nearest (m : positive) (e : Z) :
  nearest_tenths m e (scaled_digits m e 1).
Proof.
  unfold nearest_tenths, scaled_digits.
  change (10 ^ Z.of_nat 1) with 10.
  destruct (Z.leb_spec 0 e) as [He | He].
  - rewrite (Z.max_l e 0) by lia. rewrite (Z.max_r (- e) 0) by lia.
    change (2 ^ 0) with 1.
    replace (2 * (10 * Z.pos m * 2 ^ e) - 2 * 1 * (Z.pos m * 2 ^ e * 10)) with 0 by ring.
    simpl. split; [lia | discriminate].
  - rewrite (Z.max_r e 0) by lia. rewrite (Z.max_l (- e) 0) by lia.
    change (2 ^ 0) with 1.
    assert (Hpow : 0 < 2 ^ (- e)) by (apply Z.pow_pos_nonneg; lia).
    pose proof (div_half_even_nearest (Z.pos m * 10) (2 ^ (- e)) Hpow) as [H1 H2].
    replace (2 * (10 * Z.pos m * 1)) with (2 * (Z.pos m * 10)) by ring.
    split; assumption.
Qed.



(** ** Mean *)



(** ** The order of floats *)

Section FloatOrder.

Ltac order_cases :=
  repeat match goal with
         | |- context [Z.compare ?a ?b] => destruct (Z.compare_spec a b)
         | |- context [Pos.compare_cont Eq ?a ?b] =>
             change (Pos.compare_cont Eq a b) with (Pos.compare a b);
             destruct (Pos.compare_spec a b)
         end;
  simpl; try reflexivity; try discriminate; try lia.

Lemma fle_refl (x : float) : is_nan x = false -> fle x x = true.
Proof.
  destruct x as [s | s | | s m e]; simpl; intros H; try discriminate;
    unfold fle, SFleb, SFcompare; try (destruct s; reflexivity).
  destruct s; order_cases.
Qed.

Lemma feq_refl (x : float) : is_nan x = false -> feq x x = true.
Proof.
  destruct x as [s | s | | s m e]; simpl; intros H; try discriminate;
    unfold feq, SFeqb, SFcompare; try (destruct s; reflexivity).
  destruct s; order_cases.
Qed.

Lemma flt_fle (x y : float) : flt x y = true -> fle x y = true.
Proof.
  unfold flt, fle, SFltb, SFleb.
  destruct (SFcompare x y) as [[| |] |]; intros H; try discriminate; reflexivity.
Qed.

Lemma flt_false_fle (x y : float) :
  is_nan x = false -> is_nan y = false -> flt x y = false -> fle y x = true.
Proof.
  destruct x as [sx | sx | | sx mx ex], y as [sy | sy | | sy my ey];
    simpl; intros Hx Hy; try discriminate;
    unfold flt, fle, SFltb, SFleb, SFcompare;
    try destruct sx; try destruct sy; simpl; try reflexivity; try discriminate;
    order_cases.
Qed.

Lemma fle_trans (x y z : float) :
  fle x y = true -> fle y z = true -> fle x z = true.
Proof.
  destruct x as [sx | sx | | sx mx ex], y as [sy | sy | | sy my ey],
      z as [sz | sz | | sz mz ez];
    unfold fle, SFleb, SFcompare;
    try destruct sx; try destruct sy; try destruct sz;
    simpl; try reflexivity; try discriminate;
    order_cases.
Qed.

End FloatOrder.

(** ** Minimum and maximum with the index of the last occurrence *)

Lemma no_nan_In (fs : list float) :
  no_nan fs = true -> forall y, In y fs -> is_nan y = false.
Proof.
  unfold no_nan. rewrite forallb_forall. intros H y Hy.
  apply negb_true_iff, H, Hy.
Qed.

Lemma alloc_from_length (fs : list float) (k : nat) :
  List.length (alloc_from k fs) = List.length fs.
Proof.
  revert k; induction fs as [| f fs IH]; intros k; simpl; [reflexivity |].
  f_equal. apply IH.
Qed.

Lemma alloc_from_nth (fs : list float) (k j : nat) (d : obj) :
  (j < List.length fs)%nat ->
  nth j (alloc_from k fs) d = mk_obj (k + j) (nth j fs (value d)).
Proof.
  revert k j; induction fs as [| f fs IH]; intros k j Hj; simpl in Hj; [lia |].
  destruct j as [| j]; simpl.
  - f_equal. lia.
  - rewrite IH by lia. f_equal. lia.
Qed.

Lemma alloc_In (fs : list float) (o : obj) :
  In o (alloc fs) ->
  exists p, (p < List.length fs)%nat /\ o = mk_obj p (nth p fs (value o)).
Proof.
  intros H. apply (In_nth _ _ o) in H as (p & Hp & Hnth).
  unfold alloc in *. rewrite alloc_from_length in Hp.
  exists p. split; [exact Hp |].
  rewrite alloc_from_nth in Hnth by exact Hp. simpl in Hnth. symmetry. exact Hnth.
Qed.

Lemma alloc_values (fs : list float) (o : obj) :
  In o (alloc fs) -> In (value o) fs.
Proof.
  intros H. destruct (alloc_In fs o H) as (p & Hp & Ho).
  rewrite Ho. simpl. apply nth_In, Hp.
Qed.

Lemma alloc_In_value (fs : list float) (y : float) :
  In y fs -> exists o, In o (alloc fs) /\ value o = y.
Proof.
  intros H. apply (In_nth _ _ y) in H as (p & Hp & Hnth).
  exists (nth p (alloc fs) (mk_obj 0 y)). split.
  - apply nth_In. unfold alloc. rewrite alloc_from_length. exact Hp.
  - unfold alloc. rewrite alloc_from_nth by exact Hp. simpl. exact Hnth.
Qed.

(** The scan of [min]: the current choice is an element seen so far and
    is below all of them. *)
Lemma min_scan (l : list obj) (cur : obj) (seen : list obj) :
  (forall o, In o (seen ++ l)%list -> is_nan (value o) = false) ->
  In cur seen ->
  (forall o, In o seen -> fle (value cur) (value o) = true) ->
  let r := fold_left (fun cur item => if flt (value item) (value cur) then item else cur)
                     l cur in
  In r (seen ++ l)%list /\
  (forall o, In o (seen ++ l)%list -> fle (value r) (value o) = true).
Proof.
  revert cur seen; induction l as [| item l IH]; intros cur seen Hnan Hin Hle; simpl.
  - rewrite app_nil_r. split; assumption.
  - replace (seen ++ item :: l)%list with ((seen ++ [item]) ++ l)%list in *
      by (rewrite <- app_assoc; reflexivity).
    assert (Hitem : is_nan (value item) = false).
    { apply Hnan. apply in_or_app. left. apply in_or_app. right. left. reflexivity. }
    assert (Hcur : is_nan (value cur) = false).
    { apply Hnan. apply in_or_app. left. apply in_or_app. left. exact Hin. }
    apply IH; [exact Hnan | |].
    + destruct (flt (value item) (value cur)); apply in_or_app;
        [right; left; reflexivity | left; exact Hin].
    + intros o Ho. apply in_app_or in Ho as [Ho | [<- | []]].
      * destruct (flt (value item) (value cur)) eqn:Hlt; [| apply Hle, Ho].
        apply fle_trans with (value cur); [apply flt_fle, Hlt | apply Hle, Ho].
      * destruct (flt (value item) (value cur)) eqn:Hlt.
        -- apply fle_refl, Hitem.
        -- apply flt_false_fle; assumption.
Qed.

(** The scan of [max], likewise. *)
Lemma max_scan (l : list obj) (cur : obj) (seen : list obj) :
  (forall o, In o (seen ++ l)%list -> is_nan (value o) = false) ->
  In cur seen ->
  (forall o, In o seen -> fle (value o) (value cur) = true) ->
  let r := fold_left (fun cur item => if flt (value cur) (value item) then item else cur)
                     l cur in
  In r (seen ++ l)%list /\
  (forall o, In o (seen ++ l)%list -> fle (value o) (value r) = true).
Proof.
  revert cur seen; induction l as [| item l IH]; intros cur seen Hnan Hin Hle; simpl.
  - rewrite app_nil_r. split; assumption.
  - replace (seen ++ item :: l)%list with ((seen ++ [item]) ++ l)%list in *
      by (rewrite <- app_assoc; reflexivity).
    assert (Hitem : is_nan (value item) = false).
    { apply Hnan. apply in_or_app. left. apply in_or_app. right. left. reflexivity. }
    assert (Hcur : is_nan (value cur) = false).
    { apply Hnan. apply in_or_app. left. apply in_or_app. left. exact Hin. }
    apply IH; [exact Hnan | |].
    + destruct (flt (value cur) (value item)); apply in_or_app;
        [right; left; reflexivity | left; exact Hin].
    + intros o Ho. apply in_app_or in Ho as [Ho | [<- | []]].
      * destruct (flt (value cur) (value item)) eqn:Hlt; [| apply Hle, Ho].
        apply fle_trans with (value cur); [apply Hle, Ho | apply flt_fle, Hlt].
      * destruct (flt (value cur) (value item)) eqn:Hlt.
        -- apply fle_refl, Hitem.
        -- apply flt_false_fle; assumption.
Qed.

(** [index] returns the first position that holds the object or an equal
    one. *)
Lemma index_from_first (l : list obj) (x : obj) (i : Z) :
  (exists y, In y l /\ same_or_equal y x = true) ->
  exists n,
    index_from i l x = OK (i + Z.of_nat n) /\
    (n < List.length l)%nat /\
    same_or_equal (nth n l x) x = true /\
    (forall n', (n' < n)%nat -> same_or_equal (nth n' l x) x = false).
Proof.
  revert i; induction l as [| y l IH]; intros i (y0 & Hin & Hy0).
  - destruct Hin.
  - simpl. destruct (same_or_equal y x) eqn:Hy.
    + exists 0%nat. repeat split.
      * f_equal. simpl. lia.
      * simpl. lia.
      * exact Hy.
      * intros n' Hn'. lia.
    + destruct Hin as [-> | Hin]; [congruence |].
      destruct (IH (i + 1) (ex_intro _ y0 (conj Hin Hy0))) as (n & Hn & Hlen & Hat & Hbefore).
      exists (S n). repeat split.
      * rewrite Hn. f_equal. lia.
      * simpl. lia.
      * exact Hat.
      * intros [| n'] Hn'; [exact Hy | apply Hbefore; lia].
Qed.

(** Looking an element of the list up in the reversed list gives the
    position of its last occurrence. *)
Lemma last_occurrence (fs : list float) (mv : obj) :
  (forall y, In y fs -> is_nan y = false) ->
  In mv (alloc fs) ->
  exists k,
    index (rev (alloc fs)) mv = OK k /\
    0 <= len (alloc fs) - 1 - k < len fs /\
    feq (nth (Z.to_nat (len (alloc fs) - 1 - k)) fs (value mv)) (value mv) = true /\
    (forall j, len (alloc fs) - 1 - k < j < len fs ->
               feq (nth (Z.to_nat j) fs (value mv)) (value mv) = false).
Proof.
  intros Hnan Hin.
  assert (Hlen : List.length (alloc fs) = List.length fs) by apply alloc_from_length.
  assert (Hself : same_or_equal mv mv = true).
  { unfold same_or_equal. rewrite Nat.eqb_refl. reflexivity. }
  destruct (index_from_first (rev (alloc fs)) mv 0) as (n & Hn & Hlt & Hat & Hbefore).
  { exists mv. split; [apply in_rev; rewrite rev_involutive; exact Hin | exact Hself]. }
  rewrite length_rev, Hlen in Hlt.
  assert (Hnth : forall n', (n' < List.length fs)%nat ->
                 nth n' (rev (alloc fs)) mv =
                 mk_obj (List.length fs - S n') (nth (List.length fs - S n') fs (value mv))).
  { intros n' Hn'. rewrite rev_nth by lia. rewrite Hlen.
    unfold alloc. rewrite alloc_from_nth by lia. reflexivity. }
  exists (Z.of_nat n). unfold index, len. rewrite Hlen.
  replace (Z.to_nat (Z.of_nat (List.length fs) - 1 - Z.of_nat n))
    with (List.length fs - S n)%nat by lia.
  repeat split; try lia.
  - exact Hn.
  - rewrite Hnth in Hat by exact Hlt.
    unfold same_or_equal in Hat. simpl in Hat.
    apply orb_true_iff in Hat as [Hid | Heq]; [| exact Heq].
    apply Nat.eqb_eq in Hid.
    destruct (alloc_In fs mv Hin) as (p & Hp & Hmv).
    rewrite Hmv in Hid. simpl in Hid. rewrite Hid.
    assert (Hval : nth p fs (value mv) = value mv).
    { pose proof (f_equal value Hmv) as Hv. simpl in Hv. symmetry. exact Hv. }
    rewrite Hval. apply feq_refl, Hnan. rewrite <- Hval. apply nth_In, Hp.
  - intros j Hj.
    assert (Hj' : (List.length fs - S (Z.to_nat j) < n)%nat) by lia.
    specialize (Hbefore _ Hj'). rewrite Hnth in Hbefore by lia.
    unfold same_or_equal in Hbefore. simpl in Hbefore.
    apply orb_false_iff in Hbefore as [_ Hneq].
    replace (List.length fs - S (List.length fs - S (Z.to_nat j)))%nat
      with (Z.to_nat j) in Hneq by lia.
    exact Hneq.
Qed.

Lemma find_min_last_minimum (x : num) (xs : list num) (fs : list float) :
  mapM float_ (x :: xs) = OK fs ->
  no_nan fs = true ->
  exists v i, find_min (x :: xs) = OK (TPair v i) /\ last_minimum fs v i.
Proof.
  intros Hfs Hnan. pose proof (no_nan_In _ Hnan) as Hnan'.
  clear Hnan. rename Hnan' into Hnan.
  unfold find_min. rewrite Hfs. cbn [bind].
  destruct fs as [| f fs]; [apply mapM_length in Hfs; discriminate |].
  set (objs := alloc (f :: fs)).
  assert (Hscan : exists mv, min objs = OK mv /\ In mv objs /\
                  forall o, In o objs -> fle (value mv) (value o) = true).
  { unfold objs, alloc. simpl.
    eexists. split; [reflexivity |].
    apply (min_scan (alloc_from 1 fs) (mk_obj 0 f) [mk_obj 0 f]).
    - intros o Ho. apply Hnan. apply (alloc_values (f :: fs)). exact Ho.
    - left. reflexivity.
    - intros o [<- | []]. apply fle_refl, Hnan. left. reflexivity. }
  destruct Hscan as (mv & Hmin & Hin & Hle).
  rewrite Hmin. cbn [bind].
  destruct (last_occurrence (f :: fs) mv Hnan Hin) as (k & Hk & Hrange & Hat & Hafter).
  fold objs in Hk, Hrange, Hat, Hafter. rewrite Hk. cbn [bind].
  exists (value mv), (len objs - 1 - k).
  split; [reflexivity |].
  repeat split; try lia; try assumption.
  - apply alloc_values, Hin.
  - intros y Hy. destruct (alloc_In_value _ _ Hy) as (o & Ho & <-). apply Hle, Ho.
Qed.

Lemma find_max_last_maximum (x : num) (xs : list num) (fs : list float) :
  mapM float_ (x :: xs) = OK fs ->
  no_nan fs = true ->
  exists v i, find_max (x :: xs) = OK (TPair v i) /\ last_maximum fs v i.
Proof.
  intros Hfs Hnan. pose proof (no_nan_In _ Hnan) as Hnan'.
  clear Hnan. rename Hnan' into Hnan.
  unfold find_max. rewrite Hfs. cbn [bind].
  destruct fs as [| f fs]; [apply mapM_length in Hfs; discriminate |].
  set (objs := alloc (f :: fs)).
  assert (Hscan : exists mv, max objs = OK mv /\ In mv objs /\
                  forall o, In o objs -> fle (value o) (value mv) = true).
  { unfold objs, alloc. simpl.
    eexists. split; [reflexivity |].
    apply (max_scan (alloc_from 1 fs) (mk_obj 0 f) [mk_obj 0 f]).
    - intros o Ho. apply Hnan. apply (alloc_values (f :: fs)). exact Ho.
    - left. reflexivity.
    - intros o [<- | []]. apply fle_refl, Hnan. left. reflexivity. }
  destruct Hscan as (mv & Hmax & Hin & Hle).
  rewrite Hmax. cbn [bind].
  destruct (last_occurrence (f :: fs) mv Hnan Hin) as (k & Hk & Hrange & Hat & Hafter).
  fold objs in Hk, Hrange, Hat, Hafter. rewrite Hk. cbn [bind].
  exists (value mv), (len objs - 1 - k).
  split; [reflexivity |].
  repeat split; try lia; try assumption.
  - apply alloc_values, Hin.
  - intros y Hy. destruct (alloc_In_value _ _ Hy) as (o & Ho & <-). apply Hle, Ho.
Qed.



(** ** The overview *)

Lemma len_map {A B : Type} (f : A -> B) (l : list A) : len (map f l) = len l.
Proof.
  unfold len. rewrite length_map. reflexivity.
Qed.

Lemma calculate_mean_nonempty (l : list num) (m : num) :
  l <> [] ->
  calculate_mean l = OK m ->
  exists fs,
    mapM float_ l = OK fs /\
    len fs = len l /\
    m = Float (fdiv (sum fs) (float_of_Z (len l))).
Proof.
  intros Hl H. unfold calculate_mean in H.
  apply bind_OK in H as (fs & Hfs & H).
  exists fs. split; [exact Hfs |].
  assert (Hlen : len fs = len l).
  { unfold len. f_equal. apply (mapM_length _ _ _ Hfs). }
  split; [exact Hlen |].
  destruct fs as [| f fs].
  - destruct l; [congruence | unfold len in Hlen; simpl in Hlen; lia].
  - rewrite <- Hlen. injection H as <-. reflexivity.
Qed.

Lemma convert_f_to_c_Float (v c : float) :
  convert_f_to_c (Float v) = OK c -> c = round (celsius_quotient v) 1.
Proof.
  intros H. injection H as <-. reflexivity.
Qed.

(** What a successful run of [generate_summary] on a non-empty data set
    has computed, step by step. *)
Lemma generate_summary_anatomy (d : day) (ds : list day) (s : string) :
  generate_summary (d :: ds) = OK s ->
  exists min_temp_ min_temp_day max_temp_ max_temp_day day_lo day_hi
         min_temp_date max_temp_date min_temp_c max_temp_c
         mean_lo mean_hi avg_lo avg_hi,
    find_min (map min_temp (d :: ds)) = OK (TPair min_temp_ min_temp_day) /\
    find_max (map max_temp (d :: ds)) = OK (TPair max_temp_ max_temp_day) /\
    getitem (d :: ds) min_temp_day = OK day_lo /\
    convert_date (date day_lo) = OK min_temp_date /\
    getitem (d :: ds) max_temp_day = OK day_hi /\
    convert_date (date day_hi) = OK max_temp_date /\
    convert_f_to_c (Float min_temp_) = OK min_temp_c /\
    convert_f_to_c (Float max_temp_) = OK max_temp_c /\
    calculate_mean (map min_temp (d :: ds)) = OK mean_lo /\
    convert_f_to_c mean_lo = OK avg_lo /\
    calculate_mean (map max_temp (d :: ds)) = OK mean_hi /\
    convert_f_to_c mean_hi = OK avg_hi /\
    s = str (Int (len (d :: ds))) ++ " Day Overview" ++ nl ++
        "  The lowest temperature will be " ++ format_temperature (Float min_temp_c) ++
        ", and will occur on " ++ min_temp_date ++ "." ++ nl ++
        "  The highest temperature will be " ++ format_temperature (Float max_temp_c) ++
        ", and will occur on " ++ max_temp_date ++ "." ++ nl ++
        "  The average low this week is " ++
        format_temperature (Float (round avg_lo 1)) ++ "." ++ nl ++
        "  The average high this week is " ++
        format_temperature (Float (round avg_hi 1)) ++ "." ++ nl.
Proof.
  intros H. unfold generate_summary, generate_summary_with in H.
  apply bind_OK in H as ([min_temp_ min_temp_day] & Hmin & H).
  apply bind_OK in Hmin as (tmin & Hfmin & Hmin).
  destruct tmin as [| v i]; [discriminate |]. injection Hmin as -> ->.
  apply bind_OK in H as ([max_temp_ max_temp_day] & Hmax & H).
  apply bind_OK in Hmax as (tmax & Hfmax & Hmax).
  destruct tmax as [| v i]; [discriminate |]. injection Hmax as -> ->.
  apply bind_OK in H as (min_temp_date & Hd1 & H).
  apply bind_OK in Hd1 as (day_lo & Hg1 & Hd1).
  apply bind_OK in H as (max_temp_date & Hd2 & H).
  apply bind_OK in Hd2 as (day_hi & Hg2 & Hd2).
  apply bind_OK in H as (min_temp_c & Hc1 & H).
  apply bind_OK in H as (max_temp_c & Hc2 & H).
  apply bind_OK in H as (avg_lo & Ha1 & H).
  apply bind_OK in Ha1 as (mean_lo & Hm1 & Ha1).
  apply bind_OK in H as (avg_hi & Ha2 & H).
  apply bind_OK in Ha2 as (mean_hi & Hm2 & Ha2).
  injection H as <-.
  exists min_temp_, min_temp_day, max_temp_, max_temp_day, day_lo, day_hi,
    min_temp_date, max_temp_date, min_temp_c, max_temp_c, mean_lo, mean_hi,
    avg_lo, avg_hi.
  repeat (split; [assumption |]). reflexivity.
Qed.

Lemma getitem_in_range {A : Type} (l : list A) (i : Z) :
  0 <= i < len l -> exists x, getitem l i = OK x /\ In x l.
Proof.
  intros H. unfold getitem.
  destruct (Z.ltb_spec i 0) as [Hneg | _]; [lia |].
  destruct (Z.ltb_spec i 0) as [Hneg | _]; [lia |].
  destruct (Z.leb_spec (len l) i) as [Hbig | _]; [lia |].
  cbn [orb].
  destruct (nth_error l (Z.to_nat i)) as [x |] eqn:Hx.
  - exists x. split; [reflexivity | apply (nth_error_In _ _ Hx)].
  - apply nth_error_None in Hx. unfold len in H. lia.
Qed.

Lemma calculate_mean_OK (l : list num) (fs : list float) :
  l <> [] ->
  mapM float_ l = OK fs ->
  calculate_mean l = OK (Float (fdiv (sum fs) (float_of_Z (len l)))).
Proof.
  intros Hl Hfs. unfold calculate_mean. rewrite Hfs. cbn [bind].
  assert (Hlen : len fs = len l).
  { unfold len. f_equal. apply (mapM_length _ _ _ Hfs). }
  destruct fs as [| f fs].
  - destruct l; [congruence | unfold len in Hlen; simpl in Hlen; lia].
  - rewrite <- Hlen. reflexivity.
Qed.

(** [generate_summary] returns a report for every non-empty data set whose
    dates are accepted and whose temperatures are numbers. *)
Lemma generate_summary_returns (d : day) (ds : list day) (lows highs : list float) :
  mapM float_ (map min_temp (d :: ds)) = OK lows ->
  no_nan lows = true ->
  mapM float_ (map max_temp (d :: ds)) = OK highs ->
  no_nan highs = true ->
  (forall r, In r (d :: ds) -> exists out, convert_date (date r) = OK out) ->
  exists s, generate_summary (d :: ds) = OK s.
Proof.
  intros Hlows Hnl Hhighs Hnh Hdates.
  destruct (find_min_last_minimum (min_temp d) (map min_temp ds) lows Hlows Hnl) as (v1 & i1 & Hmin & _ & _ & Hi1 & _).
  destruct (find_max_last_maximum (max_temp d) (map max_temp ds) highs Hhighs Hnh) as (v2 & i2 & Hmax & _ & _ & Hi2 & _).
  assert (Hl1 : len lows = len (d :: ds)).
  { unfold len. f_equal. rewrite (mapM_length _ _ _ Hlows). apply length_map. }
  assert (Hl2 : len highs = len (d :: ds)).
  { unfold len. f_equal. rewrite (mapM_length _ _ _ Hhighs). apply length_map. }
  destruct (getitem_in_range (d :: ds) i1 ltac:(lia)) as (r1 & Hr1 & Hin1).
  destruct (getitem_in_range (d :: ds) i2 ltac:(lia)) as (r2 & Hr2 & Hin2).
  destruct (Hdates r1 Hin1) as (out1 & Hout1).
  destruct (Hdates r2 Hin2) as (out2 & Hout2).
  unfold generate_summary, generate_summary_with.
  change (map min_temp (d :: ds)) with (min_temp d :: map min_temp ds) in *.
  change (map max_temp (d :: ds)) with (max_temp d :: map max_temp ds) in *.
  rewrite Hmin, Hmax. cbn [bind unpack2].
  rewrite Hr1, Hr2. cbn [bind]. rewrite Hout1, Hout2. cbn [bind].
  rewrite (calculate_mean_OK _ lows) by (discriminate || exact Hlows).
  rewrite (calculate_mean_OK _ highs) by (discriminate || exact Hhighs).
  unfold convert_f_to_c, float_. cbn [bind].
  eexists. reflexivity.
Qed.

Lemma getitem_nth_error {A : Type} (l : list A) (i : Z) (x : A) :
  0 <= i -> getitem l i = OK x -> nth_error l (Z.to_nat i) = Some x.
Proof.
  intros Hi H. unfold getitem in H.
  destruct (Z.ltb_spec i 0) as [Hneg | _]; [lia |].
  destruct ((i <? 0) || (len l <=? i)); [discriminate |].
  destruct (nth_error l (Z.to_nat i)) as [y |]; [| discriminate].
  apply OK_inj in H. subst y. reflexivity.
Qed.

Lemma mapM_nth_error {A B : Type} (f : A -> result B) (l : list A) (l' : list B)
    (n : nat) (x : A) :
  mapM f l = OK l' ->
  nth_error l n = Some x ->
  exists y, f x = OK y /\ nth_error l' n = Some y.
Proof.
  revert l' n; induction l as [| a l IH]; intros l' n H Hn.
  - destruct n; discriminate.
  - simpl in H. apply bind_OK in H as (b & Hb & H).
    apply bind_OK in H as (bs & Hbs & H). apply OK_inj in H. subst l'.
    destruct n as [| n]; simpl in Hn.
    + injection Hn as ->. exists b. split; [exact Hb | reflexivity].
    + apply (IH bs n Hbs Hn).
Qed.

(** The row that [generate_summary] dates the lowest temperature with is
    the last row whose minimum equals the lowest temperature. *)
Lemma generate_summary_row_of_minimum (d : day) (ds : list day) (lows : list float)
    (v : float) (i : Z) (r : day) :
  mapM float_ (map min_temp (d :: ds)) = OK lows ->
  last_minimum lows v i ->
  getitem (d :: ds) i = OK r ->
  exists t, float_ (min_temp r) = OK t /\ feq t v = true.
Proof.
  intros Hlows (_ & _ & Hi & Hat & _) Hr.
  apply getitem_nth_error in Hr; [| lia].
  assert (Hcol : nth_error (map min_temp (d :: ds)) (Z.to_nat i) = Some (min_temp r)).
  { rewrite nth_error_map, Hr. reflexivity. }
  destruct (mapM_nth_error _ _ _ _ _ Hlows Hcol) as (t & Ht & Hnth).
  exists t. split; [exact Ht |].
  rewrite (nth_error_nth _ _ v Hnth) in Hat. exact Hat.
Qed.

Lemma generate_summary_row_of_maximum (d : day) (ds : list day) (highs : list float)
    (v : float) (i : Z) (r : day) :
  mapM float_ (map max_temp (d :: ds)) = OK highs ->
  last_maximum highs v i ->
  getitem (d :: ds) i = OK r ->
  exists t, float_ (max_temp r) = OK t /\ feq t v = true.
Proof.
  intros Hhighs (_ & _ & Hi & Hat & _) Hr.
  apply getitem_nth_error in Hr; [| lia].
  assert (Hcol : nth_error (map max_temp (d :: ds)) (Z.to_nat i) = Some (max_temp r)).
  { rewrite nth_error_map, Hr. reflexivity. }
  destruct (mapM_nth_error _ _ _ _ _ Hhighs Hcol) as (t & Ht & Hnth).
  exists t. split; [exact Ht |].
  rewrite (nth_error_nth _ _ v Hnth) in Hat. exact Hat.
Qed.

Lemma string_app_assoc (a b c : string) : (a ++ b) ++ c = a ++ (b ++ c).
Proof.
  induction a as [| ch a IH]; simpl; [reflexivity | rewrite IH; reflexivity].
Qed.

(** C2: what [generate_summary] prints as average low (and as average
    high) of a non-empty data set is the mean of the column, [sum / len]
    in floats, converted to Celsius, which rounds to one decimal place,
    and rounded to one decimal place once more; the two averages are the
    last two lines of the report, and the report is returned for every
    non-empty data set of accepted dates and of numbers. *)
Theorem generate_summary_double_rounding :
  (forall d ds s,
      generate_summary (d :: ds) = OK s ->
      exists lows highs head,
        mapM float_ (map min_temp (d :: ds)) = OK lows /\
        mapM float_ (map max_temp (d :: ds)) = OK highs /\
        s = head ++
            "  The average low this week is " ++
            format_temperature
              (Float (round (round (celsius_quotient
                                      (fdiv (sum lows) (float_of_Z (len (d :: ds))))) 1) 1)) ++
            "." ++ nl ++
            "  The average high this week is " ++
            format_temperature
              (Float (round (round (celsius_quotient
                                      (fdiv (sum highs) (float_of_Z (len (d :: ds))))) 1) 1)) ++
            "." ++ nl) /\
  (forall d ds lows highs,
      mapM float_ (map min_temp (d :: ds)) = OK lows ->
      no_nan lows = true ->
      mapM float_ (map max_temp (d :: ds)) = OK highs ->
      no_nan highs = true ->
      (forall r, In r (d :: ds) -> exists out, convert_date (date r) = OK out) ->
      exists s, generate_summary (d :: ds) = OK s).
Proof.
  split; [| exact generate_summary_returns].
  intros d ds s H.
  destruct (generate_summary_anatomy d ds s H)
    as (v1 & i1 & v2 & i2 & r1 & r2 & d1 & d2 & c1 & c2 & mlo & mhi & alo & ahi &
        _ & _ & _ & _ & _ & _ & _ & _ & Hmlo & Halo & Hmhi & Hahi & Hs).
  destruct (calculate_mean_nonempty (map min_temp (d :: ds)) mlo ltac:(simpl; discriminate) Hmlo) as (lows & Hlows & _ & ->).
  destruct (calculate_mean_nonempty (map max_temp (d :: ds)) mhi ltac:(simpl; discriminate) Hmhi) as (highs & Hhighs & _ & ->).
  apply convert_f_to_c_Float in Halo, Hahi. subst alo ahi.
  rewrite !len_map in Hs.
  exists lows, highs.
  eexists. repeat (split; [eassumption |]).
  rewrite Hs.
  repeat rewrite <- string_app_assoc. reflexivity.
Qed.

Lemma generate_summary_double_rounding_witness :
  exists lows highs head,
    mapM float_ (map min_temp dataset_2) = OK lows /\
    mapM float_ (map max_temp dataset_2) = OK highs /\
    overview_2 =
      head ++
      "  The average low this week is " ++
      format_temperature
        (Float (round (round (celsius_quotient
                                (fdiv (sum lows) (float_of_Z (len dataset_2)))) 1) 1)) ++
      "." ++ nl ++
      "  The average high this week is " ++
      format_temperature
        (Float (round (round (celsius_quotient
                                (fdiv (sum highs) (float_of_Z (len dataset_2)))) 1) 1)) ++
      "." ++ nl.
Proof.
  apply (proj1 generate_summary_double_rounding
           (mk_day "2021-07-05" (Int 50) (Int 70))
           [mk_day "2021-07-06" (Int 30) (Int 90)] overview_2).
  vm_compute. reflexivity.
Defined.

(** C3: on the two rows [["2021-07-05", 50, 70], ["2021-07-06", 30, 90]]
    the overview reports the lowest temperature, 30 F, as -1.1 C on
    Tuesday 06 July 2021, the highest, 90 F, as 32.2 C on the same day,
    and the averages of [50, 30] and of [70, 90], 40 F and 80 F, as 4.4 C
    and 26.7 C; in every overview the index that [find_min] (or
    [find_max]) returns for the column selects the row of the data set
    whose date is printed with the extreme, and that row is the last one
    whose temperature equals the extreme. *)
Theorem generate_summary_two_rows :
  generate_summary dataset_2 = OK overview_2 /\
  find_min (map min_temp dataset_2) = OK (TPair (float_of_Z 30) 1) /\
  find_max (map max_temp dataset_2) = OK (TPair (float_of_Z 90) 1) /\
  getitem dataset_2 1 = OK (mk_day "2021-07-06" (Int 30) (Int 90)) /\
  convert_date "2021-07-06" = OK "Tuesday 06 July 2021" /\
  (c <- convert_f_to_c (Float (float_of_Z 30)) ;; OK (format_temperature (Float c))) =
  OK "-1.1°C" /\
  (c <- convert_f_to_c (Float (float_of_Z 90)) ;; OK (format_temperature (Float c))) =
  OK "32.2°C" /\
  calculate_mean [Int 50; Int 30] = OK (Float (float_of_Z 40)) /\
  calculate_mean [Int 70; Int 90] = OK (Float (float_of_Z 80)) /\
  (c <- convert_f_to_c (Float (float_of_Z 40)) ;; OK (format_temperature (Float (round c 1)))) =
  OK "4.4°C" /\
  (c <- convert_f_to_c (Float (float_of_Z 80)) ;; OK (format_temperature (Float (round c 1)))) =
  OK "26.7°C" /\
  (forall d ds s,
      generate_summary (d :: ds) = OK s ->
      exists v_lo i_lo v_hi i_hi day_lo day_hi date_lo date_hi tail,
        find_min (map min_temp (d :: ds)) = OK (TPair v_lo i_lo) /\
        find_max (map max_temp (d :: ds)) = OK (TPair v_hi i_hi) /\
        getitem (d :: ds) i_lo = OK day_lo /\
        getitem (d :: ds) i_hi = OK day_hi /\
        convert_date (date day_lo) = OK date_lo /\
        convert_date (date day_hi) = OK date_hi /\
        s = str (Int (len (d :: ds))) ++ " Day Overview" ++ nl ++
            "  The lowest temperature will be " ++
            format_temperature (Float (round (celsius_quotient v_lo) 1)) ++
            ", and will occur on " ++ date_lo ++ "." ++ nl ++
            "  The highest temperature will be " ++
            format_temperature (Float (round (celsius_quotient v_hi) 1)) ++
            ", and will occur on " ++ date_hi ++ "." ++ nl ++ tail) /\
  (forall d ds lows v i r,
      mapM float_ (map min_temp (d :: ds)) = OK lows ->
      no_nan lows = true ->
      find_min (map min_temp (d :: ds)) = OK (TPair v i) ->
      getitem (d :: ds) i = OK r ->
      last_minimum lows v i /\
      exists t, float_ (min_temp r) = OK t /\ feq t v = true) /\
  (forall d ds highs v i r,
      mapM float_ (map max_temp (d :: ds)) = OK highs ->
      no_nan highs = true ->
      find_max (map max_temp (d :: ds)) = OK (TPair v i) ->
      getitem (d :: ds) i = OK r ->
      last_maximum highs v i /\
      exists t, float_ (max_temp r) = OK t /\ feq t v = true).
Proof.
  do 11 (split; [vm_compute; reflexivity |]).
  split; [| split].
  - intros d ds s H.
    destruct (generate_summary_anatomy d ds s H)
      as (v1 & i1 & v2 & i2 & r1 & r2 & d1 & d2 & c1 & c2 & mlo & mhi & alo & ahi &
          Hmin & Hmax & Hg1 & Hd1 & Hg2 & Hd2 & Hc1 & Hc2 & _ & _ & _ & _ & Hs).
    apply convert_f_to_c_Float in Hc1, Hc2. subst c1 c2.
    exists v1, i1, v2, i2, r1, r2, d1, d2.
    eexists. repeat (split; [eassumption |]).
    exact Hs.
  - intros d ds lows v i r Hlows Hnan Hmin Hr.
    destruct (find_min_last_minimum (min_temp d) (map min_temp ds) lows Hlows Hnan)
      as (v' & i' & Hmin' & Hlast).
    change (min_temp d :: map min_temp ds) with (map min_temp (d :: ds)) in Hmin'.
    rewrite Hmin in Hmin'. apply OK_inj in Hmin'. injection Hmin' as <- <-.
    split; [exact Hlast |].
    apply (generate_summary_row_of_minimum d ds lows v i r Hlows Hlast Hr).
  - intros d ds highs v i r Hhighs Hnan Hmax Hr.
    destruct (find_max_last_maximum (max_temp d) (map max_temp ds) highs Hhighs Hnan)
      as (v' & i' & Hmax' & Hlast).
    change (max_temp d :: map max_temp ds) with (map max_temp (d :: ds)) in Hmax'.
    rewrite Hmax in Hmax'. apply OK_inj in Hmax'. injection Hmax' as <- <-.
    split; [exact Hlast |].
    apply (generate_summary_row_of_maximum d ds highs v i r Hhighs Hlast Hr).
Qed.

Lemma generate_summary_two_rows_witness :
  exists v_lo i_lo v_hi i_hi day_lo day_hi date_lo date_hi tail,
    find_min (map min_temp dataset_2) = OK (TPair v_lo i_lo) /\
    find_max (map max_temp dataset_2) = OK (TPair v_hi i_hi) /\
    getitem dataset_2 i_lo = OK day_lo /\
    getitem dataset_2 i_hi = OK day_hi /\
    convert_date (date day_lo) = OK date_lo /\
    convert_date (date day_hi) = OK date_hi /\
    overview_2 =
      str (Int (len dataset_2)) ++ " Day Overview" ++ nl ++
      "  The lowest temperature will be " ++
      format_temperature (Float (round (celsius_quotient v_lo) 1)) ++
      ", and will occur on " ++ date_lo ++ "." ++ nl ++
      "  The highest temperature will be " ++
      format_temperature (Float (round (celsius_quotient v_hi) 1)) ++
      ", and will occur on " ++ date_hi ++ "." ++ nl ++ tail.
Proof.
  refine (proj1 (proj2 (proj2 (proj2 (proj2 (proj2 (proj2 (proj2 (proj2 (proj2 (proj2
            (proj2 generate_summary_two_rows)))))))))))
            (mk_day "2021-07-05" (Int 50) (Int 70))
            [mk_day "2021-07-06" (Int 30) (Int 90)] overview_2 _).
  vm_compute. reflexivity.
Defined.

(** ** The daily summary *)

Lemma string_app_nil_r (s : string) : s ++ "" = s.
Proof.
  induction s as [| c s IH]; simpl; [reflexivity | f_equal; exact IH].
Qed.

Lemma daily_step_block (summary : string) (d : day) :
  daily_step summary d = (b <- daily_block d ;; OK (summary ++ b)).
Proof.
  unfold daily_step, daily_block.
  destruct (convert_date (date d)) as [dt | e]; [| reflexivity].
  destruct (convert_f_to_c (min_temp d)) as [a | e]; [| reflexivity].
  destruct (convert_f_to_c (max_temp d)) as [b | e]; [| reflexivity].
  cbn [bind]. f_equal.
  repeat rewrite string_app_assoc. reflexivity.
Qed.

Lemma daily_loop_blocks (ds : list day) (summary : string) :
  daily_loop ds summary =
  (blocks <- mapM daily_block ds ;; OK (summary ++ join blocks)).
Proof.
  revert summary; induction ds as [| d ds IH]; intros summary; simpl.
  - f_equal. symmetry. apply string_app_nil_r.
  - rewrite daily_step_block.
    destruct (daily_block d) as [b | e]; [| reflexivity].
    cbn [bind]. rewrite IH.
    destruct (mapM daily_block ds) as [bs | e]; [| reflexivity].
    cbn [bind]. f_equal. unfold join. simpl. rewrite string_app_assoc. reflexivity.
Qed.

(** *** Texts without a newline *)

Lemma no_newline_app (a b : string) :
  no_newline (a ++ b) = no_newline a && no_newline b.
Proof.
  induction a as [| c a IH]; simpl; [reflexivity |].
  rewrite IH. apply andb_assoc.
Qed.

Lemma no_newline_substring (s : string) (n m : nat) :
  no_newline s = true -> no_newline (substring n m s) = true.
Proof.
  revert n m; induction s as [| c s IH]; intros n m H.
  - destruct n, m; reflexivity.
  - simpl in H. apply andb_true_iff in H as [Hc Hs].
    destruct n as [| n]; destruct m as [| m]; simpl; try reflexivity.
    + rewrite Hc. apply IH, Hs.
    + apply IH, Hs.
    + apply IH, Hs.
Qed.

Lemma no_newline_zeros (n : nat) : no_newline (zeros n) = true.
Proof.
  induction n as [| n IH]; simpl; [reflexivity | exact IH].
Qed.

Lemma digit_char_cases (k : Z) :
  0 <= k <= 9 ->
  Datetime.is_digit (digit_char k) = true /\
  Datetime.digit_value (digit_char k) = k /\
  is_newline (digit_char k) = false.
Proof.
  intros H.
  assert (Hk : k = 0 \/ k = 1 \/ k = 2 \/ k = 3 \/ k = 4 \/ k = 5 \/ k = 6 \/
               k = 7 \/ k = 8 \/ k = 9) by lia.
  repeat (destruct Hk as [-> | Hk]; [repeat split |]). subst k. repeat split.
Qed.

Lemma no_newline_digits_from (fuel : nat) (n : Z) (acc : string) :
  no_newline acc = true -> no_newline (digits_from fuel n acc) = true.
Proof.
  revert n acc; induction fuel as [| fuel IH]; intros n acc H; simpl; [exact H |].
  assert (Hacc : no_newline (String (digit_char (n mod 10)) acc) = true).
  { simpl. rewrite H.
    destruct (digit_char_cases (n mod 10)) as (_ & _ & ->); [| reflexivity].
    pose proof (Z.mod_pos_bound n 10). lia. }
  destruct (n <? 10); [exact Hacc | apply IH, Hacc].
Qed.

Lemma no_newline_str_of_nonneg (n : Z) : no_newline (str_of_nonneg n) = true.
Proof.
  apply no_newline_digits_from. reflexivity.
Qed.

Lemma no_newline_nth (l : list string) (n : nat) :
  forallb no_newline l = true -> no_newline (nth n l "") = true.
Proof.
  intros H. rewrite forallb_forall in H.
  destruct (Nat.lt_ge_cases n (List.length l)) as [Hn | Hn].
  - apply H, nth_In, Hn.
  - rewrite nth_overflow by exact Hn. reflexivity.
Qed.

Lemma no_newline_layout (digits : string) (decpt : Z) :
  no_newline digits = true -> no_newline (float_layout digits decpt) = true.
Proof.
  intros H. unfold float_layout, exponent_str.
  repeat match goal with
         | |- context [if ?b then _ else _] => destruct b
         end;
    repeat rewrite no_newline_app;
    rewrite ?no_newline_substring, ?no_newline_zeros, ?no_newline_str_of_nonneg, ?H
      by exact H;
    reflexivity.
Qed.

Lemma no_newline_repr (x : float) : no_newline (repr x) = true.
Proof.
  destruct x as [s | s | | s m e]; try (destruct s; reflexivity); try reflexivity.
  unfold repr. destruct (shortest_digits m e) as [d k].
  rewrite no_newline_app, no_newline_layout by apply no_newline_str_of_nonneg.
  destruct s; reflexivity.
Qed.

Lemma no_newline_format_temperature (x : float) :
  no_newline (format_temperature (Float x)) = true.
Proof.
  unfold format_temperature, str. rewrite no_newline_app, no_newline_repr. reflexivity.
Qed.

Lemma no_newline_zero_pad (w : nat) (n : Z) : no_newline (Datetime.zero_pad w n) = true.
Proof.
  unfold Datetime.zero_pad.
  rewrite no_newline_app, no_newline_zeros, no_newline_str_of_nonneg. reflexivity.
Qed.

Lemma strftime_long_form (dt : Datetime.datetime) :
  Datetime.strftime dt "%A %d %B %Y" =
  long_form (Datetime.year dt) (Datetime.month dt) (Datetime.day dt).
Proof.
  change (Datetime.strftime dt "%A %d %B %Y")
    with (Datetime.directive "A" dt ++
          String " " (Datetime.directive "d" dt ++
          String " " (Datetime.directive "B" dt ++
          String " " (Datetime.directive "Y" dt ++ "")))).
  rewrite string_app_nil_r. reflexivity.
Qed.

Lemma no_newline_convert_date (iso_string out : string) :
  convert_date iso_string = OK out -> no_newline out = true.
Proof.
  intros H. unfold convert_date in H.
  apply bind_OK in H as (dt & _ & H).
  rewrite strftime_long_form in H. apply OK_inj in H. subst out.
  unfold long_form. repeat rewrite no_newline_app.
  rewrite no_newline_zero_pad, no_newline_str_of_nonneg, !no_newline_nth by reflexivity.
  reflexivity.
Qed.

(** *** Lines *)

Lemma lines_line (a rest : string) :
  no_newline a = true -> lines (a ++ nl ++ rest) = a :: lines rest.
Proof.
  induction a as [| c a IH]; intros H.
  - reflexivity.
  - simpl in H. apply andb_true_iff in H as [Hc Ha].
    cbn [append lines]. rewrite (IH Ha).
    apply negb_true_iff in Hc. rewrite Hc. reflexivity.
Qed.

Lemma lines_block (d : day) (b rest : string) :
  daily_block d = OK b ->
  exists r, rendered d r /\ lines (b ++ rest) = (block_lines r ++ lines rest)%list.
Proof.
  intros H. unfold daily_block in H.
  apply bind_OK in H as (dt & Hdt & H).
  apply bind_OK in H as (a & Ha & H).
  apply bind_OK in H as (c & Hc & H).
  apply OK_inj in H. subst b.
  exists (dt, a, c). split; [repeat split; assumption |].
  replace (("---- " ++ dt ++ " ----" ++ nl ++
            "  Minimum Temperature: " ++ format_temperature (Float a) ++ nl ++
            "  Maximum Temperature: " ++ format_temperature (Float c) ++ nl ++ nl) ++ rest)
    with (("---- " ++ dt ++ " ----") ++ nl ++
          ("  Minimum Temperature: " ++ format_temperature (Float a)) ++ nl ++
          ("  Maximum Temperature: " ++ format_temperature (Float c)) ++ nl ++
          "" ++ nl ++ rest)
    by (repeat rewrite string_app_assoc; reflexivity).
  rewrite lines_line.
  2:{ repeat rewrite no_newline_app.
      rewrite (no_newline_convert_date _ _ Hdt). reflexivity. }
  rewrite lines_line.
  2:{ rewrite no_newline_app, no_newline_format_temperature. reflexivity. }
  rewrite lines_line.
  2:{ rewrite no_newline_app, no_newline_format_temperature. reflexivity. }
  rewrite lines_line by reflexivity.
  reflexivity.
Qed.

Lemma lines_blocks (ds : list day) (blocks : list string) :
  mapM daily_block ds = OK blocks ->
  exists rows,
    Forall2 rendered ds rows /\
    lines (join blocks) = flat_map block_lines rows.
Proof.
  revert blocks; induction ds as [| d ds IH]; intros blocks H; simpl in H.
  - injection H as <-. exists []. split; [constructor | reflexivity].
  - apply bind_OK in H as (b & Hb & H).
    apply bind_OK in H as (bs & Hbs & H).
    injection H as <-.
    destruct (IH bs Hbs) as (rows & Hrows & Hlines).
    destruct (lines_block d b (join bs) Hb) as (r & Hr & Hl).
    exists (r :: rows). split; [constructor; assumption |].
    cbn [join fold_right flat_map]. fold (join bs).
    rewrite Hl, Hlines. reflexivity.
Qed.

Lemma rendered_blocks (ds : list day) (rows : list (string * float * float)) :
  Forall2 rendered ds rows -> exists blocks, mapM daily_block ds = OK blocks.
Proof.
  induction 1 as [| d [[dt a] c] ds rows (Hdt & Ha & Hc) _ (blocks & IH)].
  - exists []. reflexivity.
  - eexists. simpl. unfold daily_block at 1. rewrite Hdt, Ha, Hc, IH. reflexivity.
Qed.

(** C9: [generate_daily_summary] is the concatenation of one block per
    record, in the order of the input, nothing dropped, merged or moved;
    when it returns, the text has exactly four lines per record: the
    dashed header with the formatted date of the record, its minimum in
    Celsius with the degree suffix, its maximum likewise, and an empty
    line. *)
Theorem generate_daily_summary_blocks :
  (forall ds,
      generate_daily_summary ds =
      (blocks <- mapM daily_block ds ;; OK (join blocks))) /\
  (forall ds blocks,
      mapM daily_block ds = OK blocks -> List.length blocks = List.length ds) /\
  (forall ds s,
      generate_daily_summary ds = OK s ->
      exists rows,
        Forall2 rendered ds rows /\
        List.length rows = List.length ds /\
        lines s = flat_map block_lines rows /\
        List.length (lines s) = (4 * List.length ds)%nat) /\
  (forall ds rows,
      Forall2 rendered ds rows -> exists s, generate_daily_summary ds = OK s).
Proof.
  split; [| split; [| split]].
  - intros ds. unfold generate_daily_summary. rewrite daily_loop_blocks. reflexivity.
  - intros ds blocks H. apply (mapM_length _ _ _ H).
  - intros ds s H. unfold generate_daily_summary in H.
    rewrite daily_loop_blocks in H.
    apply bind_OK in H as (blocks & Hblocks & H). injection H as <-.
    destruct (lines_blocks ds blocks Hblocks) as (rows & Hrows & Hlines).
    exists rows.
    assert (Hlen : List.length rows = List.length ds).
    { symmetry. apply (Forall2_length Hrows). }
    repeat split; try assumption.
    rewrite Hlines, <- Hlen. clear.
    induction rows as [| [[dt a] b] rows IH]; simpl; [reflexivity | lia].
  - intros ds rows H. destruct (rendered_blocks ds rows H) as (blocks & Hblocks).
    exists (join blocks). unfold generate_daily_summary.
    rewrite daily_loop_blocks, Hblocks. reflexivity.
Qed.

Lemma generate_daily_summary_blocks_witness :
  exists rows,
    Forall2 rendered dataset_2 rows /\
    List.length rows = 2%nat /\
    lines ("---- Monday 05 July 2021 ----" ++ nl ++
           "  Minimum Temperature: 10.0°C" ++ nl ++
           "  Maximum Temperature: 21.1°C" ++ nl ++ nl ++
           "---- Tuesday 06 July 2021 ----" ++ nl ++
           "  Minimum Temperature: -1.1°C" ++ nl ++
           "  Maximum Temperature: 32.2°C" ++ nl ++ nl) =
    flat_map block_lines rows /\
    List.length
      (lines ("---- Monday 05 July 2021 ----" ++ nl ++
              "  Minimum Temperature: 10.0°C" ++ nl ++
              "  Maximum Temperature: 21.1°C" ++ nl ++ nl ++
              "---- Tuesday 06 July 2021 ----" ++ nl ++
              "  Minimum Temperature: -1.1°C" ++ nl ++
              "  Maximum Temperature: 32.2°C" ++ nl ++ nl)) = 8%nat.
Proof.
  refine (proj1 (proj2 (proj2 generate_daily_summary_blocks)) dataset_2 _ _).
  vm_compute. reflexivity.
Defined.


(** ** Dates *)

Section Dates.

Import Datetime.

Lemma only_ValueError_OK {A : Type} (a : A) : only_ValueError (OK a).
Proof. intros e H. discriminate. Qed.

Lemma only_ValueError_Raise {A : Type} : only_ValueError (@Raise A ValueError).
Proof. intros e H. injection H as <-. reflexivity. Qed.

Lemma only_ValueError_bind {A B : Type} (r : result A) (k : A -> result B) :
  only_ValueError r -> (forall a, only_ValueError (k a)) -> only_ValueError (bind r k).
Proof.
  intros Hr Hk e H. destruct r as [a | e']; simpl in H.
  - apply (Hk a), H.
  - injection H as <-. apply Hr. reflexivity.
Qed.

Create HintDb only_ve.

Ltac only_ve :=
  cbv zeta;
  repeat first
    [ solve [auto with only_ve nocore]
    | apply only_ValueError_OK
    | apply only_ValueError_Raise
    | apply only_ValueError_bind; [| intro]
    | match goal with
      | |- only_ValueError (if ?b then _ else _) => destruct b
      | |- only_ValueError (match ?x with _ => _ end) => destruct x
      end ].

Lemma iso_to_ymd_only_ValueError (y w d : Z) : only_ValueError (iso_to_ymd y w d).
Proof. unfold iso_to_ymd. only_ve. Qed.

#[local] Hint Resolve iso_to_ymd_only_ValueError : only_ve.

Lemma parse_isoformat_date_only_ValueError (s : string) (len : nat) :
  only_ValueError (parse_isoformat_date s len).
Proof. unfold parse_isoformat_date. only_ve. Qed.

#[local] Hint Resolve parse_isoformat_date_only_ValueError : only_ve.

Lemma parse_hh_mm_ss_only_ValueError (todo i : nat) (has_separator : bool)
    (s : string) (p p_end : nat) (vals : list Z) :
  only_ValueError (parse_hh_mm_ss todo i has_separator s p p_end vals).
Proof.
  revert i has_separator p vals; induction todo as [| todo IH]; intros;
    cbn [parse_hh_mm_ss].
  - apply only_ValueError_OK.
  - only_ve.
Qed.

#[local] Hint Resolve parse_hh_mm_ss_only_ValueError : only_ve.

Lemma parse_hh_mm_ss_ff_only_ValueError (s : string) (p p_end : nat) :
  only_ValueError (parse_hh_mm_ss_ff s p p_end).
Proof. unfold parse_hh_mm_ss_ff. only_ve. Qed.

#[local] Hint Resolve parse_hh_mm_ss_ff_only_ValueError : only_ve.

Lemma parse_isoformat_time_only_ValueError (s : string) (p dtlen : nat) :
  only_ValueError (parse_isoformat_time s p dtlen).
Proof. unfold parse_isoformat_time. only_ve. Qed.

#[local] Hint Resolve parse_isoformat_time_only_ValueError : only_ve.

Lemma tzinfo_only_ValueError (tz : option (Z * Z)) :
  only_ValueError (tzinfo_from_isoformat_results tz).
Proof. unfold tzinfo_from_isoformat_results. only_ve. Qed.

#[local] Hint Resolve tzinfo_only_ValueError : only_ve.

Lemma new_datetime_ex_only_ValueError (y m d h mi s us : Z) (tz : option Z) :
  only_ValueError (new_datetime_ex y m d h mi s us tz).
Proof. unfold new_datetime_ex, check_date_args, check_time_args. only_ve. Qed.

#[local] Hint Resolve new_datetime_ex_only_ValueError : only_ve.

Lemma fromisoformat_only_ValueError (s : string) :
  only_ValueError (fromisoformat s).
Proof. unfold fromisoformat. only_ve. Qed.

#[local] Hint Resolve fromisoformat_only_ValueError : only_ve.

Lemma convert_date_only_ValueError (s : string) :
  only_ValueError (convert_date s).
Proof.
  unfold convert_date. only_ve.
Qed.

(** *** Bytes and digits *)

Lemma byte_at_beyond (s : string) (i : nat) :
  (String.length s <= i)%nat -> byte_at s i = NUL.
Proof.
  revert i; induction s as [| c s IH]; intros [| i] H; simpl in H;
    try lia; try reflexivity.
  apply (IH i). lia.
Qed.

Lemma digit_in_range (s : string) (i : nat) :
  is_digit (byte_at s i) = true -> (i < String.length s)%nat.
Proof.
  intros H. destruct (Nat.lt_ge_cases i (String.length s)) as [Hlt | Hge];
    [exact Hlt |].
  rewrite byte_at_beyond in H by exact Hge. discriminate.
Qed.

Lemma byte_at_get (s : string) (i : nat) (c : ascii) :
  String.get i s = Some c -> byte_at s i = c.
Proof. unfold byte_at. intros ->. reflexivity. Qed.

Lemma digit_not_W (c : ascii) : is_digit c = true -> Ascii.eqb c "W" = false.
Proof.
  intros H. destruct (Ascii.eqb_spec c "W") as [-> | _]; [discriminate | reflexivity].
Qed.

Lemma Some_pair_inj {A B : Type} (a a' : A) (b b' : B) :
  Some (a, b) = Some (a', b') -> a = a' /\ b = b'.
Proof. intros H. injection H as -> ->. split; reflexivity. Qed.

Lemma parse_digits_2 (s : string) (p : nat) (v : Z) :
  is_digit (byte_at s p) = true ->
  is_digit (byte_at s (S p)) = true ->
  parse_digits s p 2 v =
  Some (10 * (10 * v + digit_value (byte_at s p)) + digit_value (byte_at s (S p)),
        S (S p)).
Proof.
  intros H1 H2. cbn [parse_digits]. cbv zeta. rewrite H1, H2. reflexivity.
Qed.

Lemma parse_digits_2_inv (s : string) (p : nat) (v r : Z) (q : nat) :
  parse_digits s p 2 v = Some (r, q) ->
  is_digit (byte_at s p) = true /\
  is_digit (byte_at s (S p)) = true /\
  r = 10 * (10 * v + digit_value (byte_at s p)) + digit_value (byte_at s (S p)) /\
  q = S (S p).
Proof.
  cbn [parse_digits]. cbv zeta.
  destruct (is_digit (byte_at s p)); [| discriminate].
  destruct (is_digit (byte_at s (S p))); [| discriminate].
  intros H. apply Some_pair_inj in H as [<- <-]. repeat split.
Qed.

Lemma parse_digits_4 (s : string) (p : nat) :
  is_digit (byte_at s p) = true ->
  is_digit (byte_at s (S p)) = true ->
  is_digit (byte_at s (S (S p))) = true ->
  is_digit (byte_at s (S (S (S p)))) = true ->
  parse_digits s p 4 0 =
  Some (1000 * digit_value (byte_at s p) + 100 * digit_value (byte_at s (S p)) +
        10 * digit_value (byte_at s (S (S p))) + digit_value (byte_at s (S (S (S p)))),
        S (S (S (S p)))).
Proof.
  intros H1 H2 H3 H4. cbn [parse_digits]. cbv zeta. rewrite H1, H2, H3, H4.
  match goal with
  | |- Some (?a, _) = Some (?b, _) => replace a with b by ring
  end.
  reflexivity.
Qed.

Lemma parse_digits_4_inv (s : string) (p : nat) (r : Z) (q : nat) :
  parse_digits s p 4 0 = Some (r, q) ->
  is_digit (byte_at s p) = true /\
  is_digit (byte_at s (S p)) = true /\
  is_digit (byte_at s (S (S p))) = true /\
  is_digit (byte_at s (S (S (S p)))) = true /\
  r = 1000 * digit_value (byte_at s p) + 100 * digit_value (byte_at s (S p)) +
      10 * digit_value (byte_at s (S (S p))) + digit_value (byte_at s (S (S (S p)))) /\
  q = S (S (S (S p))).
Proof.
  cbn [parse_digits]. cbv zeta.
  destruct (is_digit (byte_at s p)); [| discriminate].
  destruct (is_digit (byte_at s (S p))); [| discriminate].
  destruct (is_digit (byte_at s (S (S p)))); [| discriminate].
  destruct (is_digit (byte_at s (S (S (S p))))); [| discriminate].
  intros H. apply Some_pair_inj in H as [<- <-].
  repeat split. ring.
Qed.

(** *** The constructor and the rendering *)

Lemma new_datetime_ex_valid (y m d : Z) (tz : option Z) :
  valid_date y m d = true ->
  new_datetime_ex y m d 0 0 0 0 tz = OK (mk_datetime y m d 0 0 0 0 tz).
Proof.
  unfold valid_date, new_datetime_ex, check_date_args, MINYEAR, MAXYEAR. intros H.
  repeat (apply andb_true_iff in H as [H ?]).
  repeat match goal with Hb : (_ <=? _) = true |- _ => apply Z.leb_le in Hb end.
  repeat match goal with
         | |- context [?a <? ?b] => destruct (Z.ltb_spec a b); [lia |]
         end.
  reflexivity.
Qed.

Lemma new_datetime_ex_invalid (y m d h mi s us : Z) (tz : option Z) :
  valid_date y m d = false -> new_datetime_ex y m d h mi s us tz = Raise ValueError.
Proof.
  unfold valid_date, new_datetime_ex, check_date_args, MINYEAR, MAXYEAR. intros H.
  destruct (Z.ltb_spec y 1); [reflexivity |].
  destruct (Z.ltb_spec 9999 y); [reflexivity |].
  destruct (Z.ltb_spec m 1); [reflexivity |].
  destruct (Z.ltb_spec 12 m); [reflexivity |].
  destruct (Z.ltb_spec d 1); [reflexivity |].
  destruct (Z.ltb_spec (days_in_month y m) d); [reflexivity |].
  exfalso. revert H.
  destruct (Z.leb_spec 1 y); [| lia]. destruct (Z.leb_spec y 9999); [| lia].
  destruct (Z.leb_spec 1 m); [| lia]. destruct (Z.leb_spec m 12); [| lia].
  destruct (Z.leb_spec 1 d); [| lia].
  destruct (Z.leb_spec d (days_in_month y m)); [| lia].
  discriminate.
Qed.

Lemma new_datetime_ex_OK (y m d h mi s us : Z) (tz : option Z) (dt : datetime) :
  new_datetime_ex y m d h mi s us tz = OK dt ->
  valid_date y m d = true /\ year dt = y /\ month dt = m /\ day dt = d.
Proof.
  intros H. destruct (valid_date y m d) eqn:Hv.
  - unfold new_datetime_ex in H.
    apply bind_OK in H as (u1 & _ & H). apply bind_OK in H as (u2 & _ & H).
    apply OK_inj in H. subst dt. repeat split.
  - rewrite new_datetime_ex_invalid in H by exact Hv. discriminate.
Qed.

Lemma fromisoformat_valid (s : string) (dt : datetime) :
  fromisoformat s = OK dt ->
  valid_date (year dt) (month dt) (day dt) = true.
Proof.
  unfold fromisoformat. intros H.
  destruct (_find_isoformat_datetime_separator s (String.length s)) as [sep |];
    [| discriminate].
  apply bind_OK in H as ([[y m] d] & _ & H).
  apply bind_OK in H as ([t tz] & _ & H).
  apply bind_OK in H as (tzi & _ & H).
  apply new_datetime_ex_OK in H as (Hv & -> & -> & ->). exact Hv.
Qed.

Lemma convert_date_OK (s out : string) :
  convert_date s = OK out ->
  exists dt, fromisoformat s = OK dt /\
             out = long_form (year dt) (month dt) (day dt).
Proof.
  unfold convert_date. intros H.
  apply bind_OK in H as (dt & Hdt & H).
  rewrite strftime_long_form in H. apply OK_inj in H.
  exists dt. split; [exact Hdt | symmetry; exact H].
Qed.

(** *** The calendar form YYYY-MM-DD *)

Lemma separator_calendar (s : string) :
  byte_at s 4 = "-"%char ->
  Ascii.eqb (byte_at s 5) "W" = false ->
  _find_isoformat_datetime_separator s (String.length s) =
  Some (if (String.length s =? 7)%nat then 7%nat else 10%nat).
Proof.
  intros H4 H5. unfold _find_isoformat_datetime_separator. rewrite H4, H5.
  destruct (String.length s =? 7)%nat; reflexivity.
Qed.

Lemma parse_calendar (s : string) (len : nat) :
  byte_at s 4 = "-"%char ->
  Ascii.eqb (byte_at s 5) "W" = false ->
  parse_isoformat_date s len =
  match parse_digits s 0 4 0 with
  | None => Raise ValueError
  | Some (year, _) =>
      match parse_digits s 5 2 0 with
      | None => Raise ValueError
      | Some (month, _) =>
          if negb (Ascii.eqb (byte_at s 7) "-") then Raise ValueError
          else
            match parse_digits s 8 2 0 with
            | None => Raise ValueError
            | Some (day, _) => OK (year, month, day)
            end
      end
  end.
Proof.
  intros H4 H5. unfold parse_isoformat_date.
  destruct (parse_digits s 0 4 0) as [[y cur] |] eqn:Hy; [| reflexivity].
  apply parse_digits_4_inv in Hy as (_ & _ & _ & _ & _ & ->).
  cbv zeta. rewrite H4, Ascii.eqb_refl. cbv iota. rewrite H5.
  destruct (parse_digits s 5 2 0) as [[m cur] |] eqn:Hm; [| reflexivity].
  apply parse_digits_2_inv in Hm as (_ & _ & _ & ->).
  reflexivity.
Qed.

Lemma substring_0_0 (s : string) : substring 0 0 s = "".
Proof. destruct s; reflexivity. Qed.

(** What the calendar form reads is what [iso_date] reads from the first
    ten characters, up to the check of the day. *)
Lemma parse_calendar_iso_date (s : string) (len : nat) (y m d : Z) :
  byte_at s 4 = "-"%char ->
  Ascii.eqb (byte_at s 5) "W" = false ->
  parse_isoformat_date s len = OK (y, m, d) ->
  iso_date (substring 0 10 s) = if valid_date y m d then Some (y, m, d) else None.
Proof.
  intros H4 H5 H. rewrite parse_calendar in H by assumption.
  destruct (parse_digits s 0 4 0) as [[y' c1] |] eqn:Hy; [| discriminate].
  destruct (parse_digits s 5 2 0) as [[m' c2] |] eqn:Hm; [| discriminate].
  destruct (Ascii.eqb (byte_at s 7) "-") eqn:H7; [| discriminate].
  cbn [negb] in H.
  destruct (parse_digits s 8 2 0) as [[d' c3] |] eqn:Hd; [| discriminate].
  injection H as -> -> ->.
  apply parse_digits_4_inv in Hy as (Hy1 & Hy2 & Hy3 & Hy4 & Hy & _).
  apply parse_digits_2_inv in Hm as (Hm1 & Hm2 & Hm & _).
  apply parse_digits_2_inv in Hd as (Hd1 & Hd2 & Hd & _).
  pose proof (digit_in_range _ _ Hd2) as Hlen.
  destruct s as [| c0 s]; [simpl in Hlen; lia |].
  destruct s as [| c1' s]; [simpl in Hlen; lia |].
  destruct s as [| c2' s]; [simpl in Hlen; lia |].
  destruct s as [| c3' s]; [simpl in Hlen; lia |].
  destruct s as [| c4 s]; [simpl in Hlen; lia |].
  destruct s as [| c5 s]; [simpl in Hlen; lia |].
  destruct s as [| c6 s]; [simpl in Hlen; lia |].
  destruct s as [| c7 s]; [simpl in Hlen; lia |].
  destruct s as [| c8 s]; [simpl in Hlen; lia |].
  destruct s as [| c9 s]; [simpl in Hlen; lia |].
  clear Hlen. unfold byte_at in *. cbn [String.get] in *.
  apply Ascii.eqb_eq in H7. subst c4 c7.
  cbn [substring]. rewrite substring_0_0. unfold iso_date. cbn [forallb].
  rewrite Hy1, Hy2, Hy3, Hy4, Hm1, Hm2, Hd1, Hd2. cbn [andb Ascii.eqb Bool.eqb].
  cbv zeta.
  replace (10 * (10 * 0 + digit_value c5) + digit_value c6)
    with (10 * digit_value c5 + digit_value c6) in Hm by ring.
  replace (10 * (10 * 0 + digit_value c8) + digit_value c9)
    with (10 * digit_value c8 + digit_value c9) in Hd by ring.
  rewrite <- Hy, <- Hm, <- Hd. reflexivity.
Qed.

Lemma iso_date_parse (t : string) (y m d : Z) :
  iso_date t = Some (y, m, d) ->
  String.length t = 10%nat /\
  byte_at t 4 = "-"%char /\
  Ascii.eqb (byte_at t 5) "W" = false /\
  (forall len, parse_isoformat_date t len = OK (y, m, d)) /\
  valid_date y m d = true.
Proof.
  intros H.
  destruct t as [| y1 t]; [discriminate |]. destruct t as [| y2 t]; [discriminate |].
  destruct t as [| y3 t]; [discriminate |]. destruct t as [| y4 t]; [discriminate |].
  destruct t as [| h1 t]; [discriminate |]. destruct t as [| m1 t]; [discriminate |].
  destruct t as [| m2 t]; [discriminate |]. destruct t as [| h2 t]; [discriminate |].
  destruct t as [| d1 t]; [discriminate |]. destruct t as [| d2 t]; [discriminate |].
  destruct t; [| discriminate].
  unfold iso_date in H. cbn [forallb] in H.
  match type of H with (if ?b then _ else _) = _ => destruct b eqn:Hb end;
    [| discriminate].
  cbv zeta in H.
  match type of H with (if ?b then _ else _) = _ => destruct b eqn:Hv end;
    [| discriminate].
  apply andb_true_iff in Hb as [Hb Hh2]. apply andb_true_iff in Hb as [Hb Hh1].
  apply Ascii.eqb_eq in Hh1, Hh2. subst h1 h2.
  apply andb_true_iff in Hb as [Hy1 Hb]. apply andb_true_iff in Hb as [Hy2 Hb].
  apply andb_true_iff in Hb as [Hy3 Hb]. apply andb_true_iff in Hb as [Hy4 Hb].
  apply andb_true_iff in Hb as [Hm1 Hb]. apply andb_true_iff in Hb as [Hm2 Hb].
  apply andb_true_iff in Hb as [Hd1 Hb]. apply andb_true_iff in Hb as [Hd2 _].
  set (t := String y1 (String y2 (String y3 (String y4 (String "-"
              (String m1 (String m2 (String "-" (String d1 (String d2 "")))))))))).
  assert (H5 : Ascii.eqb (byte_at t 5) "W" = false) by (apply digit_not_W; exact Hm1).
  split; [reflexivity |]. split; [reflexivity |]. split; [exact H5 |].
  split.
  - intros len. rewrite parse_calendar by (reflexivity || exact H5).
    rewrite (parse_digits_4 t 0) by assumption.
    rewrite (parse_digits_2 t 5) by assumption.
    change (byte_at t 7) with "-"%char. cbn [Ascii.eqb Bool.eqb andb negb].
    rewrite (parse_digits_2 t 8) by assumption.
    change (byte_at t 0) with y1. change (byte_at t 1) with y2.
    change (byte_at t 2) with y3. change (byte_at t 3) with y4.
    change (byte_at t 5) with m1. change (byte_at t 6) with m2.
    change (byte_at t 8) with d1. change (byte_at t 9) with d2.
    replace (10 * (10 * 0 + digit_value m1) + digit_value m2)
      with (10 * digit_value m1 + digit_value m2) by ring.
    replace (10 * (10 * 0 + digit_value d1) + digit_value d2)
      with (10 * digit_value d1 + digit_value d2) by ring.
    apply (f_equal (fun o => match o with Some r => OK r | None => Raise ValueError end)) in H.
    exact H.
  - apply (f_equal (fun o => match o with Some (y, m, d) => valid_date y m d | None => false end)) in H.
    rewrite Hv in H. symmetry. exact H.
Qed.

(** A date-only string is read as that date at midnight. *)
Lemma fromisoformat_iso_date (s : string) (y m d : Z) :
  iso_date s = Some (y, m, d) ->
  fromisoformat s = OK (mk_datetime y m d 0 0 0 0 None).
Proof.
  intros H. apply iso_date_parse in H as (Hlen & H4 & H5 & Hparse & Hv).
  unfold fromisoformat.
  rewrite separator_calendar by assumption. rewrite Hlen.
  cbn [Nat.eqb]. rewrite Hparse.
  cbn [bind Nat.ltb Nat.leb tzinfo_from_isoformat_results nth].
  apply new_datetime_ex_valid, Hv.
Qed.

(** In the calendar form, a string whose first ten characters are not an
    ISO date is rejected. *)
Lemma fromisoformat_not_iso_date (s : string) :
  String.get 4 s = Some "-"%char ->
  String.get 5 s <> Some "W"%char ->
  iso_date (substring 0 10 s) = None ->
  fromisoformat s = Raise ValueError.
Proof.
  intros G4 G5 Hiso.
  assert (H4 : byte_at s 4 = "-"%char) by (apply byte_at_get, G4).
  assert (H5 : Ascii.eqb (byte_at s 5) "W" = false).
  { destruct (Ascii.eqb_spec (byte_at s 5) "W") as [E | _]; [| reflexivity].
    exfalso. apply G5. unfold byte_at in E.
    destruct (String.get 5 s) as [c |]; [rewrite E; reflexivity | discriminate]. }
  unfold fromisoformat. rewrite separator_calendar by assumption.
  match goal with
  | |- bind ?r _ = _ => destruct r as [[[y m] d] | e] eqn:Hparse
  end.
  - cbn [bind].
    assert (Hv : valid_date y m d = false).
    { rewrite (parse_calendar_iso_date s _ y m d H4 H5 Hparse) in Hiso.
      destruct (valid_date y m d); [discriminate | reflexivity]. }
    match goal with
    | |- bind ?r _ = _ =>
        assert (Htime : only_ValueError r) by only_ve;
        destruct r as [[t tz] | e] eqn:Et;
        [| cbn [bind]; f_equal; exact (Htime e eq_refl)]
    end.
    cbn [bind].
    destruct (tzinfo_from_isoformat_results tz) as [tzi | e] eqn:Etz.
    + cbn [bind]. apply new_datetime_ex_invalid, Hv.
    + cbn [bind]. f_equal. exact (tzinfo_only_ValueError tz e Etz).
  - cbn [bind]. f_equal. exact (parse_isoformat_date_only_ValueError _ _ e Hparse).
Qed.

(** *** Short strings *)

(** Every form of the date has a digit in the seventh place. *)
Lemma parse_isoformat_date_digit_6 (s : string) (len : nat) (r : Z * Z * Z) :
  parse_isoformat_date s len = OK r -> is_digit (byte_at s 6) = true.
Proof.
  unfold parse_isoformat_date. intros H.
  destruct (parse_digits s 0 4 0) as [[y cur] |] eqn:Hy; [| discriminate].
  apply parse_digits_4_inv in Hy as (_ & _ & _ & _ & _ & ->).
  cbv zeta in H.
  destruct (Ascii.eqb (byte_at s 4) "-") eqn:H4; cbv iota in H.
  - destruct (Ascii.eqb (byte_at s 5) "W").
    + destruct (parse_digits s 6 2 0) as [[w c] |] eqn:Hw; [| discriminate].
      apply parse_digits_2_inv in Hw as (Hd & _). exact Hd.
    + destruct (parse_digits s 5 2 0) as [[w c] |] eqn:Hw; [| discriminate].
      apply parse_digits_2_inv in Hw as (_ & Hd & _). exact Hd.
  - destruct (Ascii.eqb (byte_at s 4) "W").
    + destruct (parse_digits s 5 2 0) as [[w c] |] eqn:Hw; [| discriminate].
      apply parse_digits_2_inv in Hw as (_ & Hd & _). exact Hd.
    + destruct (parse_digits s 4 2 0) as [[w c] |] eqn:Hw; [| discriminate].
      apply parse_digits_2_inv in Hw as (_ & _ & _ & ->).
      cbn [andb] in H.
      destruct (parse_digits s 6 2 0) as [[w' c'] |] eqn:Hw'; [| discriminate].
      apply parse_digits_2_inv in Hw' as (Hd & _). exact Hd.
Qed.

Lemma fromisoformat_short (s : string) :
  (String.length s < 7)%nat -> fromisoformat s = Raise ValueError.
Proof.
  intros Hlen. unfold fromisoformat.
  destruct (_find_isoformat_datetime_separator s (String.length s)) as [sep |];
    [| reflexivity].
  destruct (parse_isoformat_date s sep) as [r | e] eqn:Hparse.
  - apply parse_isoformat_date_digit_6, digit_in_range in Hparse. lia.
  - cbn [bind]. f_equal. exact (parse_isoformat_date_only_ValueError _ _ e Hparse).
Qed.

(** *** Printing and reading back *)

Lemma digits_from_fuel (f1 f2 : nat) (n : Z) (acc : string) :
  0 <= n < 2 ^ Z.of_nat f1 ->
  n < 2 ^ Z.of_nat f2 ->
  digits_from (S f1) n acc = digits_from (S f2) n acc.
Proof.
  revert f2 n acc; induction f1 as [| f1 IH]; intros f2 n acc H1 H2.
  - assert (n = 0) by (change (2 ^ Z.of_nat 0) with 1 in H1; lia). subst n.
    reflexivity.
  - cbn [digits_from]. destruct (Z.ltb_spec n 10) as [Hn | Hn]; [reflexivity |].
    destruct f2 as [| f2].
    + change (2 ^ Z.of_nat 0) with 1 in H2. lia.
    + fold (digits_from (S f1)). fold (digits_from (S f2)).
      rewrite Nat2Z.inj_succ, Z.pow_succ_r in H1, H2 by lia.
      apply IH.
      * split; [apply Z.div_pos; lia |].
        apply Z.div_lt_upper_bound; lia.
      * apply Z.div_lt_upper_bound; lia.
Qed.

Lemma str_of_nonneg_fuel (f : nat) (n : Z) :
  0 <= n < 2 ^ Z.of_nat f -> str_of_nonneg n = digits_from (S f) n "".
Proof.
  intros H. unfold str_of_nonneg. apply digits_from_fuel; [| lia].
  rewrite Z2Nat.id by (pose proof (Z.log2_nonneg n); lia).
  split; [lia |].
  destruct (Z.eq_dec n 0) as [-> | Hn]; [reflexivity |].
  apply Z.log2_spec. lia.
Qed.

Lemma zero_pad_2 (n : Z) :
  0 <= n <= 99 ->
  zero_pad 2 n = String (digit_char (n / 10)) (String (digit_char (n mod 10)) "").
Proof.
  intros H. unfold zero_pad.
  rewrite (str_of_nonneg_fuel 7) by (change (2 ^ Z.of_nat 7) with 128; lia).
  cbn [digits_from].
  destruct (Z.ltb_spec n 10) as [Hn | Hn].
  - rewrite Z.div_small by lia. reflexivity.
  - assert (Hq : n / 10 < 10) by (apply Z.div_lt_upper_bound; lia).
    apply Z.ltb_lt in Hq. rewrite Hq.
    rewrite (Z.mod_small (n / 10)) by (apply Z.ltb_lt in Hq; split; [apply Z.div_pos |]; lia).
    reflexivity.
Qed.

Lemma zero_pad_4 (n : Z) :
  0 <= n <= 9999 ->
  zero_pad 4 n =
  String (digit_char (n / 1000))
    (String (digit_char (n / 100 mod 10))
       (String (digit_char (n / 10 mod 10)) (String (digit_char (n mod 10)) ""))).
Proof.
  intros H. unfold zero_pad.
  rewrite (str_of_nonneg_fuel 14) by (change (2 ^ Z.of_nat 14) with 16384; lia).
  cbn [digits_from]. rewrite !Z.div_div by lia.
  change (10 * 10) with 100. change (100 * 10) with 1000.
  destruct (Z.ltb_spec n 10) as [H1 | H1].
  { rewrite !Z.div_small by lia. reflexivity. }
  destruct (Z.ltb_spec (n / 10) 10) as [H2 | H2].
  { assert (n < 100) by (Z.div_mod_to_equations; lia).
    rewrite (Z.div_small n 100), (Z.div_small n 1000) by lia. reflexivity. }
  destruct (Z.ltb_spec (n / 100) 10) as [H3 | H3].
  { assert (n < 1000) by (Z.div_mod_to_equations; lia).
    rewrite (Z.div_small n 1000) by lia. reflexivity. }
  assert (H4 : n / 1000 < 10) by (apply Z.div_lt_upper_bound; lia).
  apply Z.ltb_lt in H4. rewrite H4.
  rewrite (Z.mod_small (n / 1000)).
  - reflexivity.
  - apply Z.ltb_lt in H4. split; [apply Z.div_pos; lia | exact H4].
Qed.

Lemma zero_pad_2_length (n : Z) : 0 <= n <= 99 -> String.length (zero_pad 2 n) = 2%nat.
Proof.
  intros H. rewrite zero_pad_2 by exact H. reflexivity.
Qed.

Lemma valid_date_bounds (y m d : Z) :
  valid_date y m d = true -> 1 <= y <= 9999 /\ 1 <= m <= 12 /\ 1 <= d <= 31.
Proof.
  unfold valid_date. intros H.
  repeat (apply andb_true_iff in H as [H ?]).
  assert (Hdim : days_in_month y m <= 31).
  { unfold days_in_month.
    destruct ((m =? 2) && is_leap y); [lia |].
    assert (Hm : 1 <= m <= 12) by lia.
    unfold table, _days_in_month.
    assert (Hcases : m = 1 \/ m = 2 \/ m = 3 \/ m = 4 \/ m = 5 \/ m = 6 \/ m = 7 \/
                     m = 8 \/ m = 9 \/ m = 10 \/ m = 11 \/ m = 12) by lia.
    repeat (destruct Hcases as [-> | Hcases]; [simpl; lia |]). subst m. simpl. lia. }
  lia.
Qed.

Lemma iso_date_isoformat (y m d : Z) :
  valid_date y m d = true -> iso_date (isoformat y m d) = Some (y, m, d).
Proof.
  intros Hv. pose proof (valid_date_bounds y m d Hv) as (Hy & Hm & Hd).
  unfold isoformat.
  rewrite zero_pad_4, (zero_pad_2 m), (zero_pad_2 d) by lia.
  cbn [append]. unfold iso_date. cbn [forallb].
  destruct (digit_char_cases (y / 1000)) as (-> & -> & _);
    [Z.div_mod_to_equations; lia |].
  destruct (digit_char_cases (y / 100 mod 10)) as (-> & -> & _);
    [Z.div_mod_to_equations; lia |].
  destruct (digit_char_cases (y / 10 mod 10)) as (-> & -> & _);
    [Z.div_mod_to_equations; lia |].
  destruct (digit_char_cases (y mod 10)) as (-> & -> & _);
    [Z.div_mod_to_equations; lia |].
  destruct (digit_char_cases (m / 10)) as (-> & -> & _);
    [Z.div_mod_to_equations; lia |].
  destruct (digit_char_cases (m mod 10)) as (-> & -> & _);
    [Z.div_mod_to_equations; lia |].
  destruct (digit_char_cases (d / 10)) as (-> & -> & _);
    [Z.div_mod_to_equations; lia |].
  destruct (digit_char_cases (d mod 10)) as (-> & -> & _);
    [Z.div_mod_to_equations; lia |].
  cbn [andb Ascii.eqb Bool.eqb]. cbv zeta.
  replace (1000 * (y / 1000) + 100 * (y / 100 mod 10) + 10 * (y / 10 mod 10) + y mod 10)
    with y by (Z.div_mod_to_equations; lia).
  replace (10 * (m / 10) + m mod 10) with m by (Z.div_mod_to_equations; lia).
  replace (10 * (d / 10) + d mod 10) with d by (Z.div_mod_to_equations; lia).
  rewrite Hv. reflexivity.
Qed.


(** From the year 1000 on, the year is rendered in four digits. *)
Lemma year_four_digits (y : Z) :
  1000 <= y <= 9999 -> String.length (str_of_nonneg y) = 4%nat.
Proof.
  intros H. remember (str_of_nonneg y) as t eqn:Ht.
  rewrite (str_of_nonneg_fuel 14) in Ht by (change (2 ^ Z.of_nat 14) with 16384; lia).
  cbn [digits_from] in Ht.
  destruct (Z.ltb_spec y 10); [lia |].
  destruct (Z.ltb_spec (y / 10) 10); [Z.div_mod_to_equations; lia |].
  destruct (Z.ltb_spec (y / 10 / 10) 10); [Z.div_mod_to_equations; lia |].
  destruct (Z.ltb_spec (y / 10 / 10 / 10) 10); [| Z.div_mod_to_equations; lia].
  subst t. reflexivity.
Qed.




End Dates.

(** ** More on the daily summary *)

Lemma mapM_app {A B : Type} (f : A -> result B) (l1 l2 : list A) :
  mapM f (l1 ++ l2) =
  (a <- mapM f l1 ;; b <- mapM f l2 ;; OK (a ++ b)%list).
Proof.
  induction l1 as [| x l1 IH]; simpl.
  - destruct (mapM f l2); reflexivity.
  - destruct (f x) as [y | e]; [| reflexivity]. cbn [bind].
    rewrite IH. destruct (mapM f l1) as [a | e]; [| reflexivity]. cbn [bind].
    destruct (mapM f l2) as [b | e]; reflexivity.
Qed.

Lemma join_app (a b : list string) : join (a ++ b) = join a ++ join b.
Proof.
  induction a as [| x a IH]; simpl; [reflexivity |].
  fold (join (a ++ b)). fold (join a). rewrite IH, string_app_assoc. reflexivity.
Qed.

Lemma generate_daily_summary_join (ds : list day) :
  generate_daily_summary ds = (blocks <- mapM daily_block ds ;; OK (join blocks)).
Proof.
  unfold generate_daily_summary. rewrite daily_loop_blocks. reflexivity.
Qed.

(** X8: the daily summary of two data sets one after the other is the
    summary of the first followed by the summary of the second, and it
    fails as the first of the two that fails. *)
Theorem generate_daily_summary_app (a b : list day) :
  generate_daily_summary (a ++ b) =
  (x <- generate_daily_summary a ;;
   y <- generate_daily_summary b ;;
   OK (x ++ y)).
Proof.
  rewrite !generate_daily_summary_join, mapM_app.
  destruct (mapM daily_block a) as [xs | e]; [| reflexivity]. cbn [bind].
  destruct (mapM daily_block b) as [ys | e]; [| reflexivity]. cbn [bind].
  rewrite join_app. reflexivity.
Qed.

Lemma daily_block_row_error (r : day) :
  match row_error r with
  | Some e => daily_block r = Raise e
  | None => exists b, daily_block r = OK b
  end.
Proof.
  unfold row_error, daily_block.
  destruct (convert_date (date r)) as [dt | e]; [| reflexivity].
  destruct (convert_f_to_c (min_temp r)) as [lo | e]; [| reflexivity].
  destruct (convert_f_to_c (max_temp r)) as [hi | e]; [| reflexivity].
  eexists. reflexivity.
Qed.

Lemma mapM_daily_block_OK (ds : list day) :
  (forall d, In d ds -> row_error d = None) ->
  exists blocks, mapM daily_block ds = OK blocks.
Proof.
  induction ds as [| d ds IH]; intros H.
  - exists []. reflexivity.
  - destruct IH as (bs & Hbs); [intros x Hx; apply H; right; exact Hx |].
    pose proof (daily_block_row_error d) as Hd.
    rewrite (H d (or_introl eq_refl)) in Hd. destruct Hd as (b & Hb).
    exists (b :: bs). simpl. rewrite Hb, Hbs. reflexivity.
Qed.

Lemma mapM_daily_block_Raise (ds : list day) (e : exn) :
  mapM daily_block ds = Raise e ->
  exists pre r post,
    ds = (pre ++ r :: post)%list /\
    (forall d, In d pre -> row_error d = None) /\
    row_error r = Some e.
Proof.
  induction ds as [| d ds IH]; intros H; [discriminate |].
  simpl in H. pose proof (daily_block_row_error d) as Hd.
  destruct (row_error d) as [e' |] eqn:Hre.
  - rewrite Hd in H. cbn [bind] in H. injection H as ->.
    exists [], d, ds. repeat split; [intros x [] | exact Hre].
  - destruct Hd as (b & Hb). rewrite Hb in H. cbn [bind] in H.
    destruct (mapM daily_block ds) as [bs | e'] eqn:Hds; [discriminate |].
    cbn [bind] in H. injection H as ->.
    destruct (IH eq_refl) as (pre & r & post & -> & Hpre & Hr).
    exists (d :: pre), r, post. repeat split; [| exact Hr].
    intros x [<- | Hx]; [exact Hre | apply Hpre, Hx].
Qed.

(** X9: [generate_daily_summary] fails exactly when a row fails, and then
    as the first such row does: with the exception of its date, else of
    its minimum, else of its maximum; the rows after it are not looked at. *)
Theorem generate_daily_summary_first_failure :
  (forall pre r post e,
      (forall d, In d pre -> row_error d = None) ->
      row_error r = Some e ->
      generate_daily_summary (pre ++ r :: post) = Raise e) /\
  (forall ds e,
      generate_daily_summary ds = Raise e ->
      exists pre r post,
        ds = (pre ++ r :: post)%list /\
        (forall d, In d pre -> row_error d = None) /\
        row_error r = Some e) /\
  (forall ds,
      (forall d, In d ds -> row_error d = None) ->
      exists out, generate_daily_summary ds = OK out).
Proof.
  split; [| split].
  - intros pre r post e Hpre Hr.
    rewrite generate_daily_summary_join, mapM_app.
    destruct (mapM_daily_block_OK pre Hpre) as (bs & ->). cbn [bind mapM].
    pose proof (daily_block_row_error r) as Hb. rewrite Hr in Hb.
    rewrite Hb. reflexivity.
  - intros ds e H. rewrite generate_daily_summary_join in H.
    destruct (mapM daily_block ds) as [bs | e'] eqn:Hds; [discriminate |].
    cbn [bind] in H. injection H as ->.
    apply mapM_daily_block_Raise, Hds.
  - intros ds H. destruct (mapM_daily_block_OK ds H) as (bs & Hbs).
    exists (join bs). rewrite generate_daily_summary_join, Hbs. reflexivity.
Qed.

Lemma generate_daily_summary_first_failure_witness :
  generate_daily_summary
    ([mk_day "2021-07-05" (Int 50) (Int 70)] ++
     mk_day "05/07/2021" (Int (2 ^ 1024)) (Int 70) ::
     [mk_day "2021-07-06" (Int (2 ^ 1024)) (Int 90)]) = Raise ValueError.
Proof.
  apply (proj1 generate_daily_summary_first_failure).
  - intros d [<- | []]. vm_compute. reflexivity.
  - vm_compute. reflexivity.
Defined.

(** ** More on the overview *)

Lemma mapM_float_Raise (l : list num) (e : exn) :
  mapM float_ l = Raise e ->
  e = OverflowError /\ exists x, In x l /\ float_ x = Raise OverflowError.
Proof.
  induction l as [| x l IH]; intros H; [discriminate |].
  simpl in H. destruct (float_ x) as [f | e'] eqn:Hx.
  - cbn [bind] in H. destruct (mapM float_ l) as [fs | e'']; [discriminate |].
    cbn [bind] in H. injection H as ->.
    destruct (IH eq_refl) as (-> & y & Hy & Hfy).
    split; [reflexivity |]. exists y. split; [right; exact Hy | exact Hfy].
  - cbn [bind] in H. injection H as ->.
    assert (He : e = OverflowError).
    { destruct x as [z | f]; [| discriminate].
      unfold float_ in Hx. destruct (float_of_Z z); congruence. }
    subst e. split; [reflexivity |]. exists x. split; [left; reflexivity | exact Hx].
Qed.

Lemma fold_pick_In (pick : obj -> obj -> bool) (l : list obj) (cur : obj) :
  In (fold_left (fun cur item => if pick cur item then item else cur) l cur) (cur :: l).
Proof.
  revert cur; induction l as [| item l IH]; intros cur; simpl.
  - left. reflexivity.
  - destruct (IH (if pick cur item then item else cur)) as [H | H].
    + destruct (pick cur item); [right; left | left]; exact H.
    + right. right. exact H.
Qed.

Lemma min_In (l : list obj) (mv : obj) : min l = OK mv -> In mv l.
Proof.
  destruct l as [| x l]; [discriminate |]. intros H. apply OK_inj in H. subst mv.
  apply (fold_pick_In (fun cur item => flt (value item) (value cur))).
Qed.

Lemma max_In (l : list obj) (mv : obj) : max l = OK mv -> In mv l.
Proof.
  destruct l as [| x l]; [discriminate |]. intros H. apply OK_inj in H. subst mv.
  apply (fold_pick_In (fun cur item => flt (value cur) (value item))).
Qed.

(** An element of a list is found in the reversed list, at an index
    that, counted from the end, lies within the list. *)
Lemma index_rev_in_range (l : list obj) (mv : obj) :
  In mv l ->
  exists k, index (rev l) mv = OK k /\ 0 <= len l - 1 - k < len l.
Proof.
  intros Hin.
  destruct (index_from_first (rev l) mv 0) as (n & Hn & Hlt & _).
  { exists mv. split; [apply in_rev; rewrite rev_involutive; exact Hin |].
    unfold same_or_equal. rewrite Nat.eqb_refl. reflexivity. }
  rewrite length_rev in Hlt.
  exists (Z.of_nat n). split; [exact Hn | unfold len; lia].
Qed.

Lemma len_alloc (fs : list float) : len (alloc fs) = len fs.
Proof. unfold len, alloc. rewrite alloc_from_length. reflexivity. Qed.

Lemma find_min_in_range (x : num) (xs : list num) (fs : list float) :
  mapM float_ (x :: xs) = OK fs ->
  exists v i, find_min (x :: xs) = OK (TPair v i) /\ 0 <= i < len (x :: xs).
Proof.
  intros Hfs. unfold find_min. rewrite Hfs. cbn [bind].
  assert (Hlen : len fs = len (x :: xs)).
  { unfold len. f_equal. apply (mapM_length _ _ _ Hfs). }
  destruct (min (alloc fs)) as [mv | e] eqn:Hmin.
  - cbn [bind]. destruct (index_rev_in_range _ _ (min_In _ _ Hmin)) as (k & Hk & Hr).
    rewrite Hk. cbn [bind]. rewrite len_alloc, Hlen in *.
    exists (value mv), (len (x :: xs) - 1 - k). split; [reflexivity | exact Hr].
  - destruct fs; [apply mapM_length in Hfs; discriminate | discriminate].
Qed.

Lemma find_max_in_range (x : num) (xs : list num) (fs : list float) :
  mapM float_ (x :: xs) = OK fs ->
  exists v i, find_max (x :: xs) = OK (TPair v i) /\ 0 <= i < len (x :: xs).
Proof.
  intros Hfs. unfold find_max. rewrite Hfs. cbn [bind].
  assert (Hlen : len fs = len (x :: xs)).
  { unfold len. f_equal. apply (mapM_length _ _ _ Hfs). }
  destruct (max (alloc fs)) as [mv | e] eqn:Hmax.
  - cbn [bind]. destruct (index_rev_in_range _ _ (max_In _ _ Hmax)) as (k & Hk & Hr).
    rewrite Hk. cbn [bind]. rewrite len_alloc, Hlen in *.
    exists (value mv), (len (x :: xs) - 1 - k). split; [reflexivity | exact Hr].
  - destruct fs; [apply mapM_length in Hfs; discriminate | discriminate].
Qed.

Lemma find_min_Raise (l : list num) (e : exn) :
  find_min l = Raise e -> mapM float_ l = Raise e.
Proof.
  intros H. destruct l as [| x xs]; [discriminate |].
  destruct (mapM float_ (x :: xs)) as [fs |e'] eqn:Hfs.
  - destruct (find_min_in_range x xs fs Hfs) as (v & i & Hv & _). congruence.
  - unfold find_min in H. rewrite Hfs in H. cbn [bind] in H. congruence.
Qed.

Lemma find_max_Raise (l : list num) (e : exn) :
  find_max l = Raise e -> mapM float_ l = Raise e.
Proof.
  intros H. destruct l as [| x xs]; [discriminate |].
  destruct (mapM float_ (x :: xs)) as [fs |e'] eqn:Hfs.
  - destruct (find_max_in_range x xs fs Hfs) as (v & i & Hv & _). congruence.
  - unfold find_max in H. rewrite Hfs in H. cbn [bind] in H. congruence.
Qed.

Lemma In_map_inv {A B : Type} (f : A -> B) (l : list A) (y : B) :
  In y (map f l) -> exists x, In x l /\ f x = y.
Proof.
  intros H. apply in_map_iff in H as (x & Hx & Hin). exists x. split; assumption.
Qed.

(** X4: [generate_summary] never raises [IndexError]: the indices it gets
    from [find_min] and [find_max] lie within the data set. It raises
    [OverflowError] for an int too large for a float among the
    temperatures and [ValueError] for a date that [convert_date] rejects,
    and nothing else. *)
Theorem generate_summary_failures (ds : list day) (e : exn) :
  generate_summary ds = Raise e ->
  (e = OverflowError /\
   exists r, In r ds /\
     (float_ (min_temp r) = Raise OverflowError \/
      float_ (max_temp r) = Raise OverflowError)) \/
  (e = ValueError /\
   exists r, In r ds /\ convert_date (date r) = Raise ValueError).
Proof.
  intros H. destruct ds as [| d ds]; [discriminate |].
  unfold generate_summary, generate_summary_with in H.
  assert (Hl1 : len (map min_temp (d :: ds)) = len (d :: ds)) by apply len_map.
  assert (Hl2 : len (map max_temp (d :: ds)) = len (d :: ds)) by apply len_map.
  change (map min_temp (d :: ds)) with (min_temp d :: map min_temp ds) in *.
  change (map max_temp (d :: ds)) with (max_temp d :: map max_temp ds) in *.
  destruct (mapM float_ (min_temp d :: map min_temp ds)) as [lows | e1] eqn:Hlows.
  2:{ left. destruct (mapM_float_Raise _ _ Hlows) as (-> & x & Hx & Hfx).
      apply (In_map_inv min_temp (d :: ds)) in Hx as (r & Hr & <-).
      assert (Hm : find_min (min_temp d :: map min_temp ds) = Raise OverflowError).
      { unfold find_min. rewrite Hlows. reflexivity. }
      rewrite Hm in H. cbn [bind] in H. injection H as <-.
      split; [reflexivity |]. exists r. split; [exact Hr | left; exact Hfx]. }
  destruct (find_min_in_range _ _ _ Hlows) as (v1 & i1 & Hmin & Hi1).
  rewrite Hl1 in Hi1. rewrite Hmin in H. cbn [bind unpack2] in H.
  destruct (mapM float_ (max_temp d :: map max_temp ds)) as [highs | e2] eqn:Hhighs.
  2:{ left. destruct (mapM_float_Raise _ _ Hhighs) as (-> & x & Hx & Hfx).
      apply (In_map_inv max_temp (d :: ds)) in Hx as (r & Hr & <-).
      assert (Hm : find_max (max_temp d :: map max_temp ds) = Raise OverflowError).
      { unfold find_max. rewrite Hhighs. reflexivity. }
      rewrite Hm in H. cbn [bind] in H. injection H as <-.
      split; [reflexivity |]. exists r. split; [exact Hr | right; exact Hfx]. }
  destruct (find_max_in_range _ _ _ Hhighs) as (v2 & i2 & Hmax & Hi2).
  rewrite Hl2 in Hi2. rewrite Hmax in H. cbn [bind unpack2] in H.
  destruct (getitem_in_range (d :: ds) i1 Hi1) as (r1 & Hr1 & Hin1).
  destruct (getitem_in_range (d :: ds) i2 Hi2) as (r2 & Hr2 & Hin2).
  rewrite Hr1, Hr2 in H. cbn [bind] in H.
  destruct (convert_date (date r1)) as [d1 | e1] eqn:Hd1.
  2:{ right. cbn [bind] in H. injection H as <-.
      pose proof (convert_date_only_ValueError _ _ Hd1) as ->.
      split; [reflexivity |]. exists r1. split; assumption. }
  cbn [bind] in H.
  destruct (convert_date (date r2)) as [d2 | e2] eqn:Hd2.
  2:{ right. cbn [bind] in H. injection H as <-.
      pose proof (convert_date_only_ValueError _ _ Hd2) as ->.
      split; [reflexivity |]. exists r2. split; assumption. }
  cbn [bind] in H. exfalso.
  rewrite (calculate_mean_OK _ lows) in H by (discriminate || exact Hlows).
  rewrite (calculate_mean_OK _ highs) in H by (discriminate || exact Hhighs).
  unfold convert_f_to_c, float_ in H. cbn [bind] in H. discriminate.
Qed.

Lemma generate_summary_failures_witness :
  (ValueError = OverflowError /\
   exists r, In r [mk_day "2021-07-05" (Int 50) (Int 70); mk_day "6 July" (Int 30) (Int 90)] /\
     (float_ (min_temp r) = Raise OverflowError \/
      float_ (max_temp r) = Raise OverflowError)) \/
  (ValueError = ValueError /\
   exists r, In r [mk_day "2021-07-05" (Int 50) (Int 70); mk_day "6 July" (Int 30) (Int 90)] /\
     convert_date (date r) = Raise ValueError).
Proof.
  apply (generate_summary_failures
           [mk_day "2021-07-05" (Int 50) (Int 70); mk_day "6 July" (Int 30) (Int 90)]).
  vm_compute. reflexivity.
Defined.

Lemma find_min_OK_range (l : list num) (v : float) (i : Z) :
  find_min l = OK (TPair v i) -> 0 <= i < len l.
Proof.
  intros H. destruct l as [| x xs]; [discriminate |].
  destruct (mapM float_ (x :: xs)) as [fs | e] eqn:Hfs.
  - destruct (find_min_in_range x xs fs Hfs) as (v' & i' & Hv & Hi).
    rewrite Hv in H. apply OK_inj in H. injection H as _ <-. exact Hi.
  - unfold find_min in H. rewrite Hfs in H. discriminate.
Qed.

Lemma find_max_OK_range (l : list num) (v : float) (i : Z) :
  find_max l = OK (TPair v i) -> 0 <= i < len l.
Proof.
  intros H. destruct l as [| x xs]; [discriminate |].
  destruct (mapM float_ (x :: xs)) as [fs | e] eqn:Hfs.
  - destruct (find_max_in_range x xs fs Hfs) as (v' & i' & Hv & Hi).
    rewrite Hv in H. apply OK_inj in H. injection H as _ <-. exact Hi.
  - unfold find_max in H. rewrite Hfs in H. discriminate.
Qed.

Lemma getitem_date (ds : list day) (i : Z) :
  0 <= i < len ds ->
  exists r, getitem ds i = OK r /\ date r = nth (Z.to_nat i) (map date ds) "".
Proof.
  intros Hi. destruct (getitem_in_range ds i Hi) as (r & Hr & _).
  exists r. split; [exact Hr |].
  apply getitem_nth_error in Hr; [| lia].
  symmetry. apply nth_error_nth. rewrite nth_error_map, Hr. reflexivity.
Qed.



(** The lines of a text of five lines that have no line break in them. *)
Lemma overview_lines (n lo date_lo hi date_hi avg_lo avg_hi : string) :
  no_newline n = true ->
  no_newline lo = true -> no_newline date_lo = true ->
  no_newline hi = true -> no_newline date_hi = true ->
  no_newline avg_lo = true -> no_newline avg_hi = true ->
  lines (n ++ " Day Overview" ++ nl ++
         "  The lowest temperature will be " ++ lo ++
         ", and will occur on " ++ date_lo ++ "." ++ nl ++
         "  The highest temperature will be " ++ hi ++
         ", and will occur on " ++ date_hi ++ "." ++ nl ++
         "  The average low this week is " ++ avg_lo ++ "." ++ nl ++
         "  The average high this week is " ++ avg_hi ++ "." ++ nl) =
  [n ++ " Day Overview";
   "  The lowest temperature will be " ++ lo ++ ", and will occur on " ++ date_lo ++ ".";
   "  The highest temperature will be " ++ hi ++ ", and will occur on " ++ date_hi ++ ".";
   "  The average low this week is " ++ avg_lo ++ ".";
   "  The average high this week is " ++ avg_hi ++ "."].
Proof.
  intros Hn Hlo Hd1 Hhi Hd2 Ha1 Ha2.
  replace (n ++ " Day Overview" ++ nl ++
           "  The lowest temperature will be " ++ lo ++
           ", and will occur on " ++ date_lo ++ "." ++ nl ++
           "  The highest temperature will be " ++ hi ++
           ", and will occur on " ++ date_hi ++ "." ++ nl ++
           "  The average low this week is " ++ avg_lo ++ "." ++ nl ++
           "  The average high this week is " ++ avg_hi ++ "." ++ nl)
    with ((n ++ " Day Overview") ++ nl ++
          ("  The lowest temperature will be " ++ lo ++
           ", and will occur on " ++ date_lo ++ ".") ++ nl ++
          ("  The highest temperature will be " ++ hi ++
           ", and will occur on " ++ date_hi ++ ".") ++ nl ++
          ("  The average low this week is " ++ avg_lo ++ ".") ++ nl ++
          ("  The average high this week is " ++ avg_hi ++ ".") ++ nl ++ "")
    by (repeat rewrite string_app_assoc; rewrite ?string_app_nil_r; reflexivity).
  rewrite lines_line by (rewrite no_newline_app, Hn; reflexivity).
  rewrite lines_line by (repeat rewrite no_newline_app; rewrite Hlo, Hd1; reflexivity).
  rewrite lines_line by (repeat rewrite no_newline_app; rewrite Hhi, Hd2; reflexivity).
  rewrite lines_line by (repeat rewrite no_newline_app; rewrite Ha1; reflexivity).
  rewrite lines_line by (repeat rewrite no_newline_app; rewrite Ha2; reflexivity).
  reflexivity.
Qed.

Lemma no_newline_len (ds : list day) : no_newline (str (Int (len ds))) = true.
Proof.
  unfold str, str_of_int, len.
  destruct (Z.ltb_spec (Z.of_nat (List.length ds)) 0); [lia |].
  apply no_newline_str_of_nonneg.
Qed.

(** X6: an overview has exactly five lines: the heading with the number of
    rows, the lowest and the highest temperature with their dates, the
    average low and the average high. *)
Theorem generate_summary_five_lines (ds : list day) (s : string) :
  ds <> [] ->
  generate_summary ds = OK s ->
  exists lo date_lo hi date_hi avg_lo avg_hi : string,
    lines s =
    [str (Int (len ds)) ++ " Day Overview";
     "  The lowest temperature will be " ++ lo ++ ", and will occur on " ++ date_lo ++ ".";
     "  The highest temperature will be " ++ hi ++ ", and will occur on " ++ date_hi ++ ".";
     "  The average low this week is " ++ avg_lo ++ ".";
     "  The average high this week is " ++ avg_hi ++ "."].
Proof.
  intros Hne H. destruct ds as [| d ds]; [congruence |].
  apply generate_summary_anatomy in H
    as (v1 & i1 & v2 & i2 & r1 & r2 & d1 & d2 & c1 & c2 & m1 & m2 & a1 & a2 &
        _ & _ & _ & Hd1 & _ & Hd2 & _ & _ & _ & _ & _ & _ & ->).
  exists (format_temperature (Float c1)), d1, (format_temperature (Float c2)), d2,
    (format_temperature (Float (round a1 1))), (format_temperature (Float (round a2 1))).
  apply overview_lines;
    first [ apply no_newline_len
          | apply no_newline_format_temperature
          | exact (no_newline_convert_date _ _ Hd1)
          | exact (no_newline_convert_date _ _ Hd2) ].
Qed.

Lemma generate_summary_five_lines_witness :
  exists lo date_lo hi date_hi avg_lo avg_hi : string,
    lines overview_2 =
    ["2 Day Overview";
     "  The lowest temperature will be " ++ lo ++ ", and will occur on " ++ date_lo ++ ".";
     "  The highest temperature will be " ++ hi ++ ", and will occur on " ++ date_hi ++ ".";
     "  The average low this week is " ++ avg_lo ++ ".";
     "  The average high this week is " ++ avg_hi ++ "."].
Proof.
  apply (generate_summary_five_lines dataset_2 overview_2).
  - discriminate.
  - vm_compute. reflexivity.
Defined.

(** ** The overview and the daily summary *)

(** Floats that compare equal are the same float, or two zeros. *)
Lemma feq_cases (x y : float) :
  feq x y = true ->
  x = y \/ exists s s', x = S754_zero s /\ y = S754_zero s'.
Proof.
  unfold feq, SFeqb, SFcompare.
  destruct x as [[] | [] | | [] m e], y as [[] | [] | | [] m' e'];
    try discriminate;
    try (intros _; left; reflexivity);
    try (intros _; right; eexists; eexists; split; reflexivity).
  - destruct (Z.compare_spec e e') as [-> | |]; try discriminate.
    change (PosDef.Pos.compare_cont Eq m m') with (Pos.compare m m').
    destruct (Pos.compare_spec m m') as [-> | |]; try discriminate.
    intros _. left. reflexivity.
  - destruct (Z.compare_spec e e') as [-> | |]; try discriminate.
    change (PosDef.Pos.compare_cont Eq m m') with (Pos.compare m m').
    destruct (Pos.compare_spec m m') as [-> | |]; try discriminate.
    intros _. left. reflexivity.
Qed.

(** The conversion does not tell the two zeros apart. *)
Lemma feq_celsius (x y : float) :
  feq x y = true -> celsius_quotient x = celsius_quotient y.
Proof.
  intros H. destruct (feq_cases x y H) as [-> | (s & s' & -> & ->)]; [reflexivity |].
  destruct s, s'; reflexivity.
Qed.

(** What [index] finds in the reversed list is the object looked for
    or a float equal to it. *)
Lemma index_rev_at (fs : list float) (mv : obj) (k : Z) :
  In mv (alloc fs) ->
  index (rev (alloc fs)) mv = OK k ->
  0 <= len (alloc fs) - 1 - k < len fs /\
  (nth (Z.to_nat (len (alloc fs) - 1 - k)) fs (value mv) = value mv \/
   feq (nth (Z.to_nat (len (alloc fs) - 1 - k)) fs (value mv)) (value mv) = true).
Proof.
  intros Hin Hk.
  assert (Hlen : List.length (alloc fs) = List.length fs) by apply alloc_from_length.
  destruct (index_from_first (rev (alloc fs)) mv 0) as (n & Hn & Hlt & Hat & _).
  { exists mv. split; [apply in_rev; rewrite rev_involutive; exact Hin |].
    unfold same_or_equal. rewrite Nat.eqb_refl. reflexivity. }
  unfold index in Hk. rewrite Hn in Hk. apply OK_inj in Hk. subst k.
  rewrite length_rev, Hlen in Hlt.
  rewrite rev_nth in Hat by lia. rewrite Hlen in Hat.
  unfold alloc in Hat. rewrite alloc_from_nth in Hat by lia.
  unfold len. rewrite Hlen.
  replace (Z.to_nat (Z.of_nat (List.length fs) - 1 - (0 + Z.of_nat n)))
    with (List.length fs - S n)%nat by lia.
  split; [lia |].
  unfold same_or_equal in Hat. cbn [ident value] in Hat.
  apply orb_true_iff in Hat as [Hid | Heq]; [left | right; exact Heq].
  apply Nat.eqb_eq in Hid.
  destruct (alloc_In fs mv Hin) as (p & Hp & Hmv).
  rewrite Hmv in Hid. cbn [ident] in Hid. cbn [Nat.add] in Hid. rewrite Hid.
  pose proof (f_equal value Hmv) as Hv. cbn [value] in Hv. symmetry. exact Hv.
Qed.

Lemma getitem_map {A B : Type} (f : A -> B) (l : list A) (i : Z) (x : A) :
  getitem l i = OK x -> getitem (map f l) i = OK (f x).
Proof.
  unfold getitem. rewrite len_map.
  destruct ((_ <? 0) || (len l <=? _)); [discriminate |].
  rewrite nth_error_map.
  destruct (nth_error l _) as [y |]; [| discriminate].
  intros H. apply OK_inj in H. subst y. reflexivity.
Qed.

(** The element at the index that belongs to an extreme converts as the
    extreme does. *)
Lemma extreme_converts (nums : list num) (fs : list float) (mv : obj) (k : Z)
    (x : num) :
  mapM float_ nums = OK fs ->
  In mv (alloc fs) ->
  index (rev (alloc fs)) mv = OK k ->
  getitem nums (len (alloc fs) - 1 - k) = OK x ->
  convert_f_to_c x = convert_f_to_c (Float (value mv)).
Proof.
  intros Hfs Hin Hk Hx.
  destruct (index_rev_at fs mv k Hin Hk) as (Hrange & Hat).
  apply getitem_nth_error in Hx; [| lia].
  destruct (mapM_nth_error _ _ _ _ _ Hfs Hx) as (t & Ht & Hnth).
  rewrite (nth_error_nth _ _ (value mv) Hnth) in Hat.
  unfold convert_f_to_c. rewrite Ht. cbn [float_ bind].
  destruct Hat as [-> | Heq]; [reflexivity |].
  change (OK (round (celsius_quotient t) 1) = OK (round (celsius_quotient (value mv)) 1)).
  rewrite (feq_celsius _ _ Heq). reflexivity.
Qed.

Lemma find_min_converts (nums : list num) (v : float) (i : Z) (x : num) :
  find_min nums = OK (TPair v i) ->
  getitem nums i = OK x ->
  convert_f_to_c x = convert_f_to_c (Float v).
Proof.
  intros H Hx. destruct nums as [| n nums]; [discriminate |].
  unfold find_min in H.
  apply bind_OK in H as (fs & Hfs & H).
  apply bind_OK in H as (mv & Hmv & H).
  apply bind_OK in H as (k & Hk & H).
  apply OK_inj in H. injection H as <- <-.
  apply (extreme_converts _ fs mv k x Hfs (min_In _ _ Hmv) Hk Hx).
Qed.

Lemma find_max_converts (nums : list num) (v : float) (i : Z) (x : num) :
  find_max nums = OK (TPair v i) ->
  getitem nums i = OK x ->
  convert_f_to_c x = convert_f_to_c (Float v).
Proof.
  intros H Hx. destruct nums as [| n nums]; [discriminate |].
  unfold find_max in H.
  apply bind_OK in H as (fs & Hfs & H).
  apply bind_OK in H as (mv & Hmv & H).
  apply bind_OK in H as (k & Hk & H).
  apply OK_inj in H. injection H as <- <-.
  apply (extreme_converts _ fs mv k x Hfs (max_In _ _ Hmv) Hk Hx).
Qed.

Lemma getitem_In {A : Type} (l : list A) (i : Z) (x : A) :
  getitem l i = OK x -> In x l.
Proof.
  unfold getitem. destruct ((_ <? 0) || (len l <=? _)); [discriminate |].
  destruct (nth_error l _) as [y |] eqn:Hy; [| discriminate].
  intros H. apply OK_inj in H. subst y. apply (nth_error_In _ _ Hy).
Qed.

(** X15: the overview quotes the daily summary: the lowest temperature and
    its date are the minimum temperature and the date that the daily
    summary shows for one row of the data set, and the highest temperature
    and its date are the maximum temperature and the date shown for one
    row (the two zeros, which compare equal, convert alike). *)
Theorem generate_summary_quotes_rows (ds : list day) (s : string) :
  ds <> [] ->
  generate_summary ds = OK s ->
  exists day_lo day_hi date_lo date_hi min_temp_c max_temp_c first avg_lo avg_hi,
    In day_lo ds /\ In day_hi ds /\
    convert_date (date day_lo) = OK date_lo /\
    convert_f_to_c (min_temp day_lo) = OK min_temp_c /\
    convert_date (date day_hi) = OK date_hi /\
    convert_f_to_c (max_temp day_hi) = OK max_temp_c /\
    lines s =
    [first;
     "  The lowest temperature will be " ++ format_temperature (Float min_temp_c) ++
     ", and will occur on " ++ date_lo ++ ".";
     "  The highest temperature will be " ++ format_temperature (Float max_temp_c) ++
     ", and will occur on " ++ date_hi ++ ".";
     avg_lo; avg_hi].
Proof.
  intros Hne H. destruct ds as [| d ds]; [congruence |].
  apply generate_summary_anatomy in H
    as (v1 & i1 & v2 & i2 & r1 & r2 & d1 & d2 & c1 & c2 & m1 & m2 & a1 & a2 &
        Hmin & Hmax & Hr1 & Hd1 & Hr2 & Hd2 & Hc1 & Hc2 & _ & _ & _ & _ & ->).
  exists r1, r2, d1, d2, c1, c2.
  do 3 eexists.
  split; [apply (getitem_In _ _ _ Hr1) |].
  split; [apply (getitem_In _ _ _ Hr2) |].
  split; [exact Hd1 |].
  split.
  { rewrite (find_min_converts _ v1 i1 _ Hmin (getitem_map min_temp _ _ _ Hr1)).
    exact Hc1. }
  split; [exact Hd2 |].
  split.
  { rewrite (find_max_converts _ v2 i2 _ Hmax (getitem_map max_temp _ _ _ Hr2)).
    exact Hc2. }
  apply overview_lines;
    first [ apply no_newline_len
          | apply no_newline_format_temperature
          | exact (no_newline_convert_date _ _ Hd1)
          | exact (no_newline_convert_date _ _ Hd2) ].
Qed.

Lemma generate_summary_quotes_rows_witness :
  exists day_lo day_hi date_lo date_hi min_temp_c max_temp_c first avg_lo avg_hi,
    In day_lo dataset_2 /\ In day_hi dataset_2 /\
    convert_date (date day_lo) = OK date_lo /\
    convert_f_to_c (min_temp day_lo) = OK min_temp_c /\
    convert_date (date day_hi) = OK date_hi /\
    convert_f_to_c (max_temp day_hi) = OK max_temp_c /\
    lines overview_2 =
    [first;
     "  The lowest temperature will be " ++ format_temperature (Float min_temp_c) ++
     ", and will occur on " ++ date_lo ++ ".";
     "  The highest temperature will be " ++ format_temperature (Float max_temp_c) ++
     ", and will occur on " ++ date_hi ++ ".";
     avg_lo; avg_hi].
Proof.
  apply (generate_summary_quotes_rows dataset_2 overview_2).
  - discriminate.
  - vm_compute. reflexivity.
Defined.

(** ** Lowest and highest *)

Section FloatOrderMore.

Ltac order_cases' :=
  repeat match goal with
         | |- context [Z.compare ?a ?b] => destruct (Z.compare_spec a b)
         | |- context [Pos.compare_cont Eq ?a ?b] =>
             change (Pos.compare_cont Eq a b) with (Pos.compare a b);
             destruct (Pos.compare_spec a b)
         end;
  simpl; try reflexivity; try discriminate; try lia.

Lemma fle_antisym (x y : float) :
  fle x y = true -> fle y x = true -> feq x y = true.
Proof.
  destruct x as [sx | sx | | sx mx ex], y as [sy | sy | | sy my ey];
    unfold fle, feq, SFleb, SFeqb, SFcompare;
    try destruct sx; try destruct sy;
    simpl; try reflexivity; try discriminate;
    order_cases'.
Qed.

Lemma feq_fle_rev (x y : float) : feq x y = true -> fle y x = true.
Proof.
  destruct x as [sx | sx | | sx mx ex], y as [sy | sy | | sy my ey];
    unfold fle, feq, SFleb, SFeqb, SFcompare;
    try destruct sx; try destruct sy;
    simpl; try reflexivity; try discriminate;
    order_cases'.
Qed.

End FloatOrderMore.



(** ** The date part *)

Section DatePart.

Import Datetime.

Lemma byte_at_substring (s : string) (n i : nat) :
  (i < n)%nat -> byte_at (substring 0 n s) i = byte_at s i.
Proof.
  intros H. unfold byte_at. rewrite (substring_correct1 s 0%nat n i H).
  rewrite Nat.add_0_r. reflexivity.
Qed.

(** X10: when a string starts with an ISO date YYYY-MM-DD, whatever
    follows the date, a time of day or a UTC offset, has no influence on
    the result: if the string is accepted, what is rendered is that date. *)
Theorem convert_date_date_part (s out : string) (y m d : Z) :
  iso_date (substring 0 10 s) = Some (y, m, d) ->
  convert_date s = OK out ->
  out = long_form y m d.
Proof.
  intros Hiso H.
  pose proof (iso_date_parse _ _ _ _ Hiso) as (_ & H4 & H5 & _ & _).
  rewrite byte_at_substring in H4, H5 by lia.
  apply convert_date_OK in H as (dt & Hdt & ->).
  unfold fromisoformat in Hdt. rewrite separator_calendar in Hdt by assumption.
  apply bind_OK in Hdt as ([[y' m'] d'] & Hparse & Hdt).
  apply bind_OK in Hdt as ([t tz] & _ & Hdt).
  apply bind_OK in Hdt as (tzi & _ & Hdt).
  apply new_datetime_ex_OK in Hdt as (Hv & -> & -> & ->).
  rewrite (parse_calendar_iso_date s _ y' m' d' H4 H5 Hparse), Hv in Hiso.
  injection Hiso as -> -> ->. reflexivity.
Qed.

Lemma convert_date_date_part_witness :
  "Tuesday 06 July 2021" = long_form 2021 7 6.
Proof.
  apply (convert_date_date_part "2021-07-06T23:30:00-11:00"); vm_compute; reflexivity.
Defined.

End DatePart.

(** ** The data file *)

(** *** Strings *)

Lemma free_of_app (p : ascii -> bool) (a b : string) :
  free_of p (a ++ b) = free_of p a && free_of p b.
Proof.
  induction a as [| c a IH]; simpl; [reflexivity |].
  rewrite IH. apply andb_assoc.
Qed.

Lemma free_of_weaken (p q : ascii -> bool) (s : string) :
  (forall c, q c = true -> p c = true) ->
  free_of p s = true -> free_of q s = true.
Proof.
  intros Hpq. induction s as [| c s IH]; simpl; [reflexivity |].
  intros H. apply andb_true_iff in H as [Hc Hs].
  rewrite (IH Hs), andb_true_r. apply negb_true_iff in Hc.
  destruct (q c) eqn:Hq; [| reflexivity]. rewrite (Hpq c Hq) in Hc. discriminate.
Qed.

Lemma chars_app (a b : string) : chars (a ++ b) = chars a + chars b.
Proof.
  induction a as [| c a IH]; simpl; [reflexivity |]. rewrite IH. lia.
Qed.

Lemma chars_nonneg (s : string) : 0 <= chars s.
Proof.
  induction s as [| c s IH]; simpl; [lia |].
  destruct (Utf8.continuation c); lia.
Qed.

Lemma special_LF : special LF = true.
Proof. reflexivity. Qed.

Lemma special_CR : special CR = true.
Proof. reflexivity. Qed.

Lemma not_special (c : ascii) :
  special c = false ->
  Ascii.eqb c CR = false /\ Ascii.eqb c LF = false /\
  Ascii.eqb c Csv.quotechar = false /\ Csv.is_newline_char c = false.
Proof.
  unfold special, is_quote, Csv.is_newline_char. intros H.
  apply orb_false_iff in H as [Hq Hn]. apply orb_false_iff in Hn as [Hlf Hcr].
  rewrite Hq, Hlf, Hcr. repeat split.
Qed.

(** *** Lines of a text *)

Lemma plain_newline_free (s : string) :
  free_of special s = true -> free_of Csv.is_newline_char s = true.
Proof.
  apply free_of_weaken. intros c H. unfold special. rewrite H. apply orb_true_r.
Qed.

Lemma not_newline (c : ascii) :
  Csv.is_newline_char c = false ->
  Ascii.eqb c CR = false /\ Ascii.eqb c LF = false.
Proof.
  unfold Csv.is_newline_char. intros H. apply orb_false_iff in H as [Hlf Hcr].
  split; assumption.
Qed.

Lemma translate_plain (a rest : string) :
  free_of Csv.is_newline_char a = true ->
  translate_newlines (a ++ rest) = a ++ translate_newlines rest.
Proof.
  induction a as [| c a IH]; intros H; [reflexivity |].
  simpl in H. apply andb_true_iff in H as [Hc Ha]. apply negb_true_iff in Hc.
  destruct (not_newline c Hc) as (Hcr & _).
  cbn [append translate_newlines]. rewrite Hcr, (IH Ha). reflexivity.
Qed.

Lemma readlines_plain (a rest : string) :
  free_of Csv.is_newline_char a = true ->
  readlines (a ++ nl ++ rest) = (a ++ nl) :: readlines rest.
Proof.
  induction a as [| c a IH]; intros H; [reflexivity |].
  simpl in H. apply andb_true_iff in H as [Hc Ha]. apply negb_true_iff in Hc.
  destruct (not_newline c Hc) as (_ & Hlf).
  cbn [append readlines]. rewrite Hlf, (IH Ha). reflexivity.
Qed.

Lemma translate_line_end (eol rest : string) :
  line_end eol ->
  (eol = String CR "" -> no_LF_ahead rest) ->
  translate_newlines (eol ++ rest) = nl ++ translate_newlines rest.
Proof.
  intros [-> | [-> | ->]] Hrest; try reflexivity.
  specialize (Hrest eq_refl). unfold no_LF_ahead in Hrest.
  destruct rest as [| c rest]; [reflexivity |].
  cbn [append translate_newlines]. change (Ascii.eqb CR CR) with true. cbv iota.
  destruct (Ascii.eqb_spec c LF) as [-> | _]; [| reflexivity].
  exfalso. apply Hrest. reflexivity.
Qed.

Lemma no_LF_ahead_line (l eol rest : string) :
  free_of Csv.is_newline_char l = true ->
  eol = String CR "" ->
  no_LF_ahead (l ++ eol ++ rest).
Proof.
  intros Hl -> H. destruct l as [| c l]; [discriminate |].
  simpl in Hl. apply andb_true_iff in Hl as [Hc _]. apply negb_true_iff in Hc.
  injection H as ->. discriminate.
Qed.

Lemma text_line (eol l rest : string) :
  line_end eol ->
  free_of Csv.is_newline_char l = true ->
  (eol = String CR "" -> no_LF_ahead rest) ->
  readlines (translate_newlines (l ++ eol ++ rest)) =
  (l ++ nl) :: readlines (translate_newlines rest).
Proof.
  intros Heol Hl Hrest.
  rewrite translate_plain by exact Hl.
  rewrite translate_line_end by assumption.
  apply readlines_plain, Hl.
Qed.

(** *** Fields of a plain line *)

Lemma split_from_head (cur s : string) :
  exists g more, split_from cur s = (cur ++ g) :: more.
Proof.
  revert cur; induction s as [| c s IH]; intros cur; simpl.
  - exists "", []. rewrite string_app_nil_r. reflexivity.
  - destruct (is_comma c).
    + exists "", (split_from "" s). rewrite string_app_nil_r. reflexivity.
    + destruct (IH (cur ++ String c "")) as (g & more & ->).
      exists (String c g), more. rewrite string_app_assoc. reflexivity.
Qed.

Lemma split_from_plain (cur s : string) :
  free_of is_comma s = true -> split_from cur s = [cur ++ s].
Proof.
  revert cur; induction s as [| c s IH]; intros cur H; simpl.
  - rewrite string_app_nil_r. reflexivity.
  - simpl in H. apply andb_true_iff in H as [Hc Hs]. apply negb_true_iff in Hc.
    rewrite Hc, (IH _ Hs), string_app_assoc. reflexivity.
Qed.

Lemma split_from_comma (cur s rest : string) :
  free_of is_comma s = true ->
  split_from cur (s ++ "," ++ rest) = (cur ++ s) :: split_from "" rest.
Proof.
  revert cur; induction s as [| c s IH]; intros cur H; simpl.
  - rewrite string_app_nil_r. reflexivity.
  - simpl in H. apply andb_true_iff in H as [Hc Hs]. apply negb_true_iff in Hc.
    rewrite Hc, (IH _ Hs), string_app_assoc. reflexivity.
Qed.

(** The fields of a line are within the line. *)
Lemma split_from_chars (cur s : string) (n : Z) :
  chars cur + chars s <= n ->
  Forall (fun f => chars f <= n) (split_from cur s).
Proof.
  revert cur; induction s as [| c s IH]; intros cur H; simpl in *.
  - constructor; [lia | constructor].
  - pose proof (chars_nonneg s). pose proof (chars_nonneg cur).
    destruct (is_comma c).
    + constructor; [destruct (Utf8.continuation c); lia |].
      apply IH. simpl. destruct (Utf8.continuation c); lia.
    + apply IH. rewrite chars_app. simpl. lia.
Qed.

(** *** The reader on a plain line *)

Lemma process_plain (s : string) (st : Csv.ParserState) (fs : list string)
    (cur : string) :
  free_of special s = true ->
  st = Csv.IN_FIELD \/ (st = Csv.START_FIELD /\ cur = "") ->
  Forall (fun f => chars f <= Csv.field_limit) (split_from cur s) ->
  Csv.process_line (Csv.mk_reader st fs cur (chars cur)) (s ++ nl) =
  Returns (Csv.mk_reader Csv.START_RECORD (fs ++ split_from cur s) "" 0).
Proof.
  revert st fs cur; induction s as [| c s IH]; intros st fs cur Hs Hst Hlim.
  - destruct Hst as [-> | [-> ->]]; reflexivity.
  - simpl in Hs. apply andb_true_iff in Hs as [Hc Hs]. apply negb_true_iff in Hc.
    destruct (not_special c Hc) as (_ & _ & Hq & Hn).
    cbn [append Csv.process_line split_from] in *.
    unfold is_comma in *.
    destruct (Ascii.eqb c Csv.delimiter) eqn:Hd.
    + (* a comma ends the field *)
      inversion Hlim as [| f l Hf Hrest]; subst.
      assert (Hstep : Csv.parse_process_char (Csv.mk_reader st fs cur (chars cur)) (Some c) =
                      Returns (Csv.mk_reader Csv.START_FIELD (fs ++ [cur]) "" (chars ""))).
      { destruct Hst as [-> | [-> ->]];
          unfold Csv.parse_process_char, Csv.start_field; cbn [Csv.state];
          rewrite Hn, ?Hq, Hd; reflexivity. }
      rewrite Hstep. cbn [then_].
      rewrite (IH Csv.START_FIELD (fs ++ [cur])%list "" Hs (or_intror (conj eq_refl eq_refl)) Hrest).
      rewrite <- app_assoc. reflexivity.
    + (* a character of the field *)
      assert (Hroom : Utf8.continuation c = false -> chars cur < Csv.field_limit).
      { intros Hcont. destruct (split_from_head (cur ++ String c "") s) as (g & more & Hsplit).
        rewrite Hsplit in Hlim. inversion Hlim as [| f l Hf _]; subst.
        rewrite !chars_app in Hf. simpl in Hf. rewrite Hcont in Hf.
        pose proof (chars_nonneg g). lia. }
      assert (Hstep : Csv.parse_process_char (Csv.mk_reader st fs cur (chars cur)) (Some c) =
                      Returns (Csv.mk_reader Csv.IN_FIELD fs (cur ++ String c "")
                                             (chars (cur ++ String c "")))).
      { rewrite chars_app. simpl.
        destruct Hst as [-> | [-> ->]];
          unfold Csv.parse_process_char, Csv.start_field, Csv.parse_add_char;
          cbn [Csv.state Csv.fields Csv.field Csv.field_len];
          rewrite Hn, ?Hq, Hd;
          destruct (Utf8.continuation c) eqn:Hcont;
          try (destruct (Z.leb_spec Csv.field_limit (chars "")) as [Hle | _];
               [specialize (Hroom eq_refl); lia |]);
          try (destruct (Z.leb_spec Csv.field_limit (chars cur)) as [Hle | _];
               [specialize (Hroom eq_refl); lia |]);
          cbn [then_ Csv.set_state Csv.state Csv.fields Csv.field Csv.field_len];
          repeat f_equal; lia. }
      rewrite Hstep. cbn [then_].
      apply (IH Csv.IN_FIELD fs (cur ++ String c "") Hs (or_introl eq_refl) Hlim).
Qed.

(** A plain line is one row: its fields, or no field if it is empty. *)
Lemma read_plain_line (l : string) (rest : list string) :
  free_of special l = true ->
  Forall (fun f => chars f <= Csv.field_limit) (split l) ->
  Csv.Reader_iternext ((l ++ nl) :: rest) =
  Returns (Some (match l with EmptyString => [] | _ => split l end), rest).
Proof.
  intros Hl Hlim. unfold Csv.Reader_iternext. cbn [Csv.read_record].
  destruct l as [| c l]; [reflexivity |].
  assert (Hline : Csv.process_line Csv.parse_reset (String c l ++ nl) =
                  Csv.process_line (Csv.mk_reader Csv.START_FIELD [] "" (chars ""))
                                   (String c l ++ nl)).
  { simpl in Hl. apply andb_true_iff in Hl as [Hc _]. apply negb_true_iff in Hc.
    destruct (not_special c Hc) as (_ & _ & _ & Hn).
    cbn [append Csv.process_line]. f_equal.
    unfold Csv.parse_process_char, Csv.parse_reset. cbn [Csv.state]. rewrite Hn.
    reflexivity. }
  rewrite Hline.
  rewrite (process_plain (String c l) Csv.START_FIELD [] "" Hl
             (or_intror (conj eq_refl eq_refl)) Hlim).
  reflexivity.
Qed.

(** *** Reading back a printed int *)

Lemma digits_from_S (fuel : nat) (n : Z) (acc : string) :
  digits_from (S fuel) n acc =
  if n <? 10 then String (digit_char (n mod 10)) acc
  else digits_from fuel (n / 10) (String (digit_char (n mod 10)) acc).
Proof. reflexivity. Qed.

Lemma digits_from_acc (fuel : nat) (n : Z) (acc : string) :
  digits_from fuel n acc = digits_from fuel n "" ++ acc.
Proof.
  revert n acc; induction fuel as [| fuel IH]; intros n acc; [reflexivity |].
  cbn [digits_from]. destruct (n <? 10); [reflexivity |].
  rewrite (IH _ (String _ acc)), (IH _ (String _ "")), string_app_assoc.
  reflexivity.
Qed.

Lemma all_digits_app (a b : string) :
  all_digits (a ++ b) = all_digits a && all_digits b.
Proof.
  induction a as [| c a IH]; simpl; [reflexivity |].
  rewrite IH. apply andb_assoc.
Qed.

Lemma all_digits_digits_from (fuel : nat) (n : Z) :
  all_digits (digits_from fuel n "") = true.
Proof.
  revert n; induction fuel as [| fuel IH]; intros n; [reflexivity |].
  rewrite digits_from_S.
  assert (Hd : Datetime.is_digit (digit_char (n mod 10)) = true).
  { apply digit_char_cases. pose proof (Z.mod_pos_bound n 10). lia. }
  destruct (n <? 10).
  - simpl. rewrite Hd. reflexivity.
  - rewrite digits_from_acc, all_digits_app, IH. simpl. rewrite Hd. reflexivity.
Qed.

Lemma decimal_value_app (a b : string) (z : Z) :
  decimal_value (a ++ b) z = decimal_value b (decimal_value a z).
Proof.
  revert z; induction a as [| c a IH]; intros z; simpl; [reflexivity | apply IH].
Qed.

Lemma decimal_value_digits_from (f : nat) (n : Z) :
  0 <= n < 2 ^ Z.of_nat f ->
  decimal_value (digits_from (S f) n "") 0 = n.
Proof.
  revert n; induction f as [| f IH]; intros n H.
  - assert (n = 0) by (change (2 ^ Z.of_nat 0) with 1 in H; lia). subst n.
    reflexivity.
  - assert (Hd : Datetime.digit_value (digit_char (n mod 10)) = n mod 10).
    { apply digit_char_cases. pose proof (Z.mod_pos_bound n 10). lia. }
    rewrite digits_from_S. destruct (Z.ltb_spec n 10) as [Hn | Hn].
    + cbn [decimal_value]. rewrite Hd. rewrite Z.mod_small by lia. reflexivity.
    + rewrite digits_from_acc, decimal_value_app, IH.
      * cbn [decimal_value]. rewrite Hd. Z.div_mod_to_equations. lia.
      * rewrite Nat2Z.inj_succ, Z.pow_succ_r in H by lia.
        split; [apply Z.div_pos; lia |]. apply Z.div_lt_upper_bound; lia.
Qed.

Lemma decimal_value_str_of_nonneg (n : Z) :
  0 <= n -> decimal_value (str_of_nonneg n) 0 = n.
Proof.
  intros H. unfold str_of_nonneg. apply decimal_value_digits_from.
  rewrite Z2Nat.id by (pose proof (Z.log2_nonneg n); lia).
  split; [lia |].
  destruct (Z.eq_dec n 0) as [-> | Hn]; [reflexivity |].
  apply Z.log2_spec. lia.
Qed.

Lemma string_length_app (a b : string) :
  String.length (a ++ b) = (String.length a + String.length b)%nat.
Proof.
  induction a as [| c a IH]; simpl; [reflexivity | rewrite IH; reflexivity].
Qed.

Lemma length_digits_from (fuel : nat) (n k : Z) :
  0 <= n < 10 ^ k -> 1 <= k ->
  Z.of_nat (String.length (digits_from (S fuel) n "")) <= k.
Proof.
  revert n k; induction fuel as [| fuel IH]; intros n k Hn Hk.
  - cbn [digits_from]. destruct (n <? 10); simpl; lia.
  - rewrite digits_from_S. destruct (Z.ltb_spec n 10) as [Hlt | Hge]; [simpl; lia |].
    rewrite digits_from_acc, string_length_app. cbn [String.length].
    assert (Hk2 : 2 <= k).
    { destruct (Z.eq_dec k 1) as [-> | ]; [change (10 ^ 1) with 10 in Hn; lia | lia]. }
    specialize (IH (n / 10) (k - 1)).
    replace k with (Z.succ (k - 1)) in Hn by lia.
    rewrite Z.pow_succ_r in Hn by lia.
    assert (0 <= n / 10 < 10 ^ (k - 1)).
    { split; [apply Z.div_pos; lia | apply Z.div_lt_upper_bound; lia]. }
    lia.
Qed.

Lemma digits_from_nonempty (fuel : nat) (n : Z) : digits_from (S fuel) n "" <> "".
Proof.
  rewrite digits_from_S. destruct (n <? 10); [discriminate |].
  rewrite digits_from_acc. destruct (digits_from fuel (n / 10) ""); discriminate.
Qed.

Lemma scan_all_digits (s : string) (prev : ascii) (k z : Z) :
  all_digits s = true -> s <> "" ->
  Int.scan s prev k z = Some (decimal_value s z, k + Z.of_nat (String.length s), "").
Proof.
  revert prev k z; induction s as [| c s IH]; intros prev k z H Hne; [congruence |].
  simpl in H. apply andb_true_iff in H as [Hc Hs].
  cbn [Int.scan decimal_value]. rewrite Hc.
  replace (k + Z.of_nat (String.length (String c s)))
    with (k + 1 + Z.of_nat (String.length s))
    by (cbn [String.length]; lia).
  destruct s as [| c' s'].
  - cbn [Int.scan decimal_value String.length].
    destruct (Ascii.eqb_spec c "_") as [-> | _]; [discriminate |].
    rewrite Z.add_0_r. reflexivity.
  - apply IH; [assumption | discriminate].
Qed.

Lemma digit_not_space (c : ascii) :
  Datetime.is_digit c = true ->
  Int.Py_ISSPACE c = false /\ Ascii.eqb c "+" = false /\ Ascii.eqb c "-" = false /\
  Ascii.eqb c "_" = false /\ (nat_of_ascii c <? 128)%nat = true.
Proof.
  unfold Datetime.is_digit, Int.Py_ISSPACE. intros H.
  apply andb_true_iff in H as [H1 H2]. apply Nat.leb_le in H1, H2.
  assert (Hne : forall x, (nat_of_ascii x < 48)%nat \/ (57 < nat_of_ascii x)%nat ->
                          Ascii.eqb c x = false).
  { intros x Hx. destruct (Ascii.eqb_spec c x) as [-> | _]; [lia | reflexivity]. }
  repeat split.
  - destruct (Nat.leb_spec 9 (nat_of_ascii c)), (Nat.leb_spec (nat_of_ascii c) 13),
      (Nat.eqb_spec (nat_of_ascii c) 32); simpl; try reflexivity; lia.
  - apply Hne. left. vm_compute. lia.
  - apply Hne. left. vm_compute. lia.
  - apply Hne. right. vm_compute. lia.
  - apply Nat.ltb_lt. lia.
Qed.

Lemma is_ascii_digits (s : string) : all_digits s = true -> Int.is_ascii s = true.
Proof.
  induction s as [| c s IH]; simpl; [reflexivity |].
  intros H. apply andb_true_iff in H as [Hc Hs].
  destruct (digit_not_space c Hc) as (_ & _ & _ & _ & ->). apply IH, Hs.
Qed.

(** A string of at most 4300 digits is read as the number it denotes. *)
Lemma PyLong_FromString_digits (s : string) :
  all_digits s = true -> s <> "" ->
  Z.of_nat (String.length s) <= Int.max_str_digits ->
  Int.PyLong_FromString s = OK (decimal_value s 0) /\
  Int.PyLong_FromString ("-" ++ s) = OK (- decimal_value s 0).
Proof.
  intros Hd Hne Hlen.
  destruct s as [| c s]; [congruence |].
  pose proof Hd as Hd'. simpl in Hd'. apply andb_true_iff in Hd' as [Hc _].
  destruct (digit_not_space c Hc) as (Hsp & Hplus & Hminus & Hus & _).
  assert (Hscan := scan_all_digits (String c s) Datetime.NUL 0 0 Hd Hne).
  set (n := Z.of_nat (String.length (String c s))) in *.
  assert (Hpos : 0 < n) by (unfold n; cbn [String.length]; lia).
  assert (Htest : (Int.max_str_digits <? 0 + n) = false) by (apply Z.ltb_ge; lia).
  assert (Hzero : (0 + n =? 0) = false) by (apply Z.eqb_neq; lia).
  split.
  - unfold Int.PyLong_FromString. cbn [Int.skip_spaces]. rewrite Hsp, Hplus, Hminus.
    change (Datetime.byte_at (String c s) 0) with c.
    rewrite Hus, Hscan, Htest, Hzero.
    cbn [Int.skip_spaces]. f_equal; lia.
  - unfold Int.PyLong_FromString. cbn [append Int.skip_spaces].
    change (Int.Py_ISSPACE "-") with false. cbv iota.
    change (Ascii.eqb "-" "+") with false. change (Ascii.eqb "-" "-") with true.
    cbv iota.
    change (Datetime.byte_at (String c s) 0) with c.
    rewrite Hus, Hscan, Htest, Hzero.
    cbn [Int.skip_spaces]. f_equal; lia.
Qed.

Lemma str_of_nonneg_digits (n : Z) :
  0 <= n < 10 ^ 4300 ->
  all_digits (str_of_nonneg n) = true /\ str_of_nonneg n <> "" /\
  Z.of_nat (String.length (str_of_nonneg n)) <= Int.max_str_digits.
Proof.
  intros H. unfold str_of_nonneg. split; [apply all_digits_digits_from |].
  split; [apply digits_from_nonempty |].
  apply length_digits_from; [exact H | discriminate].
Qed.

(** [int(str(z))] is [z], for an int of at most 4300 digits. *)
Lemma int_str_of_int (z : Z) :
  Z.abs z < 10 ^ 4300 -> Int.int_ (str_of_int z) = OK z.
Proof.
  intros H. unfold str_of_int, Int.int_.
  destruct (Z.ltb_spec z 0) as [Hneg | Hpos].
  - destruct (str_of_nonneg_digits (- z)) as (Hd & Hne & Hlen).
    { rewrite <- Z.abs_neq by (apply Z.lt_le_incl, Hneg).
      split; [apply Z.abs_nonneg | exact H]. }
    assert (Hascii : Int.is_ascii ("-" ++ str_of_nonneg (- z)) = true).
    { cbn [append Int.is_ascii]. rewrite is_ascii_digits by exact Hd. reflexivity. }
    rewrite Hascii.
    rewrite (proj2 (PyLong_FromString_digits _ Hd Hne Hlen)).
    rewrite decimal_value_str_of_nonneg by (apply Z.opp_nonneg_nonpos, Z.lt_le_incl, Hneg).
    f_equal. apply Z.opp_involutive.
  - destruct (str_of_nonneg_digits z) as (Hd & Hne & Hlen).
    { rewrite <- (Z.abs_eq z) at 2 by exact Hpos. split; [exact Hpos | exact H]. }
    rewrite is_ascii_digits by exact Hd.
    rewrite (proj1 (PyLong_FromString_digits _ Hd Hne Hlen)).
    rewrite decimal_value_str_of_nonneg by exact Hpos. reflexivity.
Qed.

(** *** Rows of a data file *)

Lemma all_digits_free_of (p : ascii -> bool) (s : string) :
  (forall c, Datetime.is_digit c = true -> p c = false) ->
  all_digits s = true -> free_of p s = true.
Proof.
  intros Hp. induction s as [| c s IH]; simpl; [reflexivity |].
  intros H. apply andb_true_iff in H as [Hc Hs].
  rewrite (Hp c Hc), (IH Hs). reflexivity.
Qed.

Lemma digit_is_text (c : ascii) :
  Datetime.is_digit c = true ->
  special c = false /\ is_comma c = false /\ Utf8.continuation c = false.
Proof.
  unfold Datetime.is_digit. intros H.
  apply andb_true_iff in H as [H1 H2]. apply Nat.leb_le in H1, H2.
  assert (Hne : forall x, (nat_of_ascii x < 48)%nat -> Ascii.eqb c x = false).
  { intros x Hx. destruct (Ascii.eqb_spec c x) as [-> | _]; [lia | reflexivity]. }
  unfold special, is_quote, is_comma, Csv.is_newline_char, Utf8.continuation.
  rewrite !Hne by (vm_compute; lia).
  split; [reflexivity |]. split; [reflexivity |].
  destruct (Nat.leb_spec 128 (nat_of_ascii c)); [lia | reflexivity].
Qed.

Lemma chars_digits (s : string) :
  all_digits s = true -> chars s = Z.of_nat (String.length s).
Proof.
  induction s as [| c s IH]; [reflexivity |].
  intros H. simpl in H. apply andb_true_iff in H as [Hc Hs].
  destruct (digit_is_text c Hc) as (_ & _ & Hcont).
  cbn [chars String.length]. rewrite Hcont, (IH Hs). lia.
Qed.

Lemma str_of_int_cases (z : Z) :
  Z.abs z < 10 ^ 4300 ->
  exists s,
    all_digits s = true /\ Z.of_nat (String.length s) <= 4300 /\
    (str_of_int z = s \/ str_of_int z = "-" ++ s).
Proof.
  intros H. unfold str_of_int. destruct (Z.ltb_spec z 0) as [Hneg | Hpos].
  - destruct (str_of_nonneg_digits (- z)) as (Hd & _ & Hlen).
    { rewrite <- Z.abs_neq by (apply Z.lt_le_incl, Hneg).
      split; [apply Z.abs_nonneg | exact H]. }
    exists (str_of_nonneg (- z)). split; [exact Hd |]. split; [exact Hlen |].
    right. reflexivity.
  - destruct (str_of_nonneg_digits z) as (Hd & _ & Hlen).
    { rewrite <- (Z.abs_eq z) at 2 by exact Hpos. split; [exact Hpos | exact H]. }
    exists (str_of_nonneg z). split; [exact Hd |]. split; [exact Hlen |].
    left. reflexivity.
Qed.

(** A printed int is a plain field. *)
Lemma str_of_int_plain (z : Z) :
  Z.abs z < 10 ^ 4300 ->
  free_of special (str_of_int z) = true /\
  free_of is_comma (str_of_int z) = true /\
  chars (str_of_int z) <= Csv.field_limit.
Proof.
  intros H. destruct (str_of_int_cases z H) as (s & Hd & Hlen & Hs).
  assert (H1 : free_of special s = true).
  { apply all_digits_free_of; [| exact Hd]. intros c Hc. apply (digit_is_text c Hc). }
  assert (H2 : free_of is_comma s = true).
  { apply all_digits_free_of; [| exact Hd]. intros c Hc. apply (digit_is_text c Hc). }
  pose proof (chars_digits s Hd) as H3.
  clear H. unfold Csv.field_limit.
  destruct Hs as [-> | ->].
  - repeat split; try assumption. lia.
  - cbn [append free_of chars]. rewrite H1, H2.
    repeat split. change (Utf8.continuation "-") with false. cbv iota. lia.
Qed.

Lemma plain_field_parts (s : string) :
  plain_field s = true ->
  free_of special s = true /\ free_of is_comma s = true /\
  chars s <= Csv.field_limit.
Proof.
  unfold plain_field, plain_line. intros H.
  apply andb_true_iff in H as [H Hc]. apply andb_true_iff in H as [Hs Hl].
  apply Z.leb_le in Hl. repeat split; assumption.
Qed.

Lemma plain_line_parts (s : string) :
  plain_line s = true ->
  free_of special s = true /\
  Forall (fun f => chars f <= Csv.field_limit) (split s).
Proof.
  unfold plain_line. intros H. apply andb_true_iff in H as [Hs Hl].
  apply Z.leb_le in Hl. split; [exact Hs |].
  apply split_from_chars. simpl. exact Hl.
Qed.

(** The line of a row that can be written as it stands. *)
Lemma csv_line_writable (r : option (string * Z * Z)) :
  writable r = true ->
  free_of special (csv_line r) = true /\
  Forall (fun f => chars f <= Csv.field_limit) (split (csv_line r)) /\
  match r with
  | Some (date, lo, hi) =>
      csv_line r <> "" /\
      split (csv_line r) = [date; str_of_int lo; str_of_int hi] /\
      Z.abs lo < 10 ^ 4300 /\ Z.abs hi < 10 ^ 4300
  | None => csv_line r = ""
  end.
Proof.
  destruct r as [[[date lo] hi] |]; cbn [csv_line writable].
  2:{ intros _. split; [reflexivity |]. split; [| reflexivity].
      constructor; [discriminate | constructor]. }
  intros H. apply andb_true_iff in H as [H Hhi]. apply andb_true_iff in H as [Hdate Hlo].
  apply Z.ltb_lt in Hlo, Hhi.
  destruct (plain_field_parts _ Hdate) as (Hd1 & Hd2 & Hd3).
  destruct (str_of_int_plain lo Hlo) as (Hl1 & Hl2 & Hl3).
  destruct (str_of_int_plain hi Hhi) as (Hh1 & Hh2 & Hh3).
  assert (Hsplit : split (date ++ "," ++ str_of_int lo ++ "," ++ str_of_int hi) =
                   [date; str_of_int lo; str_of_int hi]).
  { unfold split. rewrite split_from_comma by exact Hd2.
    rewrite split_from_comma by exact Hl2.
    rewrite split_from_plain by exact Hh2. reflexivity. }
  split.
  { rewrite !free_of_app, Hd1, Hl1, Hh1. reflexivity. }
  split.
  { rewrite Hsplit. repeat constructor; assumption. }
  split.
  { destruct date; discriminate. }
  repeat split; assumption.
Qed.

(** *** Loading *)

Lemma getitem_first {A : Type} (x : A) (l : list A) : getitem (x :: l) 0 = OK x.
Proof.
  unfold getitem. change (0 <? 0) with false. cbv iota.
  destruct (Z.leb_spec (len (x :: l)) 0) as [H | _]; [| reflexivity].
  unfold len in H. cbn [List.length] in H. lia.
Qed.

Lemma getitem_second {A : Type} (x y : A) (l : list A) :
  getitem (x :: y :: l) 1 = OK y.
Proof.
  unfold getitem. change (1 <? 0) with false. cbv iota.
  destruct (Z.leb_spec (len (x :: y :: l)) 1) as [H | _]; [| reflexivity].
  unfold len in H. cbn [List.length] in H. lia.
Qed.

Lemma getitem_third {A : Type} (x y z : A) (l : list A) :
  getitem (x :: y :: z :: l) 2 = OK z.
Proof.
  unfold getitem. change (2 <? 0) with false. cbv iota.
  destruct (Z.leb_spec (len (x :: y :: z :: l)) 2) as [H | _]; [| reflexivity].
  unfold len in H. cbn [List.length] in H. lia.
Qed.

Lemma load_row_bad (data : list day) (row : list string) :
  match bad_row row with
  | Some e => load_row data row = Raises (Builtin e)
  | None => exists more, load_row data row = Returns (data ++ more)%list
  end.
Proof.
  destruct row as [| d [| a more]].
  - exists []. simpl. rewrite app_nil_r. reflexivity.
  - reflexivity.
  - unfold bad_row, load_row.
    rewrite getitem_first, getitem_second. cbn [lift then_].
    destruct (Int.int_ a) as [lo | e]; [| reflexivity]. cbn [lift then_].
    destruct more as [| b more]; [reflexivity |].
    rewrite getitem_third. cbn [lift then_].
    destruct (Int.int_ b) as [hi | e]; [| reflexivity]. cbn [lift then_].
    eexists. reflexivity.
Qed.

Lemma load_row_good (data : list day) (date : string) (lo hi : Z) :
  Z.abs lo < 10 ^ 4300 -> Z.abs hi < 10 ^ 4300 ->
  load_row data [date; str_of_int lo; str_of_int hi] =
  Returns (data ++ [mk_day date (Int lo) (Int hi)])%list.
Proof.
  intros Hlo Hhi. unfold load_row.
  rewrite getitem_first, getitem_second, getitem_third. cbn [lift then_]. rewrite (int_str_of_int lo Hlo), (int_str_of_int hi Hhi).
  reflexivity.
Qed.

Lemma load_rows_S (bound : nat) (reader : list string) (data : list day) :
  load_rows bound reader data =
  (r <-- Csv.Reader_iternext reader ;;
   match r with
   | (None, _) => Returns data
   | (Some row, reader) =>
       data <-- load_row data row ;;
       match bound with
       | O => Returns data
       | S bound' => load_rows bound' reader data
       end
   end).
Proof. destruct bound; reflexivity. Qed.

Lemma days_of_cons (r : option (string * Z * Z)) (rows : list (option (string * Z * Z))) :
  days_of (r :: rows) = (days_of [r] ++ days_of rows)%list.
Proof. destruct r as [[[date lo] hi] |]; reflexivity. Qed.

Lemma app_string_assoc4 (a b c d : string) :
  (a ++ b ++ c) ++ d = a ++ b ++ c ++ d.
Proof. rewrite !string_app_assoc. reflexivity. Qed.

(** Rows written one to a line, in a way that the reader gives back. *)
Section Written.

Variable line_of : option (string * Z * Z) -> string.
Variable good : option (string * Z * Z) -> bool.

Hypothesis line_free : forall r,
  good r = true -> free_of Csv.is_newline_char (line_of r) = true.

Hypothesis line_row : forall r,
  good r = true ->
  exists row,
    (forall rest, Csv.Reader_iternext ((line_of r ++ nl) :: rest) =
                  Returns (Some row, rest)) /\
    (forall data, load_row data row = Returns (data ++ days_of [r])%list).

(** The loop over such rows. *)
Lemma load_rows_written (rows : list (option (string * Z * Z))) (bound : nat)
    (tail : list string) (data : list day) :
  Forall (fun r => good r = true) rows ->
  (List.length rows + List.length tail <= bound)%nat ->
  load_rows bound (map (fun r => (line_of r ++ nl)%string) rows ++ tail)%list data =
  load_rows (bound - List.length rows) tail (data ++ days_of rows).
Proof.
  revert bound data; induction rows as [| r rows IH]; intros bound data Hw Hb.
  - simpl. rewrite Nat.sub_0_r, app_nil_r. reflexivity.
  - inversion Hw as [| r' rows' Hr Hrows]; subst.
    destruct (line_row r Hr) as (row & Hread & Hload).
    rewrite load_rows_S. cbn [map app]. rewrite Hread. cbn [then_].
    rewrite Hload. cbn [then_].
    cbn [List.length] in Hb.
    destruct bound as [| bound]; [lia |].
    rewrite IH by (assumption || lia).
    rewrite (days_of_cons r rows), app_assoc. reflexivity.
Qed.

(** The lines of such rows. *)
Lemma lines_written (eol : string) (rows : list (option (string * Z * Z)))
    (tail : string) :
  line_end eol ->
  Forall (fun r => good r = true) rows ->
  (eol = String CR "" -> no_LF_ahead tail) ->
  readlines (translate_newlines (text_of eol (map line_of rows) ++ tail)) =
  (map (fun r => (line_of r ++ nl)%string) rows ++
   readlines (translate_newlines tail))%list.
Proof.
  intros Heol Hw Htail. induction rows as [| r rows IH]; [reflexivity |].
  inversion Hw as [| r' rows' Hr Hrows]; subst.
  cbn [text_of map app]. rewrite app_string_assoc4.
  rewrite text_line; [rewrite (IH Hrows); reflexivity | assumption | auto |].
  intros ->. destruct rows as [| r2 rows]; [apply Htail, eq_refl |].
  inversion Hrows as [| r'' rows'' Hr2 _]; subst.
  cbn [text_of map]. rewrite app_string_assoc4.
  apply no_LF_ahead_line; [auto | reflexivity].
Qed.

(** What is loaded from a file that starts with a header and such rows:
    these rows, and then what the loop makes of the rest of the file. *)
Lemma load_prefix_written (fs : file_system) (csv_file eol header : string)
    (rows : list (option (string * Z * Z))) (tail : string) :
  has_NUL csv_file = false ->
  line_end eol ->
  plain_line header = true ->
  Forall (fun r => good r = true) rows ->
  (eol = String CR "" -> no_LF_ahead tail) ->
  fs csv_file = Some (header ++ eol ++ text_of eol (map line_of rows) ++ tail) ->
  load_data_from_csv fs csv_file =
  load_rows (List.length (readlines (translate_newlines tail)))
            (readlines (translate_newlines tail)) (days_of rows).
Proof.
  intros Hnul Heol Hheader Hw Htail Hfs.
  destruct (plain_line_parts header Hheader) as (Hplain & Hlim).
  unfold load_data_from_csv, open_. rewrite Hnul, Hfs. cbn [then_].
  rewrite text_line; [| assumption | apply plain_newline_free, Hplain |].
  2:{ intros ->. destruct rows as [| r rows]; [apply Htail, eq_refl |].
      inversion Hw as [| r' rows' Hr _]; subst.
      cbn [text_of map]. rewrite app_string_assoc4.
      apply no_LF_ahead_line; [auto | reflexivity]. }
  rewrite lines_written by assumption.
  unfold next. rewrite (read_plain_line header _ Hplain Hlim). cbn [then_].
  rewrite load_rows_written by (assumption || (rewrite length_app, length_map; lia)).
  rewrite length_app, length_map.
  replace (List.length rows + List.length (readlines (translate_newlines tail)) -
           List.length rows)%nat
    with (List.length (readlines (translate_newlines tail))) by lia.
  reflexivity.
Qed.

End Written.

Lemma csv_lines_text (eol : string) (rows : list (option (string * Z * Z))) :
  csv_lines eol rows = text_of eol (map csv_line rows).
Proof.
  induction rows as [| r rows IH]; [reflexivity |].
  cbn [csv_lines text_of map]. rewrite IH. reflexivity.
Qed.

(** The row of a line that can be written as it stands. *)
Lemma csv_line_row (r : option (string * Z * Z)) :
  writable r = true ->
  exists row,
    (forall rest, Csv.Reader_iternext ((csv_line r ++ nl) :: rest) =
                  Returns (Some row, rest)) /\
    (forall data, load_row data row = Returns (data ++ days_of [r])%list).
Proof.
  intros Hr. destruct (csv_line_writable r Hr) as (Hplain & Hlim & Hrow).
  destruct r as [[[date lo] hi] |].
  - destruct Hrow as (Hne & Hsplit & Hlo & Hhi).
    exists [date; str_of_int lo; str_of_int hi]. split.
    + intros rest. rewrite (read_plain_line _ rest Hplain Hlim), Hsplit.
      destruct (csv_line (Some (date, lo, hi))); [congruence | reflexivity].
    + intros data. apply load_row_good; assumption.
  - exists []. split.
    + intros rest. rewrite (read_plain_line _ rest Hplain Hlim), Hrow. reflexivity.
    + intros data. cbn [load_row days_of]. rewrite app_nil_r. reflexivity.
Qed.

(** What is loaded from a file that starts with a header and rows that
    can be written as they stand: these rows, and then what the loop
    makes of the rest of the file. *)
Lemma load_data_from_csv_prefix (fs : file_system) (csv_file eol header : string)
    (rows : list (option (string * Z * Z))) (tail : string) :
  has_NUL csv_file = false ->
  line_end eol ->
  plain_line header = true ->
  Forall (fun r => writable r = true) rows ->
  (eol = String CR "" -> no_LF_ahead tail) ->
  fs csv_file = Some (header ++ eol ++ csv_lines eol rows ++ tail) ->
  load_data_from_csv fs csv_file =
  load_rows (List.length (readlines (translate_newlines tail)))
            (readlines (translate_newlines tail)) (days_of rows).
Proof.
  intros Hnul Heol Hheader Hw Htail Hfs. rewrite csv_lines_text in Hfs.
  apply (load_prefix_written csv_line writable) with (eol := eol) (header := header);
    try assumption.
  - intros r Hr. apply plain_newline_free, (csv_line_writable r Hr).
  - apply csv_line_row.
Qed.

(** X1: a data file written as a header and rows [date,min,max], the dates
    without quotes, commas and line ends, the temperatures as decimal
    ints, is loaded as these rows, in their order; empty lines are passed
    over, and the lines may end in [\n], [\r\n] or [\r]. *)
Theorem load_data_from_csv_round_trip (fs : file_system)
    (csv_file eol header : string) (rows : list (option (string * Z * Z))) :
  has_NUL csv_file = false ->
  line_end eol ->
  plain_line header = true ->
  Forall (fun r => writable r = true) rows ->
  fs csv_file = Some (csv_text eol header rows) ->
  load_data_from_csv fs csv_file = Returns (days_of rows).
Proof.
  intros Hnul Heol Hheader Hw Hfs.
  rewrite (load_data_from_csv_prefix fs csv_file eol header rows "");
    try assumption.
  - reflexivity.
  - intros _. discriminate.
  - rewrite string_app_nil_r. exact Hfs.
Qed.

Lemma load_data_from_csv_round_trip_witness :
  load_data_from_csv
    (fun path =>
       if String.eqb path "data.csv"
       then Some (csv_text (String CR (String LF "")) "date,min,max"
                           [Some ("2021-07-05", 50, 70); None; Some ("2021-07-06", 30, 90)])
       else None)
    "data.csv" = Returns dataset_2.
Proof.
  apply (load_data_from_csv_round_trip _ "data.csv" (String CR (String LF ""))
           "date,min,max"
           [Some ("2021-07-05", 50, 70); None; Some ("2021-07-06", 30, 90)]).
  - reflexivity.
  - right. left. reflexivity.
  - vm_compute. reflexivity.
  - repeat constructor.
  - reflexivity.
Defined.

(** X2: the first row that [load_data_from_csv] cannot convert decides: a
    line that is not empty raises an [IndexError] if it has fewer than
    three fields and a [ValueError] if its second or third field is no
    int, the second field first. What follows the line in the file is not
    looked at. *)
Theorem load_data_from_csv_first_bad_row (fs : file_system)
    (csv_file eol header : string) (rows : list (option (string * Z * Z)))
    (line rest : string) (e : exn) :
  has_NUL csv_file = false ->
  line_end eol ->
  plain_line header = true ->
  Forall (fun r => writable r = true) rows ->
  plain_line line = true ->
  line <> "" ->
  bad_row (split line) = Some e ->
  (eol = String CR "" -> no_LF_ahead rest) ->
  fs csv_file = Some (csv_text eol header rows ++ line ++ eol ++ rest) ->
  load_data_from_csv fs csv_file = Raises (Builtin e).
Proof.
  intros Hnul Heol Hheader Hw Hline Hne Hbad Hrest Hfs.
  destruct (plain_line_parts line Hline) as (Hplain & Hlim).
  rewrite (load_data_from_csv_prefix fs csv_file eol header rows (line ++ eol ++ rest));
    try assumption.
  - rewrite text_line by (assumption || apply plain_newline_free, Hplain).
    rewrite load_rows_S, (read_plain_line line _ Hplain Hlim). cbn [then_].
    destruct line as [| c line]; [congruence |].
    pose proof (load_row_bad (days_of rows) (split (String c line))) as Hrow.
    rewrite Hbad in Hrow. rewrite Hrow. reflexivity.
  - intros Hcr. apply no_LF_ahead_line; [apply plain_newline_free, Hplain | exact Hcr].
  - rewrite Hfs. unfold csv_text. rewrite !string_app_assoc. reflexivity.
Qed.

Lemma load_data_from_csv_first_bad_row_witness :
  load_data_from_csv
    (fun path =>
       if String.eqb path "data.csv"
       then Some (csv_text nl "date,min,max" [Some ("2021-07-05", 50, 70)] ++
                  "2021-07-06,thirty" ++ nl ++ "2021-07-07,,")
       else None)
    "data.csv" = Raises (Builtin ValueError).
Proof.
  apply (load_data_from_csv_first_bad_row _ "data.csv" nl "date,min,max"
           [Some ("2021-07-05", 50, 70)] "2021-07-06,thirty" "2021-07-07,,").
  - reflexivity.
  - left. reflexivity.
  - vm_compute. reflexivity.
  - repeat constructor.
  - vm_compute. reflexivity.
  - discriminate.
  - vm_compute. reflexivity.
  - discriminate.
  - reflexivity.
Defined.

(** *** What the reader raises *)

Lemma int_only_ValueError (s : string) : only_ValueError (Int.int_ s).
Proof.
  unfold Int.int_, Int.PyLong_FromString. intros e H.
  repeat match type of H with
         | (let '(_, _) := ?x in _) = _ => destruct x
         | (if ?b then _ else _) = _ => destruct b
         | match ?x with _ => _ end = _ => destruct x
         end;
    try discriminate; injection H as <-; reflexivity.
Qed.

Lemma bad_row_exn (row : list string) (e : exn) :
  bad_row row = Some e -> e = IndexError \/ e = ValueError.
Proof.
  destruct row as [| d [| a more]]; simpl; intros H.
  - discriminate.
  - injection H as <-. left. reflexivity.
  - destruct (Int.int_ a) as [lo | e'] eqn:Ha.
    + destruct more as [| b more]; [injection H as <-; left; reflexivity |].
      destruct (Int.int_ b) as [hi | e'] eqn:Hb; [discriminate |].
      injection H as <-. right. apply (int_only_ValueError b), Hb.
    + injection H as <-. right. apply (int_only_ValueError a), Ha.
Qed.

Lemma load_row_Raises (data : list day) (row : list string) (e : exception) :
  load_row data row = Raises e ->
  e = Builtin IndexError \/ e = Builtin ValueError.
Proof.
  intros H. pose proof (load_row_bad data row) as Hrow.
  destruct (bad_row row) as [e' |] eqn:Hbad.
  - rewrite Hrow in H. injection H as <-.
    destruct (bad_row_exn row e' Hbad) as [-> | ->]; [left | right]; reflexivity.
  - destruct Hrow as (more & Hrow). rewrite Hrow in H. discriminate.
Qed.

Lemma parse_add_char_Raises (self : Csv.ReaderObj) (c : ascii) (e : exception) :
  Csv.parse_add_char self c = Raises e -> e = csv_Error.
Proof.
  unfold Csv.parse_add_char. intros H.
  destruct (Utf8.continuation c); [discriminate |].
  destruct (Csv.field_limit <=? Csv.field_len self); [| discriminate].
  injection H as <-. reflexivity.
Qed.

Lemma parse_process_char_Raises (self : Csv.ReaderObj) (c : option ascii)
    (e : exception) :
  Csv.parse_process_char self c = Raises e -> e = csv_Error.
Proof.
  assert (Hadd : forall s ch st,
             (s1 <-- Csv.parse_add_char s ch ;; Returns (Csv.set_state s1 st)) = Raises e ->
             e = csv_Error).
  { intros s ch st H. destruct (Csv.parse_add_char s ch) as [s1 | e'] eqn:Hs;
      [discriminate |].
    cbn [then_] in H. injection H as <-. apply (parse_add_char_Raises _ _ _ Hs). }
  unfold Csv.parse_process_char, Csv.start_field. intros H.
  destruct (Csv.state self); destruct c as [ch |]; try discriminate;
    repeat match type of H with
           | (if ?b then _ else _) = _ => destruct b
           end;
    try discriminate;
    try (apply (Hadd _ _ _ H));
    try (apply (parse_add_char_Raises _ _ _ H)).
  injection H as <-. reflexivity.
Qed.

Lemma process_line_Raises (line : string) (self : Csv.ReaderObj) (e : exception) :
  Csv.process_line self line = Raises e -> e = csv_Error.
Proof.
  revert self; induction line as [| c line IH]; intros self H.
  - apply (parse_process_char_Raises _ _ _ H).
  - cbn [Csv.process_line] in H.
    destruct (Csv.parse_process_char self (Some c)) as [self' | e'] eqn:Hc.
    + apply (IH self' H).
    + cbn [then_] in H. injection H as <-. apply (parse_process_char_Raises _ _ _ Hc).
Qed.

Lemma read_record_Raises (lines : list string) (self : Csv.ReaderObj)
    (e : exception) :
  Csv.read_record self lines = Raises e -> e = csv_Error.
Proof.
  revert self; induction lines as [| l lines IH]; intros self H.
  - cbn [Csv.read_record] in H.
    destruct (negb (Csv.field_len self =? 0) ||
              Csv.state_eqb (Csv.state self) Csv.IN_QUOTED_FIELD); discriminate.
  - cbn [Csv.read_record] in H.
    destruct (Csv.process_line self l) as [self' | e'] eqn:Hl.
    + cbn [then_] in H.
      destruct (Csv.state_eqb (Csv.state self') Csv.START_RECORD); [discriminate |].
      apply (IH self' H).
    + cbn [then_] in H. injection H as <-. apply (process_line_Raises _ _ _ Hl).
Qed.

(** At the end of a line the reader is between two records or within
    quotes. *)
Lemma parse_process_char_EOL (self self' : Csv.ReaderObj) :
  Csv.parse_process_char self None = Returns self' ->
  Csv.state self' = Csv.START_RECORD \/ Csv.state self' = Csv.IN_QUOTED_FIELD.
Proof.
  unfold Csv.parse_process_char, Csv.start_field. intros H.
  destruct (Csv.state self) eqn:Hst; injection H as <-; cbn; auto.
Qed.

Lemma process_line_state (line : string) (self self' : Csv.ReaderObj) :
  Csv.process_line self line = Returns self' ->
  Csv.state self' = Csv.START_RECORD \/ Csv.state self' = Csv.IN_QUOTED_FIELD.
Proof.
  revert self; induction line as [| c line IH]; intros self H.
  - apply (parse_process_char_EOL self self' H).
  - cbn [Csv.process_line] in H.
    destruct (Csv.parse_process_char self (Some c)) as [s1 | e]; [| discriminate].
    apply (IH s1 H).
Qed.

(** Only at the end of the input is there no record. *)
Lemma read_record_None (lines rest : list string) (self : Csv.ReaderObj) :
  Csv.read_record self lines = Returns (None, rest) -> lines = [].
Proof.
  revert self; induction lines as [| l lines IH]; intros self H; [reflexivity |].
  exfalso. cbn [Csv.read_record] in H.
  destruct (Csv.process_line self l) as [self' | e] eqn:Hl; [| discriminate].
  cbn [then_] in H.
  destruct (process_line_state l self self' Hl) as [Hst | Hst].
  - rewrite Hst in H. discriminate.
  - rewrite Hst in H. cbn [Csv.state_eqb] in H.
    specialize (IH self' H). subst lines. cbn [Csv.read_record] in H.
    rewrite Hst in H. cbn [Csv.state_eqb] in H. rewrite orb_true_r in H.
    discriminate.
Qed.

Lemma load_rows_Raises (bound : nat) (reader : list string) (data : list day)
    (e : exception) :
  load_rows bound reader data = Raises e ->
  e = csv_Error \/ e = Builtin IndexError \/ e = Builtin ValueError.
Proof.
  revert reader data; induction bound as [| bound IH]; intros reader data H;
    rewrite load_rows_S in H;
    (destruct (Csv.Reader_iternext reader) as [[[row |] rest] | e'] eqn:Hr;
     cbn [then_] in H;
     [ | discriminate
       | injection H as <-; left; apply (read_record_Raises _ _ _ Hr) ]);
    (destruct (load_row data row) as [data' | e'] eqn:Hrow; cbn [then_] in H;
     [ | injection H as <-; right; apply (load_row_Raises _ _ _ Hrow) ]).
  - discriminate.
  - apply (IH rest data' H).
Qed.

Lemma translate_newlines_nonempty (c : ascii) (s : string) :
  translate_newlines (String c s) <> "".
Proof.
  cbn [translate_newlines]. destruct (Ascii.eqb c CR); discriminate.
Qed.

Lemma readlines_nonempty (c : ascii) (s : string) : readlines (String c s) <> [].
Proof.
  cbn [readlines]. destruct (Ascii.eqb c LF); [discriminate |].
  destruct (readlines s); discriminate.
Qed.

(** *** A file within the field limit *)

Lemma chars_of_nonneg (ls : list string) : 0 <= chars_of ls.
Proof.
  induction ls as [| l ls IH]; simpl; [lia |]. pose proof (chars_nonneg l). lia.
Qed.

Lemma translate_newlines_spec (n : nat) (t : string) :
  (String.length t <= n)%nat ->
  free_of (Ascii.eqb CR) (translate_newlines t) = true /\
  chars (translate_newlines t) <= chars t.
Proof.
  revert t; induction n as [| n IH]; intros t Hn.
  - destruct t; [split; [reflexivity | simpl; lia] | simpl in Hn; lia].
  - destruct t as [| c t]; [split; [reflexivity | simpl; lia] |].
    simpl in Hn. cbn [translate_newlines].
    destruct (Ascii.eqb_spec c CR) as [-> | Hc].
    + destruct t as [| c' t'].
      * split; reflexivity.
      * destruct (Ascii.eqb_spec c' LF) as [-> | Hc'].
        -- destruct (IH t') as (H1 & H2); [simpl in Hn; lia |].
           cbn [free_of chars]. rewrite H1. split; [reflexivity |].
           change (Utf8.continuation LF) with false.
           change (Utf8.continuation CR) with false. cbv iota. lia.
        -- destruct (IH (String c' t')) as (H1 & H2); [lia |].
           cbn [free_of]. rewrite H1. split; [reflexivity |].
           change (chars (String LF (translate_newlines (String c' t'))))
             with (1 + chars (translate_newlines (String c' t'))).
           change (chars (String CR (String c' t'))) with (1 + chars (String c' t')).
           lia.
    + destruct (IH t) as (H1 & H2); [lia |].
      cbn [free_of chars]. rewrite H1.
      destruct (Ascii.eqb_spec CR c) as [E | _]; [congruence |].
      split; [reflexivity | lia].
Qed.

Lemma readlines_spec (t : string) :
  free_of (Ascii.eqb CR) t = true ->
  Forall (fun l => file_line l = true) (readlines t) /\
  chars_of (readlines t) = chars t.
Proof.
  induction t as [| c t IH]; intros H; [split; [constructor | reflexivity] |].
  cbn [free_of] in H. apply andb_true_iff in H as [Hc Ht].
  destruct (IH Ht) as (IH1 & IH2). clear IH.
  assert (Hcr : Ascii.eqb c CR = false).
  { rewrite Ascii.eqb_sym. apply negb_true_iff, Hc. }
  cbn [readlines]. destruct (Ascii.eqb c LF) eqn:Hlf.
  - split.
    + constructor; [| exact IH1]. cbn [file_line]. rewrite Hlf. reflexivity.
    + cbn [chars_of chars]. rewrite IH2. lia.
  - destruct (readlines t) as [| l ls].
    + split.
      * constructor; [| constructor]. cbn [file_line]. rewrite Hlf, Hcr. reflexivity.
      * cbn [chars_of chars] in *. lia.
    + inversion IH1 as [| l' ls' Hl Hls]; subst. split.
      * constructor; [| exact Hls]. cbn [file_line]. rewrite Hlf, Hcr, Hl. reflexivity.
      * cbn [chars_of chars] in *. lia.
Qed.

(** A character that is no line end, where there is room for it. *)
Lemma parse_process_char_room (self : Csv.ReaderObj) (c : ascii) :
  Csv.is_newline_char c = false ->
  Csv.state self <> Csv.EAT_CRNL ->
  0 <= Csv.field_len self ->
  Csv.field_len self + chars (String c "") <= Csv.field_limit ->
  exists self',
    Csv.parse_process_char self (Some c) = Returns self' /\
    Csv.state self' <> Csv.EAT_CRNL /\
    0 <= Csv.field_len self' <= Csv.field_len self + chars (String c "").
Proof.
  intros Hn Hst Hlen Hroom. cbn [chars] in *.
  assert (Hadd : exists s1,
             Csv.parse_add_char self c = Returns s1 /\
             Csv.state s1 = Csv.state self /\
             0 <= Csv.field_len s1 <=
             Csv.field_len self + ((if Utf8.continuation c then 0 else 1) + 0)).
  { unfold Csv.parse_add_char. destruct (Utf8.continuation c).
    - eexists. split; [reflexivity |]. cbn. split; [reflexivity | lia].
    - destruct (Z.leb_spec Csv.field_limit (Csv.field_len self)) as [Hle | _]; [lia |].
      eexists. split; [reflexivity |]. cbn. split; [reflexivity | lia]. }
  assert (Hadd' : forall st, exists s1,
             Csv.parse_add_char (Csv.set_state self st) c = Returns s1 /\
             Csv.state s1 = st /\
             0 <= Csv.field_len s1 <=
             Csv.field_len self + ((if Utf8.continuation c then 0 else 1) + 0)).
  { intros st. unfold Csv.parse_add_char. cbn [Csv.set_state Csv.field_len Csv.state Csv.fields Csv.field].
    destruct (Utf8.continuation c).
    - eexists. split; [reflexivity |]. cbn. split; [reflexivity | lia].
    - destruct (Z.leb_spec Csv.field_limit (Csv.field_len self)) as [Hle | _]; [lia |].
      eexists. split; [reflexivity |]. cbn. split; [reflexivity | lia]. }
  destruct Hadd as (s1 & Hs1 & Hst1 & Hlen1).
  assert (Hpos : 0 <= (if Utf8.continuation c then 0 else 1) + 0)
    by (destruct (Utf8.continuation c); lia).
  unfold Csv.parse_process_char, Csv.start_field.
  destruct (Csv.state self) eqn:Hstate; try congruence; rewrite ?Hn.
  - (* START_RECORD *)
    destruct (Ascii.eqb c Csv.quotechar).
    { eexists. split; [reflexivity |]. cbn. split; [discriminate | lia]. }
    destruct (Ascii.eqb c Csv.delimiter).
    { eexists. split; [reflexivity |]. cbn. split; [discriminate | lia]. }
    destruct (Hadd' Csv.START_FIELD) as (s2 & Hs2 & _ & Hlen2).
    rewrite Hs2. cbn [then_]. eexists. split; [reflexivity |]. cbn.
    split; [discriminate | lia].
  - (* START_FIELD *)
    destruct (Ascii.eqb c Csv.quotechar).
    { eexists. split; [reflexivity |]. cbn. split; [discriminate | lia]. }
    destruct (Ascii.eqb c Csv.delimiter).
    { eexists. split; [reflexivity |]. cbn. rewrite Hstate. split; [discriminate | lia]. }
    rewrite Hs1. cbn [then_]. eexists. split; [reflexivity |]. cbn.
    split; [discriminate | lia].
  - (* IN_FIELD *)
    destruct (Ascii.eqb c Csv.delimiter).
    { eexists. split; [reflexivity |]. cbn. split; [discriminate | lia]. }
    exists s1. split; [exact Hs1 |]. rewrite Hst1. split; [discriminate | lia].
  - (* IN_QUOTED_FIELD *)
    destruct (Ascii.eqb c Csv.quotechar).
    { eexists. split; [reflexivity |]. cbn. split; [discriminate | lia]. }
    exists s1. split; [exact Hs1 |]. rewrite Hst1. split; [discriminate | lia].
  - (* QUOTE_IN_QUOTED_FIELD *)
    destruct (Ascii.eqb c Csv.quotechar).
    { rewrite Hs1. cbn [then_]. eexists. split; [reflexivity |]. cbn.
      split; [discriminate | lia]. }
    destruct (Ascii.eqb c Csv.delimiter).
    { eexists. split; [reflexivity |]. cbn. split; [discriminate | lia]. }
    rewrite Hs1. cbn [then_]. eexists. split; [reflexivity |]. cbn.
    split; [discriminate | lia].
Qed.

(** The end of a line, after [\n] or without it. *)
Lemma process_line_end (self : Csv.ReaderObj) (l : string) :
  l = "" \/ l = String LF "" ->
  Csv.state self <> Csv.EAT_CRNL ->
  0 <= Csv.field_len self ->
  Csv.field_len self + chars l <= Csv.field_limit ->
  exists self',
    Csv.process_line self l = Returns self' /\
    0 <= Csv.field_len self' <= Csv.field_len self + chars l.
Proof.
  intros Hl Hst Hlen Hroom.
  destruct self as [st fs f n]. cbn [Csv.state Csv.field_len] in *.
  destruct Hl as [-> | ->]; cbn [Csv.process_line chars] in *.
  - destruct st; try congruence; eexists; (split; [reflexivity |]); cbn; lia.
  - change (Utf8.continuation LF) with false in *. cbv iota in *.
    destruct st; try congruence;
      try (eexists; (split; [reflexivity |]); cbn; lia).
    unfold Csv.parse_process_char at 1. cbn [Csv.state].
    change (Ascii.eqb LF Csv.quotechar) with false. cbv iota.
    unfold Csv.parse_add_char. cbn [Csv.state Csv.fields Csv.field Csv.field_len].
    change (Utf8.continuation LF) with false. cbv iota.
    destruct (Z.leb_spec Csv.field_limit n) as [Hle | _]; [lia |].
    cbn [then_]. eexists. split; [reflexivity |]. cbn. lia.
Qed.

Lemma process_file_line (l : string) (self : Csv.ReaderObj) :
  file_line l = true ->
  Csv.state self <> Csv.EAT_CRNL ->
  0 <= Csv.field_len self ->
  Csv.field_len self + chars l <= Csv.field_limit ->
  exists self',
    Csv.process_line self l = Returns self' /\
    0 <= Csv.field_len self' <= Csv.field_len self + chars l.
Proof.
  revert self; induction l as [| c l IH]; intros self Hl Hst Hlen Hroom.
  - apply process_line_end; auto.
  - cbn [file_line] in Hl. destruct (Ascii.eqb_spec c LF) as [-> | Hlf].
    + destruct l; [| discriminate]. apply process_line_end; auto.
    + apply andb_true_iff in Hl as [Hcr Hl]. apply negb_true_iff in Hcr.
      assert (Hn : Csv.is_newline_char c = false).
      { unfold Csv.is_newline_char. rewrite Hcr.
        destruct (Ascii.eqb_spec c LF); [congruence | reflexivity]. }
      assert (Hsplit : chars (String c l) = chars (String c "") + chars l)
        by (cbn [chars]; lia).
      pose proof (chars_nonneg l) as Hl0.
      destruct (parse_process_char_room self c Hn Hst Hlen) as (s1 & Hs1 & Hst1 & Hlen1);
        [lia |].
      destruct (IH s1 Hl Hst1) as (s2 & Hs2 & Hlen2); [lia | lia |].
      exists s2. cbn [Csv.process_line]. rewrite Hs1. cbn [then_].
      split; [exact Hs2 | lia].
Qed.

(** Within the field limit the reader finds the next record and leaves
    the lines after it. *)
Lemma read_record_room (lines : list string) (self : Csv.ReaderObj) :
  Forall (fun l => file_line l = true) lines ->
  Csv.state self <> Csv.EAT_CRNL ->
  0 <= Csv.field_len self ->
  Csv.field_len self + chars_of lines <= Csv.field_limit ->
  exists r pre rest,
    Csv.read_record self lines = Returns (r, rest) /\ lines = (pre ++ rest)%list.
Proof.
  revert self; induction lines as [| l lines IH]; intros self Hl Hst Hlen Hroom.
  - cbn [Csv.read_record].
    destruct (negb (Csv.field_len self =? 0) ||
              Csv.state_eqb (Csv.state self) Csv.IN_QUOTED_FIELD);
      eexists; exists [], []; split; reflexivity.
  - inversion Hl as [| l' ls' Hl1 Hl2]; subst. cbn [chars_of] in Hroom.
    pose proof (chars_of_nonneg lines) as Hls.
    destruct (process_file_line l self Hl1 Hst Hlen) as (s1 & Hs1 & Hlen1); [lia |].
    cbn [Csv.read_record]. rewrite Hs1. cbn [then_].
    destruct (process_line_state l self s1 Hs1) as [E | E]; rewrite E; cbn [Csv.state_eqb].
    + eexists. exists [l], lines. split; reflexivity.
    + destruct (IH s1 Hl2) as (r & pre & rest & Hr & Hpre);
        [rewrite E; discriminate | lia | lia |].
      exists r, (l :: pre), rest. split; [exact Hr |]. rewrite Hpre. reflexivity.
Qed.

Lemma chars_of_app (a b : list string) : chars_of (a ++ b) = chars_of a + chars_of b.
Proof.
  induction a as [| l a IH]; simpl; [reflexivity |]. rewrite IH. lia.
Qed.

Lemma load_rows_room (bound : nat) (reader : list string) (data : list day) :
  Forall (fun l => file_line l = true) reader ->
  chars_of reader <= Csv.field_limit ->
  load_rows bound reader data <> Raises csv_Error.
Proof.
  revert reader data; induction bound as [| bound IH]; intros reader data Hl Hroom;
    rewrite load_rows_S;
    (destruct (read_record_room reader Csv.parse_reset Hl) as (r & pre & rest & Hr & Hpre);
       [discriminate | cbn; lia | cbn; lia |]);
    unfold Csv.Reader_iternext; rewrite Hr; cbn [then_];
    (destruct r as [row |]; [| discriminate]);
    (destruct (load_row data row) as [data' | e] eqn:Hrow; cbn [then_];
       [| destruct (load_row_Raises _ _ _ Hrow) as [-> | ->]; discriminate]).
  - discriminate.
  - apply IH.
    + rewrite Hpre in Hl. apply Forall_app in Hl. apply Hl.
    + rewrite Hpre, chars_of_app in Hroom. pose proof (chars_of_nonneg pre). lia.
Qed.

(** X3: the exceptions of [load_data_from_csv]. A file name with a NUL is
    a [ValueError] and a file that cannot be opened an [OSError]. Of a
    file that can be read, [StopIteration] is raised exactly if the file
    is empty, for want of the header; else a row may raise [IndexError] or
    [ValueError] and the reader [csv.Error], but that only in a file of
    more than 131072 characters. *)
Theorem load_data_from_csv_exceptions (fs : file_system) (csv_file : string) :
  (has_NUL csv_file = true ->
   load_data_from_csv fs csv_file = Raises (Builtin ValueError)) /\
  (has_NUL csv_file = false -> fs csv_file = None ->
   load_data_from_csv fs csv_file = Raises OSError) /\
  (forall text,
      has_NUL csv_file = false -> fs csv_file = Some text ->
      (load_data_from_csv fs csv_file = Raises StopIteration <-> text = "") /\
      (forall e,
          load_data_from_csv fs csv_file = Raises e ->
          e = StopIteration \/ e = csv_Error \/
          e = Builtin IndexError \/ e = Builtin ValueError) /\
      (chars text <= Csv.field_limit ->
       load_data_from_csv fs csv_file <> Raises csv_Error)).
Proof.
  split; [| split].
  - intros H. unfold load_data_from_csv, open_. rewrite H. reflexivity.
  - intros H Hfs. unfold load_data_from_csv, open_. rewrite H, Hfs. reflexivity.
  - intros text Hnul Hfs.
    unfold load_data_from_csv, open_. rewrite Hnul, Hfs. cbn [then_].
    set (lines := readlines (translate_newlines text)).
    unfold next, Csv.Reader_iternext.
    split; [| split].
    + split.
      * intros H. destruct text as [| c text]; [reflexivity | exfalso].
        destruct (Csv.read_record Csv.parse_reset lines) as [[[row |] rest] | e] eqn:Hr;
          cbn [then_] in H.
        -- destruct (load_rows_Raises _ _ _ _ H) as [E | [E | E]]; discriminate.
        -- apply read_record_None in Hr. unfold lines in Hr.
           destruct (translate_newlines (String c text)) eqn:Ht;
             [apply (translate_newlines_nonempty c text Ht) |].
           apply (readlines_nonempty _ _ Hr).
        -- injection H as ->. apply read_record_Raises in Hr. discriminate.
      * intros ->. reflexivity.
    + intros e H.
      destruct (Csv.read_record Csv.parse_reset lines) as [[[row |] rest] | e'] eqn:Hr;
        cbn [then_] in H.
      * right. apply (load_rows_Raises _ _ _ _ H).
      * injection H as <-. left. reflexivity.
      * injection H as <-. right. left. apply (read_record_Raises _ _ _ Hr).
    + intros Hroom.
      destruct (translate_newlines_spec (String.length text) text (le_n _)) as (Hcr & Hch).
      destruct (readlines_spec _ Hcr) as (Hlines & Hchars).
      fold lines in Hlines, Hchars.
      destruct (read_record_room lines Csv.parse_reset Hlines) as (r & pre & rest & Hr & Hpre);
        [discriminate | cbn; lia | cbn; lia |].
      rewrite Hr. cbn [then_].
      destruct r as [row |]; [| discriminate].
      apply load_rows_room.
      * rewrite Hpre in Hlines. apply Forall_app in Hlines. apply Hlines.
      * rewrite Hpre, chars_of_app in Hchars. pose proof (chars_of_nonneg pre). lia.
Qed.

Lemma load_data_from_csv_exceptions_witness :
  load_data_from_csv (fun _ => Some "") "data.csv" = Raises StopIteration.
Proof.
  apply (proj2 (proj2 (load_data_from_csv_exceptions (fun _ => Some "") "data.csv")) "");
    reflexivity.
Defined.

(** *** Quoted fields *)

Lemma feed_app (self : Csv.ReaderObj) (a b : string) :
  feed self (a ++ b) = (self <-- feed self a ;; feed self b).
Proof.
  revert self; induction a as [| c a IH]; intros self; [reflexivity |].
  cbn [append feed].
  destruct (Csv.parse_process_char self (Some c)) as [self' | e]; [| reflexivity].
  cbn [then_]. apply IH.
Qed.

Lemma process_line_feed (self : Csv.ReaderObj) (a b : string) :
  Csv.process_line self (a ++ b) = (self <-- feed self a ;; Csv.process_line self b).
Proof.
  revert self; induction a as [| c a IH]; intros self; [reflexivity |].
  cbn [append feed Csv.process_line].
  destruct (Csv.parse_process_char self (Some c)) as [self' | e]; [| reflexivity].
  cbn [then_]. apply IH.
Qed.

Lemma free_of_escape (s : string) :
  free_of Csv.is_newline_char (escape s) = free_of Csv.is_newline_char s.
Proof.
  induction s as [| c s IH]; [reflexivity |].
  cbn [escape]. unfold is_quote.
  destruct (Ascii.eqb_spec c Csv.quotechar) as [-> | _];
    cbn [free_of]; rewrite IH; [| reflexivity].
  reflexivity.
Qed.

Lemma free_of_quoted (s : string) :
  free_of Csv.is_newline_char (quoted s) = free_of Csv.is_newline_char s.
Proof.
  unfold quoted. cbn [free_of]. rewrite free_of_app, free_of_escape.
  cbn [free_of]. change (Csv.is_newline_char Csv.quotechar) with false.
  cbn [negb andb]. apply andb_true_r.
Qed.

(** Within quotes, all characters are text of the field, and a doubled
    quote is one quote. *)
Lemma feed_escape (s : string) (fs : list string) (cur : string) :
  chars cur + chars s <= Csv.field_limit ->
  feed (Csv.mk_reader Csv.IN_QUOTED_FIELD fs cur (chars cur)) (escape s) =
  Returns (Csv.mk_reader Csv.IN_QUOTED_FIELD fs (cur ++ s) (chars (cur ++ s))).
Proof.
  revert cur; induction s as [| c s IH]; intros cur Hlim.
  - cbn [escape feed]. rewrite string_app_nil_r. reflexivity.
  - assert (Hroom : Utf8.continuation c = false -> chars cur < Csv.field_limit).
    { intros Hcont. cbn [chars] in Hlim. rewrite Hcont in Hlim.
      pose proof (chars_nonneg s). lia. }
    assert (Hnext : chars (cur ++ String c "") + chars s <= Csv.field_limit).
    { rewrite chars_app. cbn [chars] in *. lia. }
    assert (Hadd : forall st,
               Csv.parse_add_char (Csv.mk_reader st fs cur (chars cur)) c =
               Returns (Csv.mk_reader st fs (cur ++ String c "")
                                      (chars (cur ++ String c "")))).
    { intros st. unfold Csv.parse_add_char.
      cbn [Csv.state Csv.fields Csv.field Csv.field_len].
      rewrite chars_app. cbn [chars].
      destruct (Utf8.continuation c) eqn:Hcont.
      - repeat f_equal; lia.
      - destruct (Z.leb_spec Csv.field_limit (chars cur)) as [Hle | _];
          [specialize (Hroom eq_refl); lia |].
        repeat f_equal; lia. }
    replace (cur ++ String c s) with ((cur ++ String c "") ++ s)
      by (rewrite string_app_assoc; reflexivity).
    cbn [escape]. unfold is_quote.
    destruct (Ascii.eqb_spec c Csv.quotechar) as [Hq | Hq].
    + (* a doubled quote *)
      cbn [feed].
      assert (Hfirst : Csv.parse_process_char
                         (Csv.mk_reader Csv.IN_QUOTED_FIELD fs cur (chars cur)) (Some c) =
                       Returns (Csv.mk_reader Csv.QUOTE_IN_QUOTED_FIELD fs cur (chars cur))).
      { rewrite Hq. reflexivity. }
      assert (Hsecond : Csv.parse_process_char
                          (Csv.mk_reader Csv.QUOTE_IN_QUOTED_FIELD fs cur (chars cur)) (Some c) =
                        Returns (Csv.mk_reader Csv.IN_QUOTED_FIELD fs (cur ++ String c "")
                                               (chars (cur ++ String c "")))).
      { unfold Csv.parse_process_char. cbn [Csv.state].
        destruct (Ascii.eqb_spec c Csv.quotechar) as [_ | Hne]; [| contradiction].
        rewrite Hadd. reflexivity. }
      rewrite Hfirst. cbn [then_]. rewrite Hsecond. cbn [then_].
      apply IH, Hnext.
    + (* any other character *)
      cbn [feed]. unfold Csv.parse_process_char at 1. cbn [Csv.state].
      destruct (Ascii.eqb_spec c Csv.quotechar) as [Hq' | _]; [contradiction |].
      rewrite Hadd. cbn [then_]. apply IH, Hnext.
Qed.

(** A quoted field, at the start of a field. *)
Lemma feed_quoted (s : string) (st : Csv.ParserState) (fs : list string) :
  st = Csv.START_RECORD \/ st = Csv.START_FIELD ->
  chars s <= Csv.field_limit ->
  feed (Csv.mk_reader st fs "" 0) (quoted s) =
  Returns (Csv.mk_reader Csv.QUOTE_IN_QUOTED_FIELD fs s (chars s)).
Proof.
  intros Hst Hlim. unfold quoted. cbn [feed].
  assert (Hopen : Csv.parse_process_char (Csv.mk_reader st fs "" 0) (Some Csv.quotechar) =
                  Returns (Csv.mk_reader Csv.IN_QUOTED_FIELD fs "" (chars ""))).
  { destruct Hst as [-> | ->]; reflexivity. }
  rewrite Hopen. cbn [then_].
  rewrite feed_app, (feed_escape s fs "") by (cbn [chars]; lia).
  reflexivity.
Qed.

(** The reader on a line of three quoted fields. *)
Lemma read_quoted_line (a b c : string) (rest : list string) :
  chars a <= Csv.field_limit ->
  chars b <= Csv.field_limit ->
  chars c <= Csv.field_limit ->
  Csv.Reader_iternext (((quoted a ++ "," ++ quoted b ++ "," ++ quoted c) ++ nl) :: rest) =
  Returns (Some [a; b; c], rest).
Proof.
  intros Ha Hb Hc. unfold Csv.Reader_iternext. cbn [Csv.read_record].
  rewrite process_line_feed.
  rewrite feed_app.
  unfold Csv.parse_reset.
  rewrite (feed_quoted a Csv.START_RECORD [] (or_introl eq_refl) Ha). cbn [then_].
  change ("," ++ quoted b ++ "," ++ quoted c)
    with (String "," (quoted b ++ "," ++ quoted c)).
  cbn [feed].
  change (Csv.parse_process_char
            (Csv.mk_reader Csv.QUOTE_IN_QUOTED_FIELD [] a (chars a)) (Some ","%char))
    with (Returns (Csv.mk_reader Csv.START_FIELD [a] "" 0)).
  cbn [then_].
  rewrite feed_app.
  rewrite (feed_quoted b Csv.START_FIELD [a] (or_intror eq_refl) Hb). cbn [then_].
  change ("," ++ quoted c) with (String "," (quoted c)).
  cbn [feed].
  change (Csv.parse_process_char
            (Csv.mk_reader Csv.QUOTE_IN_QUOTED_FIELD [a] b (chars b)) (Some ","%char))
    with (Returns (Csv.mk_reader Csv.START_FIELD [a; b] "" 0)).
  cbn [then_].
  rewrite (feed_quoted c Csv.START_FIELD [a; b] (or_intror eq_refl) Hc). cbn [then_].
  reflexivity.
Qed.

(** The row of a line written in quotes. *)
Lemma csv_line_quoted_row (r : option (string * Z * Z)) :
  quotable r = true ->
  exists row,
    (forall rest, Csv.Reader_iternext ((csv_line_quoted r ++ nl) :: rest) =
                  Returns (Some row, rest)) /\
    (forall data, load_row data row = Returns (data ++ days_of [r])%list).
Proof.
  destruct r as [[[date lo] hi] |]; cbn [quotable csv_line_quoted].
  - intros H. apply andb_true_iff in H as [H Hhi]. apply andb_true_iff in H as [H Hlo].
    apply andb_true_iff in H as [_ Hdate].
    apply Z.ltb_lt in Hlo, Hhi. apply Z.leb_le in Hdate.
    exists [date; str_of_int lo; str_of_int hi]. split.
    + intros rest. apply read_quoted_line;
        [exact Hdate | apply (str_of_int_plain lo Hlo) | apply (str_of_int_plain hi Hhi)].
    + intros data. apply load_row_good; assumption.
  - intros _. exists []. split.
    + intros rest. reflexivity.
    + intros data. cbn [load_row days_of]. rewrite app_nil_r. reflexivity.
Qed.

Lemma csv_line_quoted_free (r : option (string * Z * Z)) :
  quotable r = true -> free_of Csv.is_newline_char (csv_line_quoted r) = true.
Proof.
  destruct r as [[[date lo] hi] |]; cbn [quotable csv_line_quoted]; [| reflexivity].
  intros H. apply andb_true_iff in H as [H Hhi]. apply andb_true_iff in H as [H Hlo].
  apply andb_true_iff in H as [Hdate _].
  apply Z.ltb_lt in Hlo, Hhi.
  pose proof (plain_newline_free _ (proj1 (str_of_int_plain lo Hlo))) as Hl.
  pose proof (plain_newline_free _ (proj1 (str_of_int_plain hi Hhi))) as Hh.
  clear Hlo Hhi.
  rewrite !free_of_app, !free_of_quoted, Hdate, Hl, Hh. reflexivity.
Qed.

(** X13: a data file written with all the fields of its rows in quotes, a
    quote within a date doubled, is loaded as these rows: a date may hold
    commas and quotes, but no line end. *)
Theorem load_data_from_csv_quoted (fs : file_system)
    (csv_file eol header : string) (rows : list (option (string * Z * Z))) :
  has_NUL csv_file = false ->
  line_end eol ->
  plain_line header = true ->
  Forall (fun r => quotable r = true) rows ->
  fs csv_file = Some (csv_text_quoted eol header rows) ->
  load_data_from_csv fs csv_file = Returns (days_of rows).
Proof.
  intros Hnul Heol Hheader Hw Hfs.
  rewrite (load_prefix_written csv_line_quoted quotable csv_line_quoted_free
             csv_line_quoted_row fs csv_file eol header rows "");
    try assumption.
  - reflexivity.
  - intros _. discriminate.
  - rewrite string_app_nil_r. exact Hfs.
Qed.

Lemma load_data_from_csv_quoted_witness :
  load_data_from_csv
    (fun path =>
       if String.eqb path "data.csv"
       then Some (csv_text_quoted (String CR "") "date,min,max"
                    [Some ("Monday, 5 July 2021", 50, 70); None;
                     Some (quoted "Tuesday", 30, 90)])
       else None)
    "data.csv" =
  Returns [mk_day "Monday, 5 July 2021" (Int 50) (Int 70);
           mk_day (quoted "Tuesday") (Int 30) (Int 90)].
Proof.
  apply (load_data_from_csv_quoted _ "data.csv" (String CR "") "date,min,max"
           [Some ("Monday, 5 July 2021", 50, 70); None;
            Some (quoted "Tuesday", 30, 90)]).
  - reflexivity.
  - right. right. reflexivity.
  - vm_compute. reflexivity.
  - repeat constructor.
  - reflexivity.
Defined.

(** ** The rendering of a date tells the day *)

Section Rendering.

Import Datetime.

Lemma day_name_inj (k k' : nat) (r r' : string) :
  nth k day_names "" ++ " " ++ r = nth k' day_names "" ++ " " ++ r' ->
  r = r'.
Proof.
  intros H.
  do 8 (try destruct k as [| k]); do 8 (try destruct k' as [| k']);
    cbn [nth day_names append] in H; try discriminate H;
    repeat (injection H as H); exact H.
Qed.

Lemma month_name_inj (m m' : Z) (r r' : string) :
  1 <= m <= 12 -> 1 <= m' <= 12 ->
  nth (Z.to_nat m) month_names "" ++ " " ++ r =
  nth (Z.to_nat m') month_names "" ++ " " ++ r' ->
  m = m' /\ r = r'.
Proof.
  intros Hm Hm' H.
  assert (Hc : m = 1 \/ m = 2 \/ m = 3 \/ m = 4 \/ m = 5 \/ m = 6 \/ m = 7 \/
               m = 8 \/ m = 9 \/ m = 10 \/ m = 11 \/ m = 12) by lia.
  assert (Hc' : m' = 1 \/ m' = 2 \/ m' = 3 \/ m' = 4 \/ m' = 5 \/ m' = 6 \/ m' = 7 \/
                m' = 8 \/ m' = 9 \/ m' = 10 \/ m' = 11 \/ m' = 12) by lia.
  clear Hm Hm'.
  repeat (destruct Hc as [-> | Hc]); try subst m;
    repeat (destruct Hc' as [-> | Hc']); try subst m';
    cbn in H; try discriminate H;
    (split; [reflexivity |]); repeat (injection H as H); exact H.
Qed.

Lemma digit_char_inj (a b : Z) :
  0 <= a <= 9 -> 0 <= b <= 9 -> digit_char a = digit_char b -> a = b.
Proof.
  intros Ha Hb H. apply (f_equal digit_value) in H.
  rewrite (proj1 (proj2 (digit_char_cases a Ha))) in H.
  rewrite (proj1 (proj2 (digit_char_cases b Hb))) in H. exact H.
Qed.

Lemma long_form_inj (y m d y' m' d' : Z) :
  valid_date y m d = true ->
  valid_date y' m' d' = true ->
  long_form y m d = long_form y' m' d' ->
  y = y' /\ m = m' /\ d = d'.
Proof.
  intros Hv Hv' H.
  pose proof (valid_date_bounds y m d Hv) as (Hy & Hm & Hd).
  pose proof (valid_date_bounds y' m' d' Hv') as (Hy' & Hm' & Hd').
  unfold long_form in H.
  apply day_name_inj in H.
  rewrite (zero_pad_2 d), (zero_pad_2 d') in H by lia.
  cbn [append] in H.
  injection H as H1 H2 H.
  apply month_name_inj in H as [-> H]; [| assumption | assumption].
  apply (f_equal (fun s => decimal_value s 0)) in H.
  rewrite !decimal_value_str_of_nonneg in H by lia.
  apply digit_char_inj in H1; [| Z.div_mod_to_equations; lia | Z.div_mod_to_equations; lia].
  apply digit_char_inj in H2; [| Z.div_mod_to_equations; lia | Z.div_mod_to_equations; lia].
  repeat split; [exact H |]. Z.div_mod_to_equations. lia.
Qed.

(** X11: two strings that [convert_date] renders alike are read as the
    same day: the text tells the year, the month and the day of the month. *)
Theorem convert_date_injective (s s' : string) (dt dt' : datetime) :
  fromisoformat s = OK dt ->
  fromisoformat s' = OK dt' ->
  convert_date s = convert_date s' ->
  year dt = year dt' /\ month dt = month dt' /\ day dt = day dt'.
Proof.
  intros Hdt Hdt' H. unfold convert_date in H. rewrite Hdt, Hdt' in H.
  cbn [bind] in H. rewrite !strftime_long_form in H. apply OK_inj in H.
  apply long_form_inj; [apply (fromisoformat_valid s) | apply (fromisoformat_valid s') |];
    assumption.
Qed.

Lemma convert_date_injective_witness :
  year (mk_datetime 2021 7 6 0 0 0 0 None) = year (mk_datetime 2021 7 6 7 0 0 0 (Some 28800000000)) /\
  month (mk_datetime 2021 7 6 0 0 0 0 None) = month (mk_datetime 2021 7 6 7 0 0 0 (Some 28800000000)) /\
  day (mk_datetime 2021 7 6 0 0 0 0 None) = day (mk_datetime 2021 7 6 7 0 0 0 (Some 28800000000)).
Proof.
  apply (convert_date_injective "2021-W27-2" "2021-07-06T07:00:00+08:00");
    vm_compute; reflexivity.
Defined.

End Rendering.

(** ** Temperatures of a data file *)

Lemma shr_1_nonneg (mrs : shr_record) : 0 <= shr_m mrs -> 0 <= shr_m (shr_1 mrs).
Proof.
  destruct mrs as [m r s]. destruct m as [| [p | p |] | [p | p |]]; simpl; lia.
Qed.

Lemma iter_pos_nonneg (p : positive) (mrs : shr_record) :
  0 <= shr_m mrs -> 0 <= shr_m (iter_pos shr_1 p mrs).
Proof.
  revert mrs; induction p as [p IH | p IH |]; intros mrs H; simpl.
  - apply IH, IH, shr_1_nonneg, H.
  - apply IH, IH, H.
  - apply shr_1_nonneg, H.
Qed.

Lemma shr_fexp_nonneg (m e : Z) (l : location) :
  0 <= m -> 0 <= shr_m (fst (shr_fexp prec emax m e l)).
Proof.
  intros H. unfold shr_fexp, shr.
  assert (H0 : 0 <= shr_m (shr_record_of_loc m l)).
  { destruct l as [| []]; exact H. }
  destruct (fexp prec emax (Zdigits2 m + e) - e); cbn [fst];
    [exact H0 | apply iter_pos_nonneg, H0 | exact H0].
Qed.

Lemma round_nearest_even_nonneg (m : Z) (l : location) :
  0 <= m -> 0 <= round_nearest_even m l.
Proof.
  intros H. unfold round_nearest_even.
  destruct l as [| []]; try destruct (Z.even m); lia.
Qed.

Lemma binary_round_aux_not_nan (sx : bool) (mx ex : Z) (lx : location) :
  0 <= mx -> is_nan (binary_round_aux prec emax sx mx ex lx) = false.
Proof.
  intros H. unfold binary_round_aux.
  pose proof (shr_fexp_nonneg mx ex lx H) as H1.
  destruct (shr_fexp prec emax mx ex lx) as [mrs' e']. cbn [fst] in H1.
  pose proof (shr_fexp_nonneg _ e' loc_Exact
                (round_nearest_even_nonneg _ (loc_of_shr_record mrs') H1)) as H2.
  destruct (shr_fexp prec emax _ e' loc_Exact) as [mrs'' e'']. cbn [fst] in H2.
  destruct (shr_m mrs'') as [| m | m]; [reflexivity | | lia].
  destruct (e'' <=? emax - prec); reflexivity.
Qed.

(** The float of an int is a number. *)
Lemma float_of_Z_not_nan (z : Z) : is_nan (float_of_Z z) = false.
Proof.
  unfold float_of_Z, binary_normalize.
  destruct z as [| m | m]; [reflexivity | |];
    unfold binary_round;
    destruct (shl_align m 0 _) as [mz ez];
    apply binary_round_aux_not_nan; lia.
Qed.

Lemma float_Int_not_nan (z : Z) (f : float) : float_ (Int z) = OK f -> is_nan f = false.
Proof.
  unfold float_. pose proof (float_of_Z_not_nan z) as H.
  destruct (float_of_Z z); intros Hf; try discriminate;
    apply OK_inj in Hf; subst f; exact H.
Qed.

Lemma load_row_ints (data : list day) (row : list string) (out : list day) :
  load_row data row = Returns out ->
  Forall (fun d => int_row d = true) data ->
  Forall (fun d => int_row d = true) out.
Proof.
  intros H Hdata. destruct row as [| s row].
  - injection H as <-. exact Hdata.
  - unfold load_row in H.
    do 3 (match type of H with
          | then_ ?c _ = _ =>
              destruct c as [? | ?]; cbn [then_] in H; [| discriminate]
          end).
    injection H as <-. apply Forall_app. split; [exact Hdata |].
    constructor; [reflexivity | constructor].
Qed.

Lemma load_rows_ints (bound : nat) (reader : list string) (data out : list day) :
  load_rows bound reader data = Returns out ->
  Forall (fun d => int_row d = true) data ->
  Forall (fun d => int_row d = true) out.
Proof.
  revert reader data; induction bound as [| bound IH]; intros reader data H Hdata;
    rewrite load_rows_S in H;
    (destruct (Csv.Reader_iternext reader) as [[[row |] rest] | e'];
     cbn [then_] in H;
     [ | injection H as <-; exact Hdata | discriminate ]);
    (destruct (load_row data row) as [data' | e'] eqn:Hrow; cbn [then_] in H;
     [ | discriminate ]);
    pose proof (load_row_ints _ _ _ Hrow Hdata) as Hdata'.
  - injection H as <-. exact Hdata'.
  - apply (IH rest data' H Hdata').
Qed.

Lemma int_column_no_nan (column : day -> num) (data : list day) (fs : list float) :
  (forall d, In d data -> exists z, column d = Int z) ->
  mapM float_ (map column data) = OK fs ->
  no_nan fs = true.
Proof.
  revert fs; induction data as [| d data IH]; intros fs Hint H.
  - apply OK_inj in H. subst fs. reflexivity.
  - cbn [map mapM] in H.
    apply bind_OK in H as (f & Hf & H). apply bind_OK in H as (fs' & Hfs & H).
    apply OK_inj in H. subst fs.
    destruct (Hint d (or_introl eq_refl)) as (z & Hz). rewrite Hz in Hf.
    unfold no_nan. cbn [forallb]. rewrite (float_Int_not_nan z f Hf).
    apply (IH fs' (fun d' Hd' => Hint d' (or_intror Hd')) Hfs).
Qed.

(** X14: the temperatures that [load_data_from_csv] returns are ints,
    whatever the file holds; so the columns that [find_min], [find_max]
    and [calculate_mean] are given hold no NaN. *)
Theorem load_data_from_csv_ints (fs : file_system) (csv_file : string)
    (data : list day) :
  load_data_from_csv fs csv_file = Returns data ->
  Forall (fun d => int_row d = true) data /\
  (forall lows, mapM float_ (map min_temp data) = OK lows -> no_nan lows = true) /\
  (forall highs, mapM float_ (map max_temp data) = OK highs -> no_nan highs = true).
Proof.
  intros H.
  assert (Hints : Forall (fun d => int_row d = true) data).
  { unfold load_data_from_csv in H.
    destruct (open_ fs csv_file) as [file | e]; cbn [then_] in H; [| discriminate].
    destruct (next file) as [[header reader] | e]; cbn [then_] in H; [| discriminate].
    apply (load_rows_ints _ _ _ _ H). constructor. }
  split; [exact Hints |].
  rewrite Forall_forall in Hints.
  split; intros fs' Hfs';
    [apply (int_column_no_nan min_temp data fs') | apply (int_column_no_nan max_temp data fs')];
    try exact Hfs';
    intros d Hd; specialize (Hints d Hd); unfold int_row in Hints;
    destruct (min_temp d) as [lo | ?], (max_temp d) as [hi | ?]; try discriminate;
    eexists; reflexivity.
Qed.

Lemma load_data_from_csv_ints_witness :
  Forall (fun d => int_row d = true) dataset_2 /\
  (forall lows, mapM float_ (map min_temp dataset_2) = OK lows -> no_nan lows = true) /\
  (forall highs, mapM float_ (map max_temp dataset_2) = OK highs -> no_nan highs = true).
Proof.
  apply (load_data_from_csv_ints
           (fun path =>
              if String.eqb path "data.csv"
              then Some (csv_text nl "date,min,max"
                           [Some ("2021-07-05", 50, 70); Some ("2021-07-06", 30, 90)])
              else None)
           "data.csv").
  vm_compute. reflexivity.
Defined.

(** ** From the file to the reports *)

Lemma In_degrees (z : Z) : -1000 <= z <= 1000 -> In z degrees.
Proof.
  intros H. unfold degrees.
  replace z with (Z.of_nat (Z.to_nat (z + 1000)) - 1000) by lia.
  apply (in_map (fun k => Z.of_nat k - 1000)). apply in_seq. lia.
Qed.

Lemma degrees_convert : forallb converts degrees = true.
Proof. vm_compute. reflexivity. Qed.

Lemma float_of_degrees (z : Z) :
  -1000 <= z <= 1000 -> exists f, float_ (Int z) = OK f /\ is_nan f = false.
Proof.
  intros H. pose proof degrees_convert as Hall.
  rewrite forallb_forall in Hall. specialize (Hall z (In_degrees z H)).
  unfold converts in Hall. destruct (float_ (Int z)) as [f | e]; [| discriminate].
  exists f. split; [reflexivity | apply negb_true_iff, Hall].
Qed.

Lemma small_below_4300_digits (z : Z) : -1000 <= z <= 1000 -> Z.abs z < 10 ^ 4300.
Proof.
  intros H. apply Z.le_lt_trans with 1000; [lia |]. reflexivity.
Qed.

Lemma chars_le_length (s : string) : chars s <= Z.of_nat (String.length s).
Proof.
  induction s as [| c s IH]; [simpl; lia |].
  cbn [chars String.length]. destruct (Utf8.continuation c); lia.
Qed.

(** An ISO date needs no quotes. *)
Lemma iso_date_plain (s : string) (r : Z * Z * Z) :
  iso_date s = Some r -> plain_field s = true.
Proof.
  intros H.
  destruct s as [| y1 t]; [discriminate |]. destruct t as [| y2 t]; [discriminate |].
  destruct t as [| y3 t]; [discriminate |]. destruct t as [| y4 t]; [discriminate |].
  destruct t as [| h1 t]; [discriminate |]. destruct t as [| m1 t]; [discriminate |].
  destruct t as [| m2 t]; [discriminate |]. destruct t as [| h2 t]; [discriminate |].
  destruct t as [| d1 t]; [discriminate |]. destruct t as [| d2 t]; [discriminate |].
  destruct t; [| discriminate].
  unfold iso_date in H. cbn [forallb] in H.
  match type of H with (if ?b then _ else _) = _ => destruct b eqn:Hb end;
    [| discriminate].
  clear H.
  apply andb_true_iff in Hb as [Hb Hh2]. apply andb_true_iff in Hb as [Hb Hh1].
  apply Ascii.eqb_eq in Hh1, Hh2. subst h1 h2.
  apply andb_true_iff in Hb as [Hy1 Hb]. apply andb_true_iff in Hb as [Hy2 Hb].
  apply andb_true_iff in Hb as [Hy3 Hb]. apply andb_true_iff in Hb as [Hy4 Hb].
  apply andb_true_iff in Hb as [Hm1 Hb]. apply andb_true_iff in Hb as [Hm2 Hb].
  apply andb_true_iff in Hb as [Hd1 Hb]. apply andb_true_iff in Hb as [Hd2 _].
  unfold plain_field, plain_line.
  match goal with
  | |- free_of special ?t && (chars ?t <=? _) && free_of is_comma ?t = true =>
      pose proof (chars_le_length t) as Hlen
  end.
  cbn [String.length] in Hlen.
  apply andb_true_iff. split; [apply andb_true_iff; split |].
  - cbn [free_of].
    rewrite (proj1 (digit_is_text _ Hy1)), (proj1 (digit_is_text _ Hy2)),
      (proj1 (digit_is_text _ Hy3)), (proj1 (digit_is_text _ Hy4)),
      (proj1 (digit_is_text _ Hm1)), (proj1 (digit_is_text _ Hm2)),
      (proj1 (digit_is_text _ Hd1)), (proj1 (digit_is_text _ Hd2)).
    reflexivity.
  - apply Z.leb_le. unfold Csv.field_limit. lia.
  - cbn [free_of].
    rewrite (proj1 (proj2 (digit_is_text _ Hy1))), (proj1 (proj2 (digit_is_text _ Hy2))),
      (proj1 (proj2 (digit_is_text _ Hy3))), (proj1 (proj2 (digit_is_text _ Hy4))),
      (proj1 (proj2 (digit_is_text _ Hm1))), (proj1 (proj2 (digit_is_text _ Hm2))),
      (proj1 (proj2 (digit_is_text _ Hd1))), (proj1 (proj2 (digit_is_text _ Hd2))).
    reflexivity.
Qed.

Lemma weather_row_parts (date : string) (lo hi : Z) :
  weather_row (Some (date, lo, hi)) = true ->
  (exists r, iso_date date = Some r) /\ -1000 <= lo <= 1000 /\ -1000 <= hi <= 1000.
Proof.
  cbn [weather_row]. intros H.
  repeat (apply andb_true_iff in H as [H ?]).
  destruct (iso_date date) as [r |]; [| discriminate].
  split; [exists r; reflexivity | lia].
Qed.

Lemma weather_row_writable (r : option (string * Z * Z)) :
  weather_row r = true -> writable r = true.
Proof.
  destruct r as [[[date lo] hi] |]; [| reflexivity].
  intros H. apply weather_row_parts in H as ((r & Hr) & Hlo & Hhi).
  cbn [writable]. rewrite (iso_date_plain date r Hr). cbn [andb].
  apply andb_true_iff. split; apply Z.ltb_lt, small_below_4300_digits; assumption.
Qed.

(** The days that weather rows stand for have dates that
    [convert_date] accepts and temperatures that are floats. *)
Lemma weather_days (rows : list (option (string * Z * Z))) :
  Forall (fun r => weather_row r = true) rows ->
  (forall d, In d (days_of rows) -> row_error d = None) /\
  (forall d, In d (days_of rows) -> exists out, convert_date (date d) = OK out) /\
  (exists lows, mapM float_ (map min_temp (days_of rows)) = OK lows /\ no_nan lows = true) /\
  (exists highs, mapM float_ (map max_temp (days_of rows)) = OK highs /\ no_nan highs = true).
Proof.
  induction 1 as [| r rows Hr _ (IH1 & IH2 & (lows & Hlows & Hnl) & (highs & Hhighs & Hnh))].
  - repeat split; try (intros d []).
    + exists []. split; reflexivity.
    + exists []. split; reflexivity.
  - destruct r as [[[dt lo] hi] |]; [| repeat split; eauto].
    apply weather_row_parts in Hr as (([[y m] dd] & Hiso) & Hlo & Hhi).
    destruct (float_of_degrees lo Hlo) as (flo & Hflo & Hnlo).
    destruct (float_of_degrees hi Hhi) as (fhi & Hfhi & Hnhi).
    pose proof (fromisoformat_iso_date dt y m dd Hiso) as Hdt.
    assert (Hconv : exists out, convert_date dt = OK out).
    { unfold convert_date. rewrite Hdt. eexists. reflexivity. }
    cbn [days_of map].
    split; [| split; [| split]].
    + intros d [<- | Hd]; [| apply IH1, Hd].
      unfold row_error, convert_f_to_c. cbn [date min_temp max_temp].
      destruct Hconv as (out & ->). rewrite Hflo, Hfhi. reflexivity.
    + intros d [<- | Hd]; [exact Hconv | apply IH2, Hd].
    + exists (flo :: lows). cbn [mapM min_temp]. rewrite Hflo, Hlows. cbn [bind].
      split; [reflexivity |]. unfold no_nan in *. cbn [forallb]. rewrite Hnlo, Hnl.
      reflexivity.
    + exists (fhi :: highs). cbn [mapM max_temp]. rewrite Hfhi, Hhighs. cbn [bind].
      split; [reflexivity |]. unfold no_nan in *. cbn [forallb]. rewrite Hnhi, Hnh.
      reflexivity.
Qed.

(** X12: a file of weather rows, ISO dates with whole temperatures between
    -1000 and 1000 degrees, goes through the whole program without an
    exception: it is loaded as its rows, the daily summary has four lines
    for each of them, and the overview has five lines unless there is no
    row. *)
Theorem load_then_summaries (fs : file_system) (csv_file eol header : string)
    (rows : list (option (string * Z * Z))) :
  has_NUL csv_file = false ->
  line_end eol ->
  plain_line header = true ->
  Forall (fun r => weather_row r = true) rows ->
  fs csv_file = Some (csv_text eol header rows) ->
  exists daily overview,
    load_data_from_csv fs csv_file = Returns (days_of rows) /\
    generate_daily_summary (days_of rows) = OK daily /\
    List.length (lines daily) = (4 * List.length (days_of rows))%nat /\
    generate_summary (days_of rows) = OK overview /\
    (days_of rows = [] \/ List.length (lines overview) = 5%nat).
Proof.
  intros Hnul Heol Hheader Hrows Hfs.
  assert (Hw : Forall (fun r => writable r = true) rows).
  { apply (Forall_impl _ weather_row_writable), Hrows. }
  destruct (weather_days rows Hrows)
    as (Herr & Hdates & (lows & Hlows & Hnl) & (highs & Hhighs & Hnh)).
  destruct (mapM_daily_block_OK _ Herr) as (blocks & Hblocks).
  destruct (lines_blocks _ _ Hblocks) as (rendered_rows & Hrendered & Hlines).
  assert (Hsummary : exists overview,
             generate_summary (days_of rows) = OK overview /\
             (days_of rows = [] \/ List.length (lines overview) = 5%nat)).
  { destruct (days_of rows) as [| d ds] eqn:Hdays.
    - eexists. split; [reflexivity | left; reflexivity].
    - destruct (generate_summary_returns d ds lows highs Hlows Hnl Hhighs Hnh Hdates)
        as (overview & Hov).
      exists overview. split; [exact Hov | right].
      apply generate_summary_anatomy in Hov
        as (v1 & i1 & v2 & i2 & r1 & r2 & d1 & d2 & c1 & c2 & m1 & m2 & a1 & a2 &
            _ & _ & _ & Hd1 & _ & Hd2 & _ & _ & _ & _ & _ & _ & ->).
      rewrite overview_lines;
        first [ reflexivity
              | apply no_newline_len
              | apply no_newline_format_temperature
              | exact (no_newline_convert_date _ _ Hd1)
              | exact (no_newline_convert_date _ _ Hd2) ]. }
  destruct Hsummary as (overview & Hov & Hfive).
  exists (join blocks), overview.
  split.
  { rewrite (load_data_from_csv_prefix fs csv_file eol header rows "");
      try assumption.
    - reflexivity.
    - intros _. discriminate.
    - rewrite string_app_nil_r. exact Hfs. }
  split; [rewrite generate_daily_summary_join, Hblocks; reflexivity |].
  split; [| split; assumption].
  rewrite Hlines, (Forall2_length Hrendered). clear.
  induction rendered_rows as [| [[dt a] b] rs IH]; simpl; [reflexivity | lia].
Qed.

Lemma load_then_summaries_witness :
  exists daily overview,
    load_data_from_csv
      (fun path =>
         if String.eqb path "data.csv"
         then Some (csv_text nl "date,min,max"
                             [Some ("2021-07-05", 50, 70); Some ("2021-07-06", 30, 90)])
         else None)
      "data.csv" = Returns dataset_2 /\
    generate_daily_summary dataset_2 = OK daily /\
    List.length (lines daily) = 8%nat /\
    generate_summary dataset_2 = OK overview /\
    (dataset_2 = [] \/ List.length (lines overview) = 5%nat).
Proof.
  apply (load_then_summaries _ "data.csv" nl "date,min,max"
           [Some ("2021-07-05", 50, 70); Some ("2021-07-06", 30, 90)]).
  - reflexivity.
  - left. reflexivity.
  - vm_compute. reflexivity.
  - repeat constructor.
  - reflexivity.
Defined.

(** ** Whole degrees Fahrenheit *)

Lemma degrees_shown_exactly : forallb shown_exactly degrees = true.
Proof. vm_compute. reflexivity. Qed.

Lemma celsius_tenths_nearest (z : Z) :
  2 * Z.abs (9 * celsius_tenths z - 50 * (z - 32)) < 9.
Proof.
  unfold celsius_tenths.
  pose proof (Z.div_mod (100 * (z - 32) + 9) 18 ltac:(lia)) as Hdiv.
  pose proof (Z.mod_pos_bound (100 * (z - 32) + 9) 18 ltac:(lia)) as Hmod.
  lia.
Qed.

(** X16: for a whole number of degrees Fahrenheit between -1000 and 1000,
    the temperature shown is the exact conversion [(z - 32) * 5 / 9]
    rounded to the nearest tenth of a degree Celsius, written with one
    decimal: the roundings of the floating-point operations do not show. *)
Theorem convert_f_to_c_whole_degrees (z : Z) :
  -1000 <= z <= 1000 ->
  exists c,
    convert_f_to_c (Int z) = OK c /\
    format_temperature (Float c) = tenths_str (celsius_tenths z) ++ DEGREE_SYMBOL /\
    2 * Z.abs (9 * celsius_tenths z - 50 * (z - 32)) < 9.
Proof.
  intros Hz.
  pose proof (proj1 (forallb_forall shown_exactly degrees) degrees_shown_exactly z
                (In_degrees z Hz)) as H.
  unfold shown_exactly in H.
  destruct (convert_f_to_c (Int z)) as [c | e]; [| discriminate].
  exists c. split; [reflexivity |]. split; [| apply celsius_tenths_nearest].
  apply String.eqb_eq, H.
Qed.

Lemma convert_f_to_c_whole_degrees_witness :
  exists c,
    convert_f_to_c (Int 31) = OK c /\
    format_temperature (Float c) = "-0.6°C" /\
    2 * Z.abs (9 * (-6) - 50 * (31 - 32)) < 9.
Proof.
  apply (convert_f_to_c_whole_degrees 31). lia.
Defined.
